(** * faucris: web-service client for FAU-CRIS records

    A shallow embedding of [faucris.py]: entity normalization
    ([CrisEntity]), fetch and merge ([FauCris.retrieve]), predicate filters
    ([Selector]), grouping and sorting ([Formatter]) and the BibTeX mapping
    ([Publication.toBibTeX]).

    Python values are modelled as follows.
    - [str] is [string]; [str.lower] folds the ASCII letters only.
    - [None]-or-[str] is [option string].
    - A [dict] is an association list with distinct keys kept in insertion
      order, which is the order Python iterates in.
    - A call either returns, raises, or leaves the model ([Beyond]); code
      after a raise does not run. *)

From stdpp Require Import base list strings sorting.
From Stdlib Require Import ZArith DecimalString DecimalPos DecimalZ Ascii String.

Local Open Scope string_scope.
Local Open Scope list_scope.
Set Warnings "-register-all".

(** ** Python runtime *)

Module Py.

Inductive exn : Type :=
| KeyError
| IndexError
| AttributeError
| NameError
| UnboundLocalError
| TypeError
| ValueError
| Exception (msg : string).

#[global] Instance exn_eq_dec : EqDecision exn.
Proof. solve_decision. Defined.

(** [Beyond] marks a run whose continuation depends on parts of the
    interpreter that are not modelled here; it is never a result. *)
Inductive outcome (A : Type) : Type :=
| Ok (a : A)
| Raise (e : exn)
| Beyond.
Arguments Ok {A} a.
Arguments Raise {A} e.
Arguments Beyond {A}.

Definition bind {A B : Type} (m : outcome A) (f : A -> outcome B) : outcome B :=
  match m with
  | Ok a => f a
  | Raise e => Raise e
  | Beyond => Beyond
  end.

#[global] Instance outcome_bind : MBind outcome := fun A B f m => bind m f.

(** [try: m  except: h] with a bare [except]. *)
Definition try_except {A : Type} (m : outcome A) (h : outcome A) : outcome A :=
  match m with
  | Raise _ => h
  | _ => m
  end.

(** [try: m  except E: h]. *)
Definition try_except_on {A : Type} (E : exn) (m : outcome A) (h : outcome A)
  : outcome A :=
  match m with
  | Raise e => if decide (e = E) then h else m
  | _ => m
  end.

Fixpoint for_each {A S : Type} (body : S -> A -> outcome S) (l : list A) (s : S)
  : outcome S :=
  match l with
  | [] => Ok s
  | x :: l' => bind (body s x) (for_each body l')
  end.

(** *** Strings *)

Definition lower_ascii (c : ascii) : ascii :=
  let n := nat_of_ascii c in
  if (65 <=? n)%nat && (n <=? 90)%nat then ascii_of_nat (n + 32) else c.

Fixpoint lower (s : string) : string :=
  match s with
  | EmptyString => EmptyString
  | String c s' => String (lower_ascii c) (lower s')
  end.

(** [s.split('__')]: the pieces between the non-overlapping occurrences of
    the separator, scanned from the left; [cur] is the piece being read. *)
Fixpoint split_from (cur : string) (s : string) : list string :=
  match s with
  | EmptyString => [cur]
  | String "_" (String "_" rest) => cur :: split_from EmptyString rest
  | String c s' => split_from (cur +:+ String c EmptyString) s'
  end.

Definition split__ (s : string) : list string := split_from EmptyString s.

(** [sub in s]. *)
Fixpoint contains (s sub : string) : bool :=
  String.prefix sub s ||
  match s with
  | EmptyString => false
  | String _ s' => contains s' sub
  end.

(** [l[i]] on a list. *)
Definition index {A : Type} (l : list A) (i : nat) : outcome A :=
  match l !! i with
  | Some x => Ok x
  | None => Raise IndexError
  end.

(** Values a caller passes as references in a criteria mapping. *)
Inductive pyval : Type :=
| VNone
| VInt (z : Z)
| VStr (s : string).

Definition str_of_Z (z : Z) : string := NilEmpty.string_of_int (Z.to_int z).

Definition str (v : pyval) : string :=
  match v with
  | VNone => "None"
  | VInt z => str_of_Z z
  | VStr s => s
  end.

Definition of_opt (o : option string) : pyval :=
  match o with
  | None => VNone
  | Some s => VStr s
  end.

(** *** Dictionaries *)

Section Dict.
Context {K V : Type} `{EqDecision K}.

(** [d.get(k)] *)
Fixpoint dict_get (d : list (K * V)) (k : K) : option V :=
  match d with
  | [] => None
  | (k', v) :: d' => if decide (k' = k) then Some v else dict_get d' k
  end.

(** [d[k]] *)
Definition dict_getitem (d : list (K * V)) (k : K) : outcome V :=
  match dict_get d k with
  | Some v => Ok v
  | None => Raise KeyError
  end.

(** [k in d] *)
Definition dict_in (k : K) (d : list (K * V)) : bool :=
  match dict_get d k with
  | Some _ => true
  | None => false
  end.

(** [d[k] = v]: an existing key keeps its position. *)
Fixpoint dict_set (d : list (K * V)) (k : K) (v : V) : list (K * V) :=
  match d with
  | [] => [(k, v)]
  | (k', v') :: d' =>
      if decide (k' = k) then (k, v) :: d' else (k', v') :: dict_set d' k v
  end.

Definition dict_keys (d : list (K * V)) : list K := d.*1.
End Dict.

(** *** The attributes of [str] reached through [getattr]

    [Selector.evaluate] looks up ['__%s__' % op] on a string.  The rich
    comparisons and [__contains__] return a [bool]; [__add__] returns a
    string; the remaining attributes of [str] exist but what calling them
    with one string does is not modelled. *)
Inductive str_attr : Type :=
| Compare (f : string -> string -> bool)
| Concat
| OtherAttr.

Definition other_str_attrs : list string :=
  [ "__class__"; "__delattr__"; "__dir__"; "__doc__"; "__format__";
    "__getattribute__"; "__getitem__"; "__getnewargs__"; "__getstate__";
    "__hash__"; "__init__"; "__init_subclass__"; "__iter__"; "__len__";
    "__mod__"; "__mul__"; "__new__"; "__reduce__"; "__reduce_ex__";
    "__repr__"; "__rmod__"; "__rmul__"; "__setattr__"; "__sizeof__";
    "__str__"; "__subclasshook__" ].

Definition getattr_str (name : string) : outcome str_attr :=
  if decide (name = "__eq__") then Ok (Compare String.eqb)
  else if decide (name = "__ne__") then Ok (Compare (fun a b => negb (String.eqb a b)))
  else if decide (name = "__lt__") then Ok (Compare String.ltb)
  else if decide (name = "__le__") then Ok (Compare String.leb)
  else if decide (name = "__gt__") then Ok (Compare (fun a b => String.ltb b a))
  else if decide (name = "__ge__") then Ok (Compare (fun a b => String.leb b a))
  else if decide (name = "__contains__") then Ok (Compare contains)
  else if decide (name = "__add__") then Ok Concat
  else if bool_decide (name ∈ other_str_attrs) then Ok OtherAttr
  else Raise AttributeError.

(** [method(v) is False] for [method = getattr(value, name)]. *)
Definition call_is_False (m : str_attr) (value v : string) : outcome bool :=
  match m with
  | Compare f => Ok (negb (f value v))
  | Concat => Ok false
  | OtherAttr => Beyond
  end.

End Py.

Import Py.


Definition SORT_ASC : Z := 1.
Definition SORT_DESC : Z := 2.

(** ** Parsed XML (the [lxml.etree] elements the code reads) *)

Module Xml.

Inductive element : Type :=
| Element (tag : string) (attrib : list (string * string))
          (text : option string) (children : list element).

Definition tag (e : element) : string :=
  match e with Element t _ _ _ => t end.

(** [e.get(name)] *)
Definition get (e : element) (name : string) : option string :=
  match e with Element _ a _ _ => dict_get a name end.

Definition text (e : element) : option string :=
  match e with Element _ _ x _ => x end.

Definition getchildren (e : element) : list element :=
  match e with Element _ _ _ cs => cs end.

(** [e.xpath('./name')]: the children with that tag, in document order. *)
Definition xpath_child (name : string) (e : element) : list element :=
  filter (fun c => tag c = name) (getchildren e).

(** The element and everything below it, in document order. *)
Fixpoint descendants (e : element) : list element :=
  match e with
  | Element _ _ _ cs => e :: flat_map descendants cs
  end.

(** [root.xpath("//infoObject[@type='T']")] *)
Definition xpath_infoObject (T : string) (root : element) : list element :=
  filter (fun e => tag e = "infoObject" /\ get e "type" = Some T)
         (descendants root).

End Xml.

(** ** [class CrisEntity] *)

Module CrisEntity.

(** [_data] is [None] when the attribute was never assigned, which is
    what [__init__] does for [initial_data=None]. *)
Record t : Type := { _data : option (list (string * option string)) }.

(** The value read for one [attribute] child. *)
Definition read_value (_c : Xml.element) : outcome (option string) :=
  if decide (Xml.get _c "disposition" = Some "choicegroup") then
    try_except
      (n ← index (Xml.xpath_child "additionalInfo" _c) 0; Ok (Xml.text n))
      (Ok None)
  else
    n ← index (Xml.xpath_child "data" _c) 0; Ok (Xml.text n).

(** The body of the loop over [initial_data.getchildren()]. *)
Definition read_child (data : list (string * option string)) (_c : Xml.element)
  : outcome (list (string * option string)) :=
  if decide (lower (Xml.tag _c) ≠ "attribute") then Ok data
  else
    name ← match Xml.get _c "name" with
           | Some n => Ok (lower n)
           | None => Raise AttributeError
           end;
    let name := if decide (Xml.get _c "language" = Some "1")
                then name +:+ "_en" else name in
    value ← read_value _c;
    Ok (dict_set data name value).

Definition core_fields (initial_data : Xml.element)
  : list (string * option string) :=
  foldl (fun data _i => dict_set data (lower _i) (Xml.get initial_data _i))
        [] ["id"; "createdOn"; "updatedOn"].

Definition __init__ (initial_data : option Xml.element) : outcome t :=
  match initial_data with
  | None => Ok {| _data := None |}
  | Some x =>
      data ← for_each read_child (Xml.getchildren x) (core_fields x);
      Ok {| _data := Some data |}
  end.

Definition __getitem__ (self : t) (item : string) : outcome (option string) :=
  match _data self with
  | None => Raise AttributeError
  | Some d => Ok (mjoin (dict_get d item))
  end.

End CrisEntity.

(** ** [class Selector] *)

Module Selector.

Record t : Type := { selectors : list (string * list (string * string)) }.

(** The body of the loop over the keys of [criteria]. *)
Definition add_criterion (criteria : list (string * pyval))
    (flist : list (string * list (string * string))) (k : string)
  : outcome (list (string * list (string * string))) :=
  let op := split__ (lower k) in
  op0 ← index op 0;
  let flist := if dict_in op0 flist then flist else dict_set flist op0 [] in
  let v := str (default VNone (dict_get criteria k)) in
  inner ← dict_getitem flist op0;
  op1 ← index op 1;
  Ok (dict_set flist op0 (dict_set inner op1 v)).

Definition __init__ (criteria : list (string * pyval)) : outcome t :=
  flist ← for_each (add_criterion criteria) (dict_keys criteria) [];
  Ok {| selectors := flist |}.

(** The inner loop: [false] as soon as one method call is [False]. *)
Fixpoint check_ops (value : string) (_s : list (string * string)) : outcome bool :=
  match _s with
  | [] => Ok true
  | (_o, _v) :: rest =>
      method ← getattr_str ("__" +:+ _o +:+ "__");
      isF ← call_is_False method value _v;
      if isF : bool then Ok false else check_ops value rest
  end.

Fixpoint evaluate_items (dataset : CrisEntity.t)
    (items : list (string * list (string * string))) : outcome bool :=
  match items with
  | [] => Ok true
  | (_a, _s) :: rest =>
      match (x ← CrisEntity.__getitem__ dataset _a; Ok (lower (str (of_opt x)))) with
      | Raise KeyError => evaluate_items dataset rest
      | Raise e => Raise e
      | Beyond => Beyond
      | Ok value =>
          ok ← check_ops value _s;
          if ok : bool then evaluate_items dataset rest else Ok false
      end
  end.

Definition evaluate (self : t) (dataset : CrisEntity.t) : outcome bool :=
  evaluate_items dataset (selectors self).

End Selector.

(** ** [class FauCris] *)

Module FauCris.

Inductive entity_class : Type := Organization | Publication.

Definition xpath (_class : entity_class) (root : Xml.element) : list Xml.element :=
  match _class with
  | Organization => Xml.xpath_infoObject "Organisation" root
  | Publication => Xml.xpath_infoObject "Publication" root
  end.

(** [_class(_s)]: both subclasses only call [CrisEntity.__init__]. *)
Definition construct (_class : entity_class) (_s : Xml.element)
  : outcome CrisEntity.t :=
  CrisEntity.__init__ (Some _s).

(** What a caller may pass as [selector]. *)
Inductive selector_arg : Type :=
| NoSelector
| Instance_ (s : Selector.t)
| Criteria (c : list (string * pyval)).

Definition as_selector (selector : selector_arg) : outcome (option Selector.t) :=
  match selector with
  | NoSelector => Ok None
  | Instance_ s => Ok (Some s)
  | Criteria c => s ← Selector.__init__ c; Ok (Some s)
  end.

Definition truthy (x : option string) : bool :=
  match x with
  | None | Some EmptyString => false
  | Some _ => true
  end.

Section Retrieve.
(** The transport and the XML parser, as a function of the request:
    the root element, or [None] when the request or the parse fails. *)
Variable response : string -> option Xml.element.

(** [self.get(identifier, selector)] *)
Definition get (identifier : string) : outcome Xml.element :=
  match response identifier with
  | Some root => Ok root
  | None => Raise (Exception "request failed")
  end.

(** First loop: a request that fails is skipped. *)
Definition fetch (data : list Xml.element) (_r : string)
  : outcome (list Xml.element) :=
  try_except (_x ← get _r; Ok (data ++ [_x])) (Ok data).

(** Innermost loop body: one raw record. *)
Definition add_dataset (_class : entity_class) (selector : option Selector.t)
    (result : list (string * CrisEntity.t)) (_s : Xml.element)
  : outcome (list (string * CrisEntity.t)) :=
  dataset ← construct _class _s;
  id ← CrisEntity.__getitem__ dataset "id";
  if truthy id then
    keep ← match selector with
           | None => Ok true
           | Some sel => Selector.evaluate sel dataset
           end;
    if keep : bool then Ok (dict_set result (default EmptyString id) dataset)
    else Ok result
  else Ok result.

(** Second loop body: one parsed document. *)
Definition add_document (_class : entity_class) (selector : option Selector.t)
    (result : list (string * CrisEntity.t)) (_x : Xml.element)
  : outcome (list (string * CrisEntity.t)) :=
  _l ← try_except (Ok (xpath _class _x))
                  (Raise (Exception "invalid xml data or xpath"));
  for_each (add_dataset _class selector) _l result.

Definition retrieve (reqs : list string) (_class : entity_class)
    (selector : selector_arg) : outcome (list (string * CrisEntity.t)) :=
  selector ← as_selector selector;
  data ← for_each fetch reqs [];
  for_each (add_document _class selector) data [].

End Retrieve.

End FauCris.

(** ** [class Formatter] *)

Module Formatter.

(** A group key is whatever [groupvalue] holds: a string or [None]. *)
Abbreviation key := (option string).

(** [group_order] and [sort_order]: an integer or a list. *)
Inductive order : Type :=
| Sentinel (n : Z)
| Listed (l : list key).

Record t : Type := {
  group_by : option string;
  group_order : order;
  sort_by : option string;
  sort_order : order
}.

Definition is_sentinel (o : order) : bool :=
  match o with
  | Sentinel n => bool_decide (n = SORT_ASC \/ n = SORT_DESC)
  | Listed _ => false
  end.

(** [o == SORT_DESC] *)
Definition is_desc (o : order) : bool :=
  match o with
  | Sentinel n => bool_decide (n = SORT_DESC)
  | Listed _ => false
  end.

(** [x.lower()] on a value that may be [None]. *)
Definition lower_method (x : option string) : outcome string :=
  match x with
  | Some s => Ok (lower s)
  | None => Raise AttributeError
  end.

(** [o if o in (SORT_ASC, SORT_DESC) else [_i.lower() for _i in o]] *)
Definition read_order (o : order) : outcome order :=
  if is_sentinel o then Ok o
  else match o with
       | Sentinel _ => Raise TypeError
       | Listed l => l' ← for_each (fun acc _i => s ← lower_method _i;
                                                  Ok (acc ++ [Some s])) l [];
                     Ok (Listed l')
       end.

Definition __init__ (group_by : option string) (group_order : order)
    (sort_by : option string) (sort_order : order) : outcome t :=
  let gb := lower <$> group_by in
  go ← read_order group_order;
  sb ← try_except_on ValueError (s ← lower_method sort_by; Ok (Some s)) (Ok None);
  so ← read_order sort_order;
  Ok {| group_by := gb; group_order := go; sort_by := sb; sort_order := so |}.

(** *** [sorted] *)

Section Sorted.
Context {A : Type}.
Variable sort_key : A -> outcome key.
Variable reverse : bool.

Definition before (a b : string) : bool :=
  if reverse then String.leb b a else String.leb a b.

Fixpoint insert_sorted (x : A * string) (l : list (A * string)) : list (A * string) :=
  match l with
  | [] => [x]
  | y :: l' => if before x.2 y.2 then x :: y :: l' else y :: insert_sorted x l'
  end.

(** [sorted(l, key=sort_key, reverse=reverse)]: stable; comparing [None]
    with anything is a [TypeError], and every element of a list of two or
    more is compared. *)
Definition sorted (l : list A) : outcome (list A) :=
  keys ← for_each (fun acc x => k ← sort_key x; Ok (acc ++ [(x, k)])) l [];
  match keys with
  | [] | [_] => Ok l
  | _ =>
      strs ← for_each (fun acc xk => match xk.2 with
                                     | Some s => Ok (acc ++ [(xk.1, s)])
                                     | None => Raise TypeError
                                     end) keys [];
      Ok ((foldr insert_sorted [] strs).*1)
  end.
End Sorted.

(** *** [execute] *)

(** Grouping loop body.  The state is [unsorted] and the local variable
    [groupvalue], which is unbound ([None]) before its first assignment. *)
Definition group_step (self : t)
    (st : list (key * list CrisEntity.t) * option key)
    (item : string * CrisEntity.t)
  : outcome (list (key * list CrisEntity.t) * option key) :=
  let '(unsorted, groupvalue) := st in
  let d := item.2 in
  groupvalue ←
    match (x ← CrisEntity.__getitem__ d (str (of_opt (group_by self)));
           lower_method x) with
    | Ok g => Ok (Some (Some g))
    | Raise KeyError =>
        Raise (Exception ("selected attribute not found: "
                          +:+ str (of_opt (group_by self))))
    | Raise AttributeError =>
        Ok (if group_by self is None then Some (sort_by self) else groupvalue)
    | Raise e => Raise e
    | Beyond => Beyond
    end;
  gv ← match groupvalue with
       | Some g => Ok g
       | None => Raise UnboundLocalError
       end;
  let unsorted := if dict_in gv unsorted then unsorted else dict_set unsorted gv [] in
  members ← dict_getitem unsorted gv;
  Ok (dict_set unsorted gv (members ++ [d]), groupvalue).

(** [list(s)] for a set [s]: its elements, in an order the interpreter
    chooses. *)
Definition enumeration : Type := { f : list key -> list key | ∀ l, f l ≡ₚ l }.

Section Execute.
Variable list_of_set : enumeration.

(** The list of group keys, and the formatter as this step leaves it:
    in the branch for an explicit list [keylist] is the very list held in
    [self.group_order], so [extend] changes both. *)
Definition order_keys (self : t) (unsorted : list (key * list CrisEntity.t))
  : outcome (list key * t) :=
  if is_sentinel (group_order self) then
    keylist ← sorted (fun k => Ok k)
                     (is_desc (group_order self))
                     (dict_keys unsorted);
    Ok (keylist, self)
  else
    match group_order self with
    | Sentinel _ => Raise TypeError
    | Listed keylist =>
        let missing := filter (fun k => k ∉ keylist) (dict_keys unsorted) in
        let keylist := match missing with
                       | [] => keylist
                       | _ => keylist ++ proj1_sig list_of_set missing
                       end in
        Ok (keylist, {| group_by := group_by self; group_order := Listed keylist;
                        sort_by := sort_by self; sort_order := sort_order self |})
    end.

(** Last loop body. *)
Definition arrange_step (self : t) (unsorted : list (key * list CrisEntity.t))
    (results : list (key * list CrisEntity.t)) (k : key)
  : outcome (list (key * list CrisEntity.t)) :=
  match sort_by self with
  | None => members ← dict_getitem unsorted k; Ok (dict_set results k members)
  | Some sb =>
      if negb (dict_in k unsorted) then Ok results
      else
        members ← dict_getitem unsorted k;
        _x ← try_except_on TypeError
               (sorted (fun y => CrisEntity.__getitem__ y sb)
                       (is_desc (sort_order self))
                       members)
               (Raise (Exception "Cannot sort by unset attribute."));
        Ok (dict_set results k _x)
  end.

(** [execute] returns the formatter as the call leaves it, with the
    outcome of the call. *)
Definition execute (self : t) (data : list (string * CrisEntity.t))
  : t * outcome (list (key * list CrisEntity.t)) :=
  match for_each (group_step self) data ([], None) with
  | Ok (unsorted, _) =>
      match order_keys self unsorted with
      | Ok (keylist, self') =>
          (self', for_each (arrange_step self' unsorted) keylist [])
      | Raise e => (self, Raise e)
      | Beyond => (self, Beyond)
      end
  | Raise e => (self, Raise e)
  | Beyond => (self, Beyond)
  end.

End Execute.

End Formatter.

(** ** [class Publication] *)

Module Publication.

(** *** String helpers used by [toBibTeX] *)

Definition is_space (c : ascii) : bool :=
  let n := nat_of_ascii c in
  ((9 <=? n)%nat && (n <=? 13)%nat) || ((28 <=? n)%nat && (n <=? 32)%nat).

Fixpoint lstrip (s : string) : string :=
  match s with
  | String c s' => if is_space c then lstrip s' else s
  | EmptyString => EmptyString
  end.

Definition strip (s : string) : string :=
  String.rev (lstrip (String.rev (lstrip s))).

(** [s.split(sep)] for a one-character separator. *)
Fixpoint split_on (sep : ascii) (cur : string) (s : string) : list string :=
  match s with
  | EmptyString => [cur]
  | String c s' =>
      if decide (c = sep) then cur :: split_on sep EmptyString s'
      else split_on sep (cur +:+ String c EmptyString) s'
  end.

(** [sep.join(l)] *)
Fixpoint join (sep : string) (l : list string) : string :=
  match l with
  | [] => EmptyString
  | [x] => x
  | x :: l' => x +:+ sep +:+ join sep l'
  end.

Definition is_upper (c : ascii) : bool :=
  let n := nat_of_ascii c in (65 <=? n)%nat && (n <=? 90)%nat.
Definition is_lower (c : ascii) : bool :=
  let n := nat_of_ascii c in (97 <=? n)%nat && (n <=? 122)%nat.
Definition is_digit (c : ascii) : bool :=
  let n := nat_of_ascii c in (48 <=? n)%nat && (n <=? 57)%nat.
(** [\w] *)
Definition is_word (c : ascii) : bool :=
  is_upper c || is_lower c || is_digit c || bool_decide (c = "_"%char).

Definition chars (s : string) : list ascii := list_ascii_of_string s.

Definition islower (s : string) : bool :=
  existsb is_lower (chars s) && negb (existsb is_upper (chars s)).
Definition isdigit (s : string) : bool :=
  negb (bool_decide (s = EmptyString)) && forallb is_digit (chars s).

Inductive phase : Type := Before | Word | After.

(** [re.findall('(\W+)?(\w+)(\W+)?', s)]: one triple per word, each with
    the non-word run before it (only the first can have one) and the run
    after it. *)
Fixpoint scan (ph : phase) (pre word post : string) (s : string)
  : list (string * string * string) :=
  match s with
  | EmptyString =>
      match ph with
      | Before => []
      | _ => [(pre, word, post)]
      end
  | String c s' =>
      let c1 := String c EmptyString in
      if is_word c then
        match ph with
        | Before => scan Word pre c1 EmptyString s'
        | Word => scan Word pre (word +:+ c1) EmptyString s'
        | After => (pre, word, post) :: scan Word EmptyString c1 EmptyString s'
        end
      else
        match ph with
        | Before => scan Before (pre +:+ c1) EmptyString EmptyString s'
        | _ => scan After pre word (post +:+ c1) s'
        end
  end.

Definition findall (s : string) : list (string * string * string) :=
  scan Before EmptyString EmptyString EmptyString s.

(** [s.replace(c + c, c)] *)
Fixpoint collapse (c : ascii) (s : string) : string :=
  match s with
  | String a (String b rest as s') =>
      if decide (a = c /\ b = c) then String c (collapse c rest)
      else String a (collapse c s')
  | _ => s
  end.

(** The masking loop and the two replacements. *)
Definition mask (elements : list (string * string * string)) : string :=
  let _t := foldl (fun _t _i =>
                     let '(a, w, b) := _i in
                     if negb (islower w) && negb (isdigit w)
                     then _t +:+ a +:+ "{" +:+ w +:+ "}" +:+ b
                     else _t +:+ a +:+ w +:+ b)
                  EmptyString elements in
  collapse "}" (collapse "{" _t).

(** *** Name lookup

    The names bound in the module when a method runs: the three imports,
    the two constants and the classes.  Any other name that is neither a
    local nor a builtin raises [NameError]. *)
Definition module_names : list string :=
  [ "collections"; "urllib_request"; "etree"; "SORT_ASC"; "SORT_DESC";
    "FauCris"; "Publications"; "CrisEntity"; "Organization"; "Publication";
    "Selector"; "Formatter" ].

Definition global_name (name : string) : outcome unit :=
  if bool_decide (name ∈ module_names) then Ok tt else Raise NameError.

(** *** [toBibTeX] *)

Definition quote : string := String (ascii_of_nat 34) EmptyString.

Definition types : list (string * string) :=
  [ ("journal article", "article"); ("book", "book"); ("editorial", "book");
    ("article in edited volumes", "incollection");
    ("conference contribution", "inproceedings") ].

Definition thesis_types : list (string * string) :=
  [ ("Dissertation", "phdthesis"); ("Masterarbeit", "masterthesis");
    ("Diplomarbeit", "masterthesis") ].

(** What the method returns: the empty string, or the entry it hands to
    [bibtexparser.dumps]. *)
Inductive bibtex : Type :=
| Empty
| Entry (fields : list (string * string)).

Abbreviation record := (list (string * option string)).

(** [bibdata[k] = data[src]] for each pair, in order. *)
Definition copy (data : record) (pairs : list (string * string)) (bibdata : record)
  : outcome record :=
  for_each (fun b p => v ← dict_getitem data p.2; Ok (dict_set b p.1 v)) pairs bibdata.

Definition falsy (x : option string) : bool :=
  match x with
  | None | Some EmptyString => true
  | _ => false
  end.

(** The [try] block that builds the author string. *)
Definition authors (data : record) : outcome string :=
  ea ← dict_getitem data "exportauthors";
  match ea with
  | None => Raise AttributeError
  | Some ea =>
      names ← for_each (fun acc _k =>
                          match split_on ":" EmptyString _k with
                          | [_i; _j] => Ok (acc ++ [_i +:+ ", " +:+ _j])
                          | _ => Raise ValueError
                          end)
                       (split_on "|" EmptyString ea) [];
      Ok (join " and " names)
  end.

Definition conference_fields (data : record) (bibdata : record) : outcome record :=
  bibdata ← copy data [("booktitle", "conference proceedings title")] bibdata;
  bibdata ← (if falsy (mjoin (dict_get bibdata "booktitle"))
             then copy data [("booktitle", "event title")] bibdata
             else Ok bibdata);
  bibdata ← copy data [("venue", "event location"); ("date", "event start date")] bibdata;
  match mjoin (dict_get bibdata "date") with
  | Some date =>
      e ← dict_getitem data "event end date";
      match e with
      | Some e => Ok (dict_set bibdata "date" (Some (date +:+ "/" +:+ e)))
      | None => Ok bibdata
      end
  | None => Ok bibdata
  end.

Definition toBibTeX (bibtexparser_installed : bool) (self : CrisEntity.t)
    (mask_caps : bool) : outcome bibtex :=
  _ ← (if bibtexparser_installed then Ok tt
       else Raise (Exception ("Please install " +:+ quote +:+ "bibtexparser"
                              +:+ quote +:+ " module!")));
  data ← match CrisEntity._data self with
         | Some d => Ok d
         | None => Raise AttributeError
         end;
  pt ← dict_getitem data "publication type";
  publtype ← Formatter.lower_method pt;
  bibtype ← (if decide (publtype = "thesis") then
               sub ← dict_getitem data "publication thesis subtype";
               Ok (default "misc" (sub ≫= dict_get thesis_types))
             else Ok (default "misc" (dict_get types publtype)));
  id ← dict_getitem data "id";
  let bibdata : record :=
    [("id", Some ("faucris." +:+ str (of_opt id))); ("type", Some bibtype)] in
  bibdata ← copy data
    [ ("year", "publyear"); ("title", "cftitle"); ("note", "note");
      ("keywords", "keywords"); ("abstract", "cfabstr"); ("month", "monthcg");
      ("url", "cfuri"); ("peerreviewed", "peerreviewed");
      ("faupublication", "fau publikation"); ("doi", "doi") ] bibdata;
  let bibdata :=
    match mjoin (dict_get bibdata "abstract") with
    | Some a =>
        if String.prefix "<p>" a
        then dict_set bibdata "abstract"
               (Some (strip (String.substring 3 (String.length a - 9) a)))
        else bibdata
    | None => bibdata
    end in
  bibdata ← (if contains "article" bibtype
             then copy data [ ("journal", "journalname"); ("volume", "book volume");
                              ("pages", "pagesrange") ] bibdata
             else Ok bibdata);
  bibdata ← (if bool_decide (bibtype ∈ ["book"; "incollection"; "editorial";
                                         "inproceedings"])
             then copy data [ ("publisher", "publisher"); ("editor", "editor");
                              ("isbn", "cfisbn"); ("volume", "book volume");
                              ("series", "cfseries"); ("edition", "cfedition");
                              ("address", "cfcitytown"); ("pages", "pagesrange") ]
                       bibdata
             else Ok bibdata);
  bibdata ← (if contains "incollection" bibtype
             then copy data [("booktitle", "edited volumes")] bibdata
             else Ok bibdata);
  conf ← (if contains "inproceedings" bibtype then Ok true
          else if contains "unpublished" bibtype then
                 f ← dict_getitem data "futurepublicationtype";
                 f ← Formatter.lower_method f;
                 Ok (bool_decide (f = "conference contribution"))
               else Ok false);
  bibdata ← (if conf : bool then conference_fields data bibdata else Ok bibdata);
  let bibdata :=
    if bool_decide (bibtype ∈ ["phdthesis"; "masterthesis"])
    then dict_set bibdata "school"
           (Some "Friedrich-Alexander-Universität Erlangen-Nürnberg")
    else bibdata in
  let bibdata :=
    if bool_decide (bibtype = "unpublished") && falsy (mjoin (dict_get bibdata "note"))
    then dict_set bibdata "note"
           (Some ("https://cris.fau.de/converis/publicweb/Publication/"
                  +:+ str (of_opt id)))
    else bibdata in
  match authors data with
  | Raise AttributeError => Ok Empty
  | Raise e => Raise e
  | Beyond => Beyond
  | Ok author_editor =>
      let '(author_editor, bibdata) :=
        match mjoin (dict_get data "complete author relations") with
        | None =>
            (author_editor +:+ " and et al.",
             dict_set
               (dict_set bibdata "support_note"
                  (Some ("Author relations incomplete. " +:+
                         "You may find additional data in field 'author_hint'")))
               "author_hint" (default (Some EmptyString) (dict_get data "srcauthors")))
        | Some _ => (author_editor, bibdata)
        end in
      let bibdata :=
        if decide (publtype = "editorial")
        then dict_set bibdata "editor" (Some author_editor)
        else dict_set bibdata "author" (Some author_editor) in
      bibdata ← (if mask_caps then
                   _ ← global_name "re";
                   title ← dict_getitem bibdata "title";
                   match title with
                   | None => Raise TypeError
                   | Some title =>
                       Ok (dict_set bibdata "title" (Some (mask (findall title))))
                   end
                 else Ok bibdata);
      Ok (Entry (omap (fun kv => match kv.2 with
                                 | Some v => Some (kv.1, v)
                                 | None => None
                                 end) bibdata))
  end.

(** *** [__repr__]

    [address] stands for [id(self)]. *)
Definition __repr__ (address : Z) (self : CrisEntity.t) : outcome string :=
  let data := match CrisEntity._data self with
              | Some d => Ok d
              | None => Raise AttributeError
              end in
  t ← try_except
        (d ← data;
         publyear ← dict_getitem d "publyear";
         cftitle ← dict_getitem d "cftitle";
         match cftitle with
         | None => Raise TypeError
         | Some title =>
             Ok (" (" +:+ str (of_opt publyear) +:+ ": "
                 +:+ String.substring 0 50 title
                 +:+ (if (50 <? String.length title)%nat then "..." else EmptyString)
                 +:+ ")")
         end)
        (Ok EmptyString);
  try_except_on KeyError
    (d ← data;
     id ← dict_getitem d "id";
     Ok ("CRIS publication #" +:+ str (of_opt id) +:+ t))
    (Ok ("Publication object (" +:+ str_of_Z address +:+ ")")).

End Publication.

(** ** [FauCris._parseId], [FauCris._fetch] and [class Publications] *)

Module Publications.

(** *** [int(s)] for a string

    Base ten: blanks around the literal, one sign, and digits with single
    underscores between them. *)
Fixpoint literal_digits (after_digit : bool) (s : string) : option string :=
  match s with
  | EmptyString => if after_digit then Some EmptyString else None
  | String c s' =>
      if Publication.is_digit c then String c <$> literal_digits true s'
      else if bool_decide (c = "_"%char) && after_digit then literal_digits false s'
      else None
  end.

Definition int_of_digits (s : string) : option Z :=
  l ← literal_digits false s;
  Z.of_uint <$> NilEmpty.uint_of_string l.

Definition py_int (s : string) : option Z :=
  match Publication.strip s with
  | EmptyString => None
  | String c s' =>
      if decide (c = "-"%char) then Z.opp <$> int_of_digits s'
      else if decide (c = "+"%char) then int_of_digits s'
      else int_of_digits (String c s')
  end.

(** [int(_i)] *)
Definition to_int (_i : pyval) : outcome Z :=
  match _i with
  | VInt z => Ok z
  | VStr s => match py_int s with
              | Some z => Ok z
              | None => Raise ValueError
              end
  | VNone => Raise TypeError
  end.

(** *** Ids and request templates *)

(** What a caller may pass as an id: [None], an integer, a string, or a
    list (or tuple) of values. *)
Inductive id_arg : Type :=
| IdNone
| IdInt (z : Z)
| IdStr (s : string)
| IdList (l : list pyval).

(** A request template holds one [%d]: the text before it and after it. *)
Record template : Type := { before_d : string; after_d : string }.

(** [t % _i] *)
Definition format (t : template) (_i : Z) : string :=
  before_d t +:+ str_of_Z _i +:+ after_d t.

Definition _parseId (idvalue : id_arg) : id_arg :=
  match idvalue with
  | IdInt z => IdList [VInt z]
  | IdStr s =>
      if contains s ","
      then IdList ((fun _i => VStr (Publication.strip _i))
                     <$> Publication.split_on "," EmptyString s)
      else IdList [VStr s]
  | _ => idvalue
  end.

(** [s.endswith(suffix)] *)
Definition endswith (s suffix : string) : bool :=
  (String.length suffix <=? String.length s)%nat
  && String.eqb (String.substring (String.length s - String.length suffix)
                                  (String.length suffix) s) suffix.

Section Fetch.
Variable response : string -> option Xml.element.

Definition _fetch (name : string) (class_ : FauCris.entity_class)
    (request_templates : list template) (ids : id_arg)
    (selector : FauCris.selector_arg) : outcome (list (string * CrisEntity.t)) :=
  if match ids with
     | IdNone => true
     | IdStr s => bool_decide (s = "0")
     | _ => false
     end
  then Raise (Exception ("Please supply valid id for " +:+ name +:+ "."))
  else
    idlist ← match _parseId ids with
             | IdList l => Ok l
             | _ => Raise TypeError
             end;
    reqs ← for_each
             (fun reqs _i =>
                _i ← try_except_on ValueError (to_int _i)
                       (Raise (Exception ("invalid " +:+ name +:+ " id number")));
                Ok (reqs ++ ((fun t => format t _i) <$> request_templates)))
             idlist [];
    FauCris.retrieve response reqs class_ selector.

(** The check of [by_orga] on one organization. *)
Definition check_orga (_o : CrisEntity.t) : outcome unit :=
  nr ← CrisEntity.__getitem__ _o "fau_org_nr";
  match nr with
  | None => Raise AttributeError
  | Some nr => if endswith nr "000000" then Raise ValueError else Ok tt
  end.

Definition by_orga (id_ : id_arg) (selector : FauCris.selector_arg)
    (disable_orga_check : bool) : outcome (list (string * CrisEntity.t)) :=
  _ ← (if negb disable_orga_check then
         orgas ← _fetch "organization" FauCris.Organization
                   [{| before_d := "get/Organisation/"; after_d := EmptyString |}]
                   id_ FauCris.NoSelector;
         for_each (fun _ item => check_orga item.2) orgas tt
       else Ok tt);
  _fetch "organization" FauCris.Publication
    [ {| before_d := "getautorelated/Organisation/"; after_d := "/ORGA_2_PUBL_1" |};
      {| before_d := "getrelated/Organisation/"; after_d := "/Publ_has_ORGA" |} ]
    id_ selector.

Definition by_id (id_ : id_arg) : outcome (list (string * CrisEntity.t)) :=
  _fetch "publication" FauCris.Publication
    [{| before_d := "get/Publication/"; after_d := EmptyString |}]
    id_ FauCris.NoSelector.

Definition by_pers (id_ : id_arg) (selector : FauCris.selector_arg)
  : outcome (list (string * CrisEntity.t)) :=
  _fetch "person" FauCris.Publication
    [{| before_d := "getautorelated/Person/"; after_d := "/PERS_2_PUBL_1" |}]
    id_ selector.

End Fetch.

End Publications.

(** * Properties *)

(** ** Vocabulary of the statements *)

Section MergeVocabulary.
Variable response : string -> option Xml.element.
Variable _class : FauCris.entity_class.
Variable selector : option Selector.t.

(** The parsed documents of the requests that succeed, in request order. *)
Definition documents (reqs : list string) : list Xml.element := omap response reqs.

(** The raw records of those documents: in request order and, within one
    document, in document order. *)
Definition fetched (reqs : list string) : list Xml.element :=
  documents reqs ≫= FauCris.xpath _class.






End MergeVocabulary.

(** [_c] is one of the children the normalization loop reads. *)
Definition is_attribute (_c : Xml.element) : Prop := lower (Xml.tag _c) = "attribute".

(** The key an attribute child is stored under. *)
Definition attr_key (_c : Xml.element) : option string :=
  name ← Xml.get _c "name";
  Some (if decide (Xml.get _c "language" = Some "1")
        then lower name +:+ "_en" else lower name).

(** ** Fixtures *)

Module Fixtures.

Definition entity (d : list (string * option string)) : CrisEntity.t :=
  {| CrisEntity._data := Some d |}.

Definition attribute (name : string) (markers : list (string * string))
    (subnodes : list Xml.element) : Xml.element :=
  Xml.Element "attribute" (("name", name) :: markers) None subnodes.

Definition node (tag text : string) : Xml.element :=
  Xml.Element tag [] (Some text) [].

Definition infoObject (id : string) (children : list Xml.element) : Xml.element :=
  Xml.Element "infoObject" [("type", "Publication"); ("id", id)] None children.

Definition document (records : list Xml.element) : Xml.element :=
  Xml.Element "infoObjects" [] None records.

(** A record whose [Kind] attribute is a choice group without its
    [additionalInfo] node. *)
Definition record_choicegroup : Xml.element :=
  infoObject "7"
    [ attribute "Publyear" [] [node "data" "2020"];
      attribute "Kind" [("disposition", "choicegroup")] [] ].

(** A record whose [Note] attribute has no [data] node. *)
Definition record_no_data : Xml.element :=
  infoObject "7"
    [ attribute "Publyear" [] [node "data" "2020"];
      attribute "Note" [] [] ].

(** A web service that answers two requests with the same publication, in
    two versions, and fails every other request. *)
Definition two_answers (r : string) : option Xml.element :=
  if decide (r = "a") then
    Some (document [infoObject "7" [attribute "Publyear" [] [node "data" "2015"]]])
  else if decide (r = "b") then
    Some (document [infoObject "7" [attribute "Publyear" [] [node "data" "2016"]];
                    infoObject "8" []])
  else None.

Definition paper : CrisEntity.t :=
  entity
    [ ("id", Some "1060854"); ("publication type", Some "Journal Article");
      ("publyear", Some "2015"); ("cftitle", Some "A Study of XML");
      ("note", None); ("keywords", None); ("cfabstr", None); ("monthcg", None);
      ("cfuri", None); ("peerreviewed", Some "Yes");
      ("fau publikation", Some "yes"); ("doi", None); ("journalname", Some "J");
      ("book volume", Some "3"); ("pagesrange", Some "1-2");
      ("exportauthors", Some "Smith:Jane|Doe:John");
      ("complete author relations", Some "yes") ].

Definition by_year : Formatter.t :=
  {| Formatter.group_by := Some "publyear";
     Formatter.group_order := Formatter.Sentinel SORT_ASC;
     Formatter.sort_by := Some "id";
     Formatter.sort_order := Formatter.Sentinel SORT_ASC |}.

Definition by_type : Formatter.t :=
  {| Formatter.group_by := Some "publication type";
     Formatter.group_order :=
       Formatter.Listed [Some "journal article"; Some "conference contribution"];
     Formatter.sort_by := Some "id";
     Formatter.sort_order := Formatter.Sentinel SORT_ASC |}.

(** A formatter state with [sort_by] unset, which [__init__] never builds. *)
Definition by_year_unsorted : Formatter.t :=
  {| Formatter.group_by := Some "publyear";
     Formatter.group_order := Formatter.Sentinel SORT_ASC;
     Formatter.sort_by := None;
     Formatter.sort_order := Formatter.Sentinel SORT_ASC |}.

Definition e2015 : CrisEntity.t := entity [("id", Some "1"); ("publyear", Some "2015")].
Definition e_no_year : CrisEntity.t := entity [("id", Some "2")].
Definition e2015' : CrisEntity.t := entity [("id", Some "0"); ("publyear", Some "2015")].
Definition e_article : CrisEntity.t :=
  entity [("id", Some "1"); ("publication type", Some "Journal Article")].
Definition e_book : CrisEntity.t :=
  entity [("id", Some "2"); ("publication type", Some "Book")].

End Fixtures.

Import Fixtures.

(** ** Vocabulary of the further properties *)

#[global] Instance outcome_eq_dec {A : Type} `{EqDecision A} : EqDecision (outcome A).
Proof. solve_decision. Defined.

(** A bag as normalization builds it: distinct keys, all lower-case. *)
Definition tidy (d : list (string * option string)) : Prop :=
  NoDup (dict_keys d) ∧ ∀ k, k ∈ dict_keys d → lower k = k.

(** An attribute child the loop can read: it has a name, and it is a
    choice group or has a [data] node. *)
Definition readable (_c : Xml.element) : Prop :=
  is_attribute _c →
  is_Some (Xml.get _c "name")
  ∧ (Xml.get _c "disposition" = Some "choicegroup" ∨ Xml.xpath_child "data" _c ≠ []).

(** The comparison an operator name stands for, if it is one. *)
Definition comparison (_o : string) : option (string → string → bool) :=
  match getattr_str ("__" +:+ _o +:+ "__") with
  | Ok (Compare f) => Some f
  | _ => None
  end.

(** [a] may stand before [b] in a list sorted on [sort_key]: both have a
    string as key, and the keys are in order. *)
Definition ordered_by {A : Type} (sort_key : A → outcome (option string))
    (reverse : bool) (a b : A) : Prop :=
  ∃ ka kb, sort_key a = Ok (Some ka) ∧ sort_key b = Ok (Some kb)
         ∧ Formatter.before reverse ka kb = true.

(** The order of the insertion sort, on elements paired with their keys. *)
Definition pair_order {A : Type} (reverse : bool) (p q : A * string) : Prop :=
  Formatter.before reverse p.2 q.2 = true.

(** The attribute [a] of [d] as a caller reads it: [None] when it is unset
    or the read fails. *)
Definition attr (d : CrisEntity.t) (a : string) : option string :=
  match CrisEntity.__getitem__ d a with
  | Ok x => x
  | _ => None
  end.

(** The group the grouping loop gives [d] on its own account: the
    lower-cased attribute; without it the sort field when there is no
    grouping field, and no group otherwise. *)
Definition group_of (self : Formatter.t) (d : CrisEntity.t) : option Formatter.key :=
  match attr d (str (of_opt (Formatter.group_by self))) with
  | Some v => Some (Some (lower v))
  | None => if Formatter.group_by self is None then Some (Formatter.sort_by self) else None
  end.

(** [unsorted[g].append(d)], with [unsorted[g]] created when missing. *)
Definition add_member (unsorted : list (Formatter.key * list CrisEntity.t))
    (g : Formatter.key) (d : CrisEntity.t) : list (Formatter.key * list CrisEntity.t) :=
  dict_set unsorted g (default [] (dict_get unsorted g) ++ [d]).

(** How the last loop arranges the members of one group. *)
Definition arranged (self : Formatter.t) (members : list CrisEntity.t)
  : outcome (list CrisEntity.t) :=
  match Formatter.sort_by self with
  | None => Ok members
  | Some sb => Formatter.sorted (fun y => CrisEntity.__getitem__ y sb)
                 (Formatter.is_desc (Formatter.sort_order self)) members
  end.

(** ** Further fixtures *)

Module Cases.

Definition record_2020 : Xml.element :=
  infoObject "7" [attribute "Publyear" [] [node "data" "2020"]].

Definition entity_2020 : CrisEntity.t :=
  entity [("id", Some "7"); ("createdon", None); ("updatedon", None);
          ("publyear", Some "2020")].

Definition record_bare : Xml.element := infoObject "8" [].

Definition entity_bare : CrisEntity.t :=
  entity [("id", Some "8"); ("createdon", None); ("updatedon", None)].

Definition year_is_2015 : Selector.t :=
  {| Selector.selectors := [("publyear", [("eq", "2015")])] |}.

(** [list(s)] that keeps the order it is given. *)
Definition in_order : Formatter.enumeration :=
  exist (fun f : list Formatter.key -> list Formatter.key => ∀ l, f l ≡ₚ l)
        (fun l => l) (fun l => Permutation_refl l).

Definition e2016 : CrisEntity.t := entity [("id", Some "3"); ("publyear", Some "2016")].

(** An entity of 2015 without an id. *)
Definition e2015_no_id : CrisEntity.t := entity [("publyear", Some "2015")].

Definition three_papers : list (string * CrisEntity.t) :=
  [("3", e2016); ("1", e2015); ("0", e2015')].

Definition three_papers_by_year : list (Formatter.key * list CrisEntity.t) :=
  [(Some "2015", [e2015'; e2015]); (Some "2016", [e2016])].

Definition sort_only : Formatter.t :=
  {| Formatter.group_by := None;
     Formatter.group_order := Formatter.Sentinel SORT_DESC;
     Formatter.sort_by := Some "id";
     Formatter.sort_order := Formatter.Sentinel SORT_ASC |}.

End Cases.

Import Cases.

(** ** Vocabulary for [toBibTeX] and [_fetch] *)

(** The entry types [toBibTeX] can produce. *)
Definition entry_types : list string :=
  ["article"; "book"; "incollection"; "inproceedings"; "phdthesis"; "masterthesis";
   "misc"].

(** The keys of the bag that every call of [toBibTeX] reads. *)
Definition required_keys : list string :=
  ["publication type"; "id"; "publyear"; "cftitle"; "note"; "keywords"; "cfabstr";
   "monthcg"; "cfuri"; "peerreviewed"; "fau publikation"; "doi"; "exportauthors"].

(** The last step of [toBibTeX]: fields without a value are left out. *)
Definition set_fields (bibdata : Publication.record) : list (string * string) :=
  omap (fun kv : string * option string =>
          match kv.2 with
          | Some v => Some (kv.1, v)
          | None => None
          end) bibdata.

(** A field dictionary of [toBibTeX] on its way: distinct keys, and the
    entry type in place. *)
Definition typed (bibtype : string) (b : Publication.record) : Prop :=
  NoDup (dict_keys b) ∧ dict_get b "type" = Some (Some bibtype).

(** What is appended to the author text. *)
Definition et_al (data : Publication.record) : string :=
  match mjoin (dict_get data "complete author relations") with
  | None => " and et al."
  | Some _ => EmptyString
  end.

(** The field the author text goes to. *)
Definition author_key (pt : string) : string :=
  if decide (lower pt = "editorial") then "editor" else "author".

(** A name part that holds neither of the two separators. *)
Definition plain (s : string) : Prop :=
  ∀ c, c ∈ Publication.chars s → c ≠ ":"%char ∧ c ≠ "|"%char.

(** No blank in [s]. *)
Definition no_space (s : string) : Prop :=
  ∀ c, c ∈ Publication.chars s → Publication.is_space c = false.

(** Only digits in [s]. *)
Definition all_digits (s : string) : Prop :=
  ∀ c, c ∈ Publication.chars s → Publication.is_digit c = true.

(** The id numbers [_fetch] reads from its argument, or the exception it
    raises before any request is made. *)
Definition id_numbers (name : string) (ids : Publications.id_arg) : outcome (list Z) :=
  if match ids with
     | Publications.IdNone => true
     | Publications.IdStr s => bool_decide (s = "0")
     | _ => false
     end
  then Raise (Exception ("Please supply valid id for " +:+ name +:+ "."))
  else
    idlist ← match Publications._parseId ids with
             | Publications.IdList l => Ok l
             | _ => Raise TypeError
             end;
    for_each (fun zs _i =>
                z ← try_except_on ValueError (Publications.to_int _i)
                      (Raise (Exception ("invalid " +:+ name +:+ " id number")));
                Ok (zs ++ [z]))
             idlist [].

(** The requests for the id numbers [zs]: id by id, and for each id
    template by template. *)
Definition requests (request_templates : list Publications.template) (zs : list Z)
  : list string :=
  zs ≫= fun z => (fun t => Publications.format t z) <$> request_templates.

Ltac solve_elem := repeat first [apply list_elem_of_here | apply list_elem_of_further].

(** [k] is none of the listed keys, since it is none of those of [Hk]. *)
Ltac not_listed Hk :=
  cbn;
  repeat (apply not_elem_of_cons; split; [intros ->; apply Hk; solve_elem |]);
  apply not_elem_of_nil.

Ltac decide_it := apply (bool_decide_unpack _); by vm_compute.

Module Services.

Definition orga_record (id nr : string) : Xml.element :=
  Xml.Element "infoObject" [("type", "Organisation"); ("id", id)] None
    [attribute "FAU_ORG_NR" [] [node "data" nr]].

(** A web service that knows organization 5, organization 1 (the root)
    and one publication of organization 5. *)
Definition orga_service (r : string) : option Xml.element :=
  if decide (r = "get/Organisation/5") then
    Some (document [orga_record "5" "1011120000"])
  else if decide (r = "get/Organisation/1") then
    Some (document [orga_record "1" "1000000000"])
  else if decide (r = "getrelated/Organisation/5/Publ_has_ORGA") then
    Some (document [record_2020])
  else None.

Definition get_publication : Publications.template :=
  {| Publications.before_d := "get/Publication/"; Publications.after_d := EmptyString |}.

End Services.

Module Entries.

(** The entry of [paper]. *)
Definition paper_entry : list (string * string) :=
  [ ("id", "faucris.1060854"); ("type", "article"); ("year", "2015");
    ("title", "A Study of XML"); ("peerreviewed", "Yes"); ("faupublication", "yes");
    ("journal", "J"); ("volume", "3"); ("pages", "1-2");
    ("author", "Smith, Jane and Doe, John") ].

End Entries.

Import Services Entries.

(** ** Dictionaries and loops *)

Section DictFacts.
Context {K V : Type} `{EqDecision K}.
Implicit Types (d : list (K * V)) (k : K) (v : V).

Lemma dict_get_set_eq d k v : dict_get (dict_set d k v) k = Some v.
Proof.
  induction d as [|[k' v'] d IH]; simpl.
  - by rewrite decide_True.
  - destruct (decide (k' = k)) as [->|Hne]; simpl.
    + by rewrite decide_True.
    + by rewrite decide_False.
Qed.

Lemma dict_get_set_ne d k k' v : k ≠ k' → dict_get (dict_set d k v) k' = dict_get d k'.
Proof.
  intros Hne. induction d as [|[k0 v0] d IH]; simpl.
  - by rewrite decide_False.
  - destruct (decide (k0 = k)) as [->|Hne0]; simpl.
    + by rewrite !decide_False.
    + by rewrite IH.
Qed.

Lemma dict_get_set d k k' v :
  dict_get (dict_set d k v) k' = if decide (k = k') then Some v else dict_get d k'.
Proof.
  destruct (decide (k = k')) as [->|Hne].
  - apply dict_get_set_eq.
  - by apply dict_get_set_ne.
Qed.

Lemma dict_keys_set d k v :
  dict_keys (dict_set d k v) =
  if bool_decide (k ∈ dict_keys d) then dict_keys d else dict_keys d ++ [k].
Proof.
  unfold dict_keys. induction d as [|[k' v'] d IH].
  - done.
  - cbn [dict_set fmap list_fmap fst]. destruct (decide (k' = k)) as [->|Hne].
    + rewrite bool_decide_eq_true_2; [done | apply list_elem_of_here].
    + cbn [fmap list_fmap fst]. rewrite IH. destruct (bool_decide (k ∈ d.*1)) eqn:E.
      * apply bool_decide_eq_true in E.
        rewrite bool_decide_eq_true_2; [done | by apply list_elem_of_further].
      * apply bool_decide_eq_false in E.
        rewrite bool_decide_eq_false_2; [done |].
        rewrite not_elem_of_cons. split; [congruence | done].
Qed.

Lemma dict_set_NoDup d k v : NoDup (dict_keys d) → NoDup (dict_keys (dict_set d k v)).
Proof.
  intros Hnd. rewrite dict_keys_set. case_bool_decide as Hin; [done |].
  apply NoDup_app. split; [done |]. split; [| apply NoDup_singleton].
  intros x Hx Hx'. apply list_elem_of_singleton in Hx'. by subst.
Qed.

End DictFacts.

Lemma for_each_app {A S : Type} (body : S -> A -> outcome S) (l1 l2 : list A) (s : S) :
  for_each body (l1 ++ l2) s = for_each body l1 s ≫= for_each body l2.
Proof.
  revert s. induction l1 as [|x l1 IH]; intros s; simpl.
  - by destruct (for_each body l2 s).
  - destruct (body s x); simpl; [apply IH | done | done].
Qed.


(** A sequence of statements returns only through its last one. *)
Lemma bind_not_Ok {A B : Type} (m : outcome A) (f : A -> outcome B) (P : B -> Prop) :
  (∀ a b, f a = Ok b → P b) → ∀ b, m ≫= f = Ok b → P b.
Proof. intros Hf b. destruct m; simpl; [apply Hf | done | done]. Qed.

(** ** Strings: splitting a criteria key *)

Lemma split_from_sep cur rest :
  split_from cur (String "_" (String "_" rest)) = cur :: split_from EmptyString rest.
Proof. reflexivity. Qed.

Lemma split_from_other cur c s :
  c ≠ "_"%char → split_from cur (String c s) = split_from (cur +:+ String c EmptyString) s.
Proof.
  intros Hc. destruct c as [[] [] [] [] [] [] [] []]; try reflexivity. done.
Qed.

Lemma split_from_single cur c s :
  (∀ s', s ≠ String "_" s') →
  split_from cur (String c s) = split_from (cur +:+ String c EmptyString) s.
Proof.
  intros Hs. destruct (decide (c = "_"%char)) as [->|Hc]; [| by apply split_from_other].
  destruct s as [|c' s']; [reflexivity |].
  destruct c' as [[] [] [] [] [] [] [] []]; try reflexivity. by destruct (Hs s').
Qed.

(** One step of the scan: either the separator is next, or one character
    joins the current piece. *)
Lemma split_from_step cur c s :
  (∃ s', c = "_"%char ∧ s = String "_" s'
         ∧ split_from cur (String c s) = cur :: split_from EmptyString s')
  ∨ ((∀ s', ¬ (c = "_"%char ∧ s = String "_" s'))
     ∧ split_from cur (String c s) = split_from (cur +:+ String c EmptyString) s).
Proof.
  destruct (decide (c = "_"%char)) as [->|Hc].
  - destruct s as [|c' s'].
    + right. split; [by intros ? [_ ?] | reflexivity].
    + destruct (decide (c' = "_"%char)) as [->|Hc'].
      * left. by exists s'.
      * right. split; [intros ? [_ [= ? ?]]; done |].
        apply split_from_single. intros ? [= ? ?]. done.
  - right. split; [by intros ? [? _] | by apply split_from_other].
Qed.

Lemma split_from_length cur s : (1 ≤ List.length (split_from cur s))%nat.
Proof.
  remember (String.length s) as n eqn:Hn.
  revert cur s Hn. induction (lt_wf n) as [n _ IH]. intros cur s ->.
  destruct s as [|c s]; [simpl; lia |].
  destruct (split_from_step cur c s) as [(s' & -> & -> & ->)|[_ ->]].
  - simpl. lia.
  - eapply IH; [| done]. simpl. lia.
Qed.

Lemma lower_ascii_underscore c : lower_ascii c = "_"%char ↔ c = "_"%char.
Proof.
  destruct c as [[] [] [] [] [] [] [] []]; vm_compute; split; congruence.
Qed.

(** A key that contains the separator splits into at least two pieces. *)
Lemma split_lower_length k cur :
  contains k "__" = true → (2 ≤ List.length (split_from cur (lower k)))%nat.
Proof.
  revert cur. induction k as [|c k IH]; intros cur Hk; [done |].
  change (lower (String c k)) with (String (lower_ascii c) (lower k)).
  destruct (split_from_step cur (lower_ascii c) (lower k)) as [(s' & _ & _ & ->)|[Hno ->]].
  - simpl. pose proof (split_from_length EmptyString s'). lia.
  - apply IH. cbn [contains] in Hk. apply orb_true_iff in Hk as [Hp|Hk]; [| done].
    exfalso. apply prefix_correct in Hp. cbn in Hp.
    destruct k as [|c' k]; [done |]. cbn in Hp. injection Hp as -> ->.
    by apply (Hno (lower k)).
Qed.

(** ** Entity normalization *)

Lemma read_child_Ok data _c data' :
  CrisEntity.read_child data _c = Ok data' →
  (¬ is_attribute _c ∧ data' = data)
  ∨ (is_attribute _c ∧ ∃ k v, attr_key _c = Some k ∧ CrisEntity.read_value _c = Ok v
                              ∧ data' = dict_set data k v).
Proof.
  unfold CrisEntity.read_child, is_attribute, attr_key.
  destruct (decide (lower (Xml.tag _c) ≠ "attribute")) as [Hne|Heq].
  - intros [= <-]. by left.
  - apply dec_stable in Heq. intros Hr. right. split; [done |].
    destruct (Xml.get _c "name") as [n|]; simpl in *; [| done].
    destruct (CrisEntity.read_value _c) as [v| |]; simpl in *; try done.
    injection Hr as <-. eauto.
Qed.

(** A key that is present stays present. *)
Lemma read_children_present cs data data' k :
  for_each CrisEntity.read_child cs data = Ok data' →
  is_Some (dict_get data k) → is_Some (dict_get data' k).
Proof.
  revert data. induction cs as [|c cs IH]; intros data; simpl.
  - by intros [= <-].
  - destruct (CrisEntity.read_child data c) as [data1| |] eqn:Hc; simpl; try done.
    intros Hcs Hk. apply (IH data1 Hcs).
    apply read_child_Ok in Hc as [[_ ->]|(_ & k' & v & _ & _ & ->)]; [done |].
    rewrite dict_get_set. by case_decide.
Qed.

(** Children stored under other keys leave a key as it is. *)
Lemma read_children_untouched cs data data' k :
  for_each CrisEntity.read_child cs data = Ok data' →
  (∀ c, c ∈ cs → is_attribute c → attr_key c ≠ Some k) →
  dict_get data' k = dict_get data k.
Proof.
  revert data. induction cs as [|c cs IH]; intros data; simpl.
  - by intros [= <-].
  - destruct (CrisEntity.read_child data c) as [data1| |] eqn:Hc; simpl; try done.
    intros Hcs Hk. rewrite (IH data1 Hcs).
    + apply read_child_Ok in Hc as [[_ ->]|(Hattr & k' & v & Hk' & _ & ->)]; [done |].
      apply dict_get_set_ne. intros ->. by apply (Hk c); [apply list_elem_of_here | |].
    + intros c' Hin. apply Hk. by apply list_elem_of_further.
Qed.

Lemma read_value_choicegroup _c :
  Xml.get _c "disposition" = Some "choicegroup" →
  Xml.xpath_child "additionalInfo" _c = [] →
  CrisEntity.read_value _c = Ok None.
Proof.
  intros Hd Hx. unfold CrisEntity.read_value. rewrite decide_True by done. by rewrite Hx.
Qed.

Lemma read_value_no_data _c :
  Xml.get _c "disposition" ≠ Some "choicegroup" →
  Xml.xpath_child "data" _c = [] →
  CrisEntity.read_value _c = Raise IndexError.
Proof.
  intros Hd Hx. unfold CrisEntity.read_value. rewrite decide_False by done. by rewrite Hx.
Qed.

(** [__getitem__] goes through [dict.get]: it never raises [KeyError]. *)
Lemma getitem_never_KeyError self item : CrisEntity.__getitem__ self item ≠ Raise KeyError.
Proof. unfold CrisEntity.__getitem__. by destruct (CrisEntity._data self). Qed.

Example normalize_round_trip :
  CrisEntity.__init__ (Some (infoObject "7" [attribute "Publyear" [] [node "data" "2020"]]))
  = Ok (entity [("id", Some "7"); ("createdon", None); ("updatedon", None);
                ("publyear", Some "2020")]).
Proof. reflexivity. Qed.

(** C8, counterexample: the record [record_choicegroup] normalizes, and
    its bag holds the key ["kind"] (a choice group without additionalInfo)
    and the key ["createdon"] (a core field the record lacks), each present
    with the value null. *)
Lemma normalize_choicegroup_null :
  ∃ d, CrisEntity.__init__ (Some record_choicegroup) = Ok {| CrisEntity._data := Some d |}
    ∧ dict_get d "kind" = Some None
    ∧ dict_get d "createdon" = Some None.
Proof. eexists. split; [reflexivity |]. split; reflexivity. Qed.

(** C8, as amended: for every record that normalizes, the bag holds the
    keys id, createdon and updatedon, each with the record's own value for
    it (null when the record lacks it) unless an attribute child is stored
    under the same key; and the key of every attribute child holds the
    value read for the last child of that key, a string or null.  In
    particular a choice-group attribute without an additionalInfo sub-node
    is present with the value null, not unset. *)
Theorem normalize_values (x : Xml.element) (e : CrisEntity.t) :
  CrisEntity.__init__ (Some x) = Ok e →
  ∃ d, CrisEntity._data e = Some d
    ∧ (∀ _i, _i ∈ ["id"; "createdOn"; "updatedOn"] →
         is_Some (dict_get d (lower _i))
         ∧ ((∀ c, c ∈ Xml.getchildren x → is_attribute c → attr_key c ≠ Some (lower _i)) →
            dict_get d (lower _i) = Some (Xml.get x _i)))
    ∧ ∀ cs1 _c cs2 k,
        Xml.getchildren x = cs1 ++ _c :: cs2 →
        is_attribute _c → attr_key _c = Some k →
        (∀ c', c' ∈ cs2 → is_attribute c' → attr_key c' ≠ Some k) →
        (∃ v, CrisEntity.read_value _c = Ok v ∧ dict_get d k = Some v)
        ∧ (Xml.get _c "disposition" = Some "choicegroup" →
           Xml.xpath_child "additionalInfo" _c = [] →
           dict_get d k = Some None).
Proof.
  unfold CrisEntity.__init__.
  destruct (for_each _ _ _) as [d| |] eqn:Hloop; simpl; try done.
  intros [= <-]. exists d. split; [done |]. split.
  - intros _i Hi.
    assert (dict_get (CrisEntity.core_fields x) (lower _i) = Some (Xml.get x _i)) as Hcore.
    { apply list_elem_of_In in Hi. unfold CrisEntity.core_fields. cbn [foldl].
      change (lower "id") with "id". change (lower "createdOn") with "createdon".
      change (lower "updatedOn") with "updatedon". rewrite !dict_get_set.
      destruct Hi as [<-|[<-|[<-|[]]]]; done. }
    split.
    + apply (read_children_present _ _ _ _ Hloop). by rewrite Hcore.
    + intros Hfree. by rewrite (read_children_untouched _ _ _ _ Hloop Hfree).
  - intros cs1 c cs2 k Hcs Hattr Hkey Hlater.
    rewrite Hcs, for_each_app in Hloop.
    destruct (for_each CrisEntity.read_child cs1 _) as [d1| |]; simpl in Hloop; try done.
    destruct (CrisEntity.read_child d1 c) as [d2| |] eqn:Hc; simpl in Hloop; try done.
    rewrite (read_children_untouched _ _ _ _ Hloop Hlater).
    apply read_child_Ok in Hc as [[Hno _]|(_ & k' & v & Hk' & Hv & ->)]; [done |].
    assert (k' = k) as -> by congruence. rewrite dict_get_set_eq. split; [eauto |].
    intros Hd Hx. rewrite (read_value_choicegroup _ Hd Hx) in Hv. congruence.
Qed.

Lemma normalize_values_witness :
  ∃ d, CrisEntity._data (entity [("id", Some "7"); ("createdon", None); ("updatedon", None);
                                  ("publyear", Some "2020"); ("kind", None)]) = Some d
    ∧ (∀ _i, _i ∈ ["id"; "createdOn"; "updatedOn"] →
         is_Some (dict_get d (lower _i))
         ∧ ((∀ c, c ∈ Xml.getchildren record_choicegroup → is_attribute c →
                  attr_key c ≠ Some (lower _i)) →
            dict_get d (lower _i) = Some (Xml.get record_choicegroup _i)))
    ∧ ∀ cs1 _c cs2 k,
        Xml.getchildren record_choicegroup = cs1 ++ _c :: cs2 →
        is_attribute _c → attr_key _c = Some k →
        (∀ c', c' ∈ cs2 → is_attribute c' → attr_key c' ≠ Some k) →
        (∃ v, CrisEntity.read_value _c = Ok v ∧ dict_get d k = Some v)
        ∧ (Xml.get _c "disposition" = Some "choicegroup" →
           Xml.xpath_child "additionalInfo" _c = [] →
           dict_get d k = Some None).
Proof.
  apply (normalize_values record_choicegroup). reflexivity.
Defined.

(** An attribute child that is no choice group and has no [data] node
    makes the whole normalization fail, whatever the rest of the record. *)
Lemma normalize_aborts x cs1 _c cs2 :
  Xml.getchildren x = cs1 ++ _c :: cs2 →
  is_attribute _c →
  Xml.get _c "disposition" ≠ Some "choicegroup" →
  Xml.xpath_child "data" _c = [] →
  ∀ e, CrisEntity.__init__ (Some x) ≠ Ok e.
Proof.
  intros Hcs Hattr Hd Hx e. unfold CrisEntity.__init__. rewrite Hcs, for_each_app.
  destruct (for_each CrisEntity.read_child cs1 _) as [d1| |]; simpl; try done.
  unfold CrisEntity.read_child at 1. rewrite decide_False by (by intros ?).
  destruct (Xml.get _c "name") as [n|]; simpl; [| done].
  by rewrite read_value_no_data.
Qed.

(** C9 fails on the code: the record [record_no_data] has an
    identity and a well-formed [Publyear] attribute, and its [Note]
    attribute lacks the data sub-node; normalization raises [IndexError]
    instead of returning an entity, while the same record with the
    malformed attribute marked as a choice group normalizes with the other
    fields intact. *)
Theorem normalize_missing_data_raises :
  CrisEntity.__init__ (Some record_no_data) = Raise IndexError
  ∧ CrisEntity.__init__
      (Some (infoObject "7"
               [ attribute "Publyear" [] [node "data" "2020"];
                 attribute "Note" [("disposition", "choicegroup")] [] ]))
    = Ok (entity [("id", Some "7"); ("createdon", None); ("updatedon", None);
                  ("publyear", Some "2020"); ("note", None)]).
Proof. split; reflexivity. Qed.

(** ** Selector *)

(** A selector with one predicate on one field, applied to an entity. *)
Lemma evaluate_single a _o _v f dataset x :
  getattr_str ("__" +:+ _o +:+ "__") = Ok (Compare f) →
  CrisEntity.__getitem__ dataset a = Ok x →
  Selector.evaluate {| Selector.selectors := [(a, [(_o, _v)])] |} dataset
  = Ok (f (lower (str (of_opt x))) _v).
Proof.
  intros Hattr Hget. unfold Selector.evaluate. simpl. rewrite Hget. simpl.
  rewrite Hattr. simpl. by destruct (f _ _v).
Qed.

(** A field the entity lacks (or holds as [None]) is not skipped: its
    predicates are applied to the string ["none"]. *)
Lemma evaluate_absent_field d a ops rest :
  mjoin (dict_get d a) = None →
  Selector.evaluate {| Selector.selectors := (a, ops) :: rest |} (entity d)
  = ok ← Selector.check_ops "none" ops;
    if ok : bool then Selector.evaluate_items (entity d) rest else Ok false.
Proof.
  intros Ha. unfold Selector.evaluate. simpl. by rewrite Ha.
Qed.

Example evaluate_publyear_gt :
  ∃ s, Selector.__init__ [("publyear__gt", VInt 2011)] = Ok s
    ∧ Selector.evaluate s (entity [("publyear", Some "2010")]) = Ok false
    ∧ Selector.evaluate s (entity [("publyear", Some "2012")]) = Ok true
    ∧ Selector.evaluate s (entity [("publyear", Some "2015")]) = Ok true.
Proof. eexists. split; [reflexivity |]. repeat split. Qed.

(** C1 fails on the code: the entity [e_no_year] has no
    ["publyear"] entry, and [__getitem__] answers [None] for it instead of
    raising [KeyError]; so the predicate is not skipped but applied to the
    string ["none"].  For every reference value [v] the selector built from
    [{"publyear__eq": v}] evaluates to whether ["none"] equals [str(v)]; for
    [v = 2015] it evaluates to false. *)
Theorem evaluate_absent_field_compares_none :
  (∀ v, ∃ s, Selector.__init__ [("publyear__eq", v)] = Ok s
           ∧ Selector.evaluate s e_no_year = Ok (String.eqb "none" (str v)))
  ∧ CrisEntity.__getitem__ e_no_year "publyear" = Ok None
  ∧ ∃ s, Selector.__init__ [("publyear__eq", VInt 2015)] = Ok s
       ∧ Selector.evaluate s e_no_year = Ok false.
Proof.
  split; [| split; [reflexivity | eexists; split; reflexivity]].
  intros v. exists {| Selector.selectors := [("publyear", [("eq", str v)])] |}.
  split; [reflexivity |].
  apply (evaluate_single "publyear" "eq" (str v) String.eqb e_no_year None); reflexivity.
Qed.

(** C3 fails on the code: the selector built from
    [{"FAU Publikation__eq": v}] compares the lower-cased attribute with
    [v] as it was given, not lower-cased; for the attribute ["yes"] and the
    reference ["Yes"], whose lower-cased forms are equal, it evaluates to
    false. *)
Theorem evaluate_eq_reference_not_folded :
  (∀ x v, ∃ s, Selector.__init__ [("FAU Publikation__eq", VStr v)] = Ok s
             ∧ Selector.evaluate s (entity [("fau publikation", Some x)])
               = Ok (String.eqb (lower x) v))
  ∧ lower "yes" = lower "Yes"
  ∧ ∃ s, Selector.__init__ [("FAU Publikation__eq", VStr "Yes")] = Ok s
       ∧ Selector.evaluate s (entity [("fau publikation", Some "yes")]) = Ok false.
Proof.
  split; [| split; [reflexivity | eexists; split; reflexivity]].
  intros x v. exists {| Selector.selectors := [("fau publikation", [("eq", v)])] |}.
  split; [reflexivity |].
  apply (evaluate_single "fau publikation" "eq" v String.eqb _ (Some x)); reflexivity.
Qed.

Lemma add_criterion_Ok criteria flist k :
  contains k "__" = true →
  ∃ flist', Selector.add_criterion criteria flist k = Ok flist'.
Proof.
  intros Hk. unfold Selector.add_criterion.
  pose proof (split_lower_length k EmptyString Hk) as Hlen.
  unfold split__. destruct (split_from EmptyString (lower k)) as [|op0 [|op1 ops]];
    simpl in Hlen; try lia.
  simpl. unfold dict_getitem, dict_in.
  destruct (dict_get flist op0) as [inner|] eqn:Hget.
  - rewrite Hget. simpl. eauto.
  - rewrite dict_get_set_eq. simpl. eauto.
Qed.

Lemma init_loop_Ok criteria keys flist :
  (∀ k, k ∈ keys → contains k "__" = true) →
  ∃ flist', for_each (Selector.add_criterion criteria) keys flist = Ok flist'.
Proof.
  revert flist. induction keys as [|k keys IH]; intros flist Hk; simpl; [eauto |].
  destruct (add_criterion_Ok criteria flist k) as [flist1 ->].
  - apply Hk, list_elem_of_here.
  - simpl. apply IH. intros k' Hk'. by apply Hk, list_elem_of_further.
Qed.

Lemma check_ops_app value ops1 ops2 :
  Selector.check_ops value (ops1 ++ ops2) =
  ok ← Selector.check_ops value ops1;
  if ok : bool then Selector.check_ops value ops2 else Ok false.
Proof.
  induction ops1 as [|[o v] ops1 IH]; simpl; [by destruct (Selector.check_ops _ _) |].
  destruct (getattr_str _) as [m| |]; simpl; try done.
  destruct (call_is_False m value v) as [[]| |]; simpl; done.
Qed.

Lemma evaluate_items_app dataset items1 items2 :
  Selector.evaluate_items dataset (items1 ++ items2) =
  ok ← Selector.evaluate_items dataset items1;
  if ok : bool then Selector.evaluate_items dataset items2 else Ok false.
Proof.
  induction items1 as [|[a s] items1 IH]; simpl;
    [by destruct (Selector.evaluate_items _ _) |].
  destruct (CrisEntity.__getitem__ dataset a) as [x|e|]; simpl; try done.
  - destruct (Selector.check_ops _ s) as [[]| |]; simpl; done.
  - destruct e; done.
Qed.

(** C4, counterexample: constructing a selector from
    [{"publyear__foo": 2015}] succeeds although [str] has no [__foo__];
    and the selector built from [{"publyear__add": 2015}], whose operator
    is no comparison, is constructed and then evaluates to true: that
    predicate is silently ignored. *)
Lemma init_accepts_unknown_operator :
  Selector.__init__ [("publyear__foo", VInt 2015)]
    = Ok {| Selector.selectors := [("publyear", [("foo", "2015")])] |}
  ∧ getattr_str "__foo__" = Raise AttributeError
  ∧ (∃ s, Selector.__init__ [("publyear__add", VInt 2015)] = Ok s
          ∧ Selector.evaluate s e2015 = Ok true).
Proof. split; [reflexivity |]. split; [reflexivity |]. eexists. split; reflexivity. Qed.

(** C4, as amended: construction checks no operator name.  For every
    criteria mapping whose keys all contain the separator, construction
    succeeds; an operator name that is no attribute of [str] raises
    [AttributeError] in [evaluate], when evaluation reaches that predicate
    (the fields before it pass, and so do the predicates before it on its
    own field). *)
Theorem operator_checked_at_evaluation (criteria : list (string * pyval)) :
  (∀ k, k ∈ dict_keys criteria → contains k "__" = true) →
  ∃ s, Selector.__init__ criteria = Ok s
    ∧ ∀ dataset data pre a ops1 _o _v ops2 rest,
        Selector.selectors s = pre ++ (a, ops1 ++ (_o, _v) :: ops2) :: rest →
        getattr_str ("__" +:+ _o +:+ "__") = Raise AttributeError →
        CrisEntity._data dataset = Some data →
        Selector.evaluate_items dataset pre = Ok true →
        Selector.check_ops (lower (str (of_opt (mjoin (dict_get data a))))) ops1 = Ok true →
        Selector.evaluate s dataset = Raise AttributeError.
Proof.
  intros Hk. destruct (init_loop_Ok criteria (dict_keys criteria) [] Hk) as [flist Hf].
  exists {| Selector.selectors := flist |}. split.
  - unfold Selector.__init__. by rewrite Hf.
  - intros dataset data pre a ops1 _o _v ops2 rest Hsel Hattr Hdata Hpre Hops1.
    unfold Selector.evaluate. rewrite Hsel, evaluate_items_app, Hpre. simpl.
    unfold CrisEntity.__getitem__. rewrite Hdata. simpl.
    rewrite check_ops_app, Hops1. simpl. by rewrite Hattr.
Qed.

Lemma operator_checked_at_evaluation_witness :
  (∀ k, k ∈ dict_keys [("publyear__foo", VInt 2015)] → contains k "__" = true)
  ∧ ∃ s, Selector.__init__ [("publyear__foo", VInt 2015)] = Ok s
      ∧ Selector.evaluate s e2015 = Raise AttributeError.
Proof.
  assert (∀ k, k ∈ dict_keys [("publyear__foo", VInt 2015)] → contains k "__" = true) as Hk.
  { intros k Hin. apply list_elem_of_In in Hin. vm_compute in Hin.
    destruct Hin as [<-|[]]. reflexivity. }
  split; [exact Hk |].
  destruct (operator_checked_at_evaluation [("publyear__foo", VInt 2015)] Hk) as (s & Hs & Hev).
  exists s. split; [exact Hs |].
  assert (s = {| Selector.selectors := [("publyear", [("foo", "2015")])] |}) as ->.
  { vm_compute in Hs. congruence. }
  apply (Hev e2015 [("id", Some "1"); ("publyear", Some "2015")] [] "publyear" [] "foo" "2015" [] []);
    reflexivity.
Defined.

(** ** Fetch and merge *)

Section Merge.
Variable response : string -> option Xml.element.
Variable _class : FauCris.entity_class.
Variable selector : option Selector.t.

Lemma fetch_loop reqs data :
  for_each (FauCris.fetch response) reqs data = Ok (data ++ documents response reqs).
Proof.
  revert data. induction reqs as [|r reqs IH]; intros data; simpl.
  - by rewrite app_nil_r.
  - unfold FauCris.fetch at 1, FauCris.get, documents. simpl.
    destruct (response r) as [root|]; simpl.
    + rewrite IH. by rewrite <- app_assoc.
    + apply IH.
Qed.








End Merge.

Example retrieve_two_descriptors :
  FauCris.retrieve two_answers ["a"; "x"; "b"] FauCris.Publication FauCris.NoSelector
  = Ok [ ("7", entity [("id", Some "7"); ("createdon", None); ("updatedon", None);
                       ("publyear", Some "2016")]);
         ("8", entity [("id", Some "8"); ("createdon", None); ("updatedon", None)]) ].
Proof. reflexivity. Qed.




(** ** Formatter *)

(** [__init__] never leaves [sort_by] unset. *)
Lemma init_sort_by_is_set group_by group_order sort_by sort_order self :
  Formatter.__init__ group_by group_order sort_by sort_order = Ok self →
  Formatter.sort_by self ≠ None.
Proof.
  unfold Formatter.__init__.
  destruct (Formatter.read_order group_order); simpl; try done.
  destruct sort_by; simpl; [| done].
  destruct (Formatter.read_order sort_order); simpl; try done.
  by intros [= <-].
Qed.

(** [execute] leaves three of the four fields as they are, and the fourth
    too when [group_order] is one of the two constants. *)
Lemma execute_frame list_of_set self data :
  let self' := (Formatter.execute list_of_set self data).1 in
  Formatter.group_by self' = Formatter.group_by self
  ∧ Formatter.sort_by self' = Formatter.sort_by self
  ∧ Formatter.sort_order self' = Formatter.sort_order self
  ∧ (Formatter.is_sentinel (Formatter.group_order self) = true →
     Formatter.group_order self' = Formatter.group_order self).
Proof.
  unfold Formatter.execute, Formatter.order_keys.
  destruct (for_each _ data _) as [[unsorted gv]| |]; simpl; try done.
  destruct (Formatter.is_sentinel (Formatter.group_order self)) eqn:Hs.
  - destruct (Formatter.sorted _ _ _) as [keylist| |]; simpl; done.
  - destruct (Formatter.group_order self) as [n|l]; simpl; done.
Qed.

Example execute_by_type list_of_set :
  (Formatter.execute list_of_set by_type [("2", e_book); ("1", e_article)]).2
  = Ok [(Some "journal article", [e_article]); (Some "book", [e_book])].
Proof.
  destruct list_of_set as [f Hf]. vm_compute.
  rewrite (proj1 (Permutation_singleton_r _ _) (Hf [Some "book"])). reflexivity.
Qed.

(** On a formatter state with [sort_by] unset, the members of a group
    stay in the order of the collection. *)
Example execute_unsorted_keeps_order list_of_set :
  (Formatter.execute list_of_set by_year_unsorted
     [("1", e2015); ("0", e2015')]).2
  = Ok [(Some "2015", [e2015; e2015'])].
Proof. reflexivity. Qed.

(** C5 fails on the code: [by_year] groups by ["publyear"],
    which the entity [e_no_year] lacks.  After an entity of 2015 the
    entity without a year is placed in the group of 2015; when it comes
    first, [execute] raises [UnboundLocalError]; in neither case does it
    raise the error "selected attribute not found". *)
Theorem execute_missing_group_field :
  ∀ list_of_set,
    (Formatter.execute list_of_set by_year [("1", e2015); ("2", e_no_year)]).2
      = Ok [(Some "2015", [e2015; e_no_year])]
    ∧ (Formatter.execute list_of_set by_year [("2", e_no_year); ("1", e2015)]).2
      = Raise UnboundLocalError.
Proof. intros list_of_set. split; reflexivity. Qed.

(** C6 fails on the code: [__init__] with [sort_by=None]
    (and the default [group_order]) raises [AttributeError], whatever the
    other two arguments; no formatter is built. *)
Theorem init_sort_by_none_raises :
  ∀ group_by sort_order,
    Formatter.__init__ group_by (Formatter.Sentinel SORT_DESC) None sort_order
    = Raise AttributeError.
Proof. reflexivity. Qed.

(** C7 fails on the code: [by_type] lists two group keys and
    the data holds the key ["book"] besides; after [execute] the
    formatter's [group_order] is the list with ["book"] appended, not the
    list it was built with. *)
Theorem execute_extends_group_order :
  ∀ list_of_set,
    Formatter.group_order
      (Formatter.execute list_of_set by_type [("1", e_article); ("2", e_book)]).1
    = Formatter.Listed
        [Some "journal article"; Some "conference contribution"; Some "book"]
    ∧ Formatter.group_order by_type
    = Formatter.Listed [Some "journal article"; Some "conference contribution"].
Proof.
  intros [f Hf]. split; [| reflexivity].
  vm_compute.
  by rewrite (proj1 (Permutation_singleton_r _ _) (Hf [Some "book"])).
Qed.

(** ** BibTeX mapping *)

Example mask_title :
  Publication.mask (Publication.findall "A Study of XML in 2015 {Fau}")
  = "{A} {Study} of {XML} in 2015 {Fau}".
Proof. reflexivity. Qed.

(** With masking on, [toBibTeX] never returns an entry: the name [re] is
    not bound. *)
Lemma toBibTeX_mask_never_completes installed self fields :
  Publication.toBibTeX installed self true ≠ Ok (Publication.Entry fields).
Proof.
  cut (∀ b, Publication.toBibTeX installed self true = Ok b → b ≠ Publication.Entry fields).
  { intros H H'. by apply (H _ H'). }
  unfold Publication.toBibTeX.
  repeat (cbv zeta; apply bind_not_Ok; intros ?).
  cbv zeta. intros b.
  destruct (Publication.authors _) as [ae|[]|]; try done.
  - destruct (mjoin (dict_get _ "complete author relations")); simpl; done.
  - by intros [= <-].
Qed.

(** C10 fails on the code: for the publication [paper],
    which has every attribute the mapping reads, [toBibTeX] with masking
    enabled raises [NameError] (the module never imports [re]); with
    masking disabled it returns the entry, with the title as it was. *)
Theorem toBibTeX_mask_NameError :
  Publication.global_name "re" = Raise NameError
  ∧ Publication.toBibTeX true paper true = Raise NameError
  ∧ ∃ fields, Publication.toBibTeX true paper false = Ok (Publication.Entry fields)
            ∧ dict_get fields "title" = Some "A Study of XML".
Proof.
  split; [reflexivity |]. split; [reflexivity |]. eexists. split; reflexivity.
Qed.

(** * Further properties *)

(** ** Entities *)

Lemma dict_get_in {K V : Type} `{EqDecision K} (d : list (K * V)) k :
  is_Some (dict_get d k) ↔ k ∈ dict_keys d.
Proof.
  unfold dict_keys. induction d as [|[k' v'] d IH]; simpl.
  - split; [by intros [? ?] | by intros ?%not_elem_of_nil].
  - rewrite elem_of_cons. destruct (decide (k' = k)) as [->|Hne].
    + split; [by left | by eexists].
    + rewrite IH. split; [by right | by intros [?|?]].
Qed.

(** ** Lower case *)

Lemma lower_ascii_idemp c : lower_ascii (lower_ascii c) = lower_ascii c.
Proof. destruct c as [[] [] [] [] [] [] [] []]; reflexivity. Qed.

Lemma lower_idemp s : lower (lower s) = lower s.
Proof. induction s as [|c s IH]; simpl; [done |]. by rewrite lower_ascii_idemp, IH. Qed.

Lemma lower_app s1 s2 : lower (s1 +:+ s2) = lower s1 +:+ lower s2.
Proof. induction s1 as [|c s1 IH]; simpl; [done |]. by rewrite IH. Qed.

Lemma tidy_set d k v : tidy d → lower k = k → tidy (dict_set d k v).
Proof.
  intros [Hnd Hlow] Hk. split; [by apply dict_set_NoDup |].
  intros k'. rewrite dict_keys_set. case_bool_decide; [apply Hlow |].
  intros [?|Heq%list_elem_of_singleton]%elem_of_app; [by apply Hlow | by subst].
Qed.

Lemma core_fields_tidy x : tidy (CrisEntity.core_fields x).
Proof.
  unfold CrisEntity.core_fields. cbn [foldl].
  repeat apply tidy_set; try reflexivity.
  split; [apply NoDup_nil_2 | intros k Hk; by apply not_elem_of_nil in Hk].
Qed.

Lemma attr_key_lower _c k : attr_key _c = Some k → lower k = k.
Proof.
  unfold attr_key. destruct (Xml.get _c "name") as [n|]; simpl; [| done].
  intros [= <-]. case_decide; [| apply lower_idemp].
  by rewrite lower_app, lower_idemp.
Qed.

Lemma read_children_tidy cs data data' :
  for_each CrisEntity.read_child cs data = Ok data' → tidy data → tidy data'.
Proof.
  revert data. induction cs as [|c cs IH]; intros data; simpl.
  - by intros [= <-].
  - destruct (CrisEntity.read_child data c) as [data1| |] eqn:Hc; simpl; try done.
    intros Hcs Ht. apply (IH data1 Hcs).
    apply read_child_Ok in Hc as [[_ ->]|(_ & k & v & Hk & _ & ->)]; [done |].
    apply tidy_set; [done |]. by eapply attr_key_lower.
Qed.

Lemma init_data x e :
  CrisEntity.__init__ (Some x) = Ok e →
  ∃ d, e = {| CrisEntity._data := Some d |}
     ∧ for_each CrisEntity.read_child (Xml.getchildren x) (CrisEntity.core_fields x) = Ok d.
Proof.
  unfold CrisEntity.__init__.
  destruct (for_each _ _ _) as [d| |]; simpl; try done.
  intros [= <-]. eauto.
Qed.

(** X2: the bag of a normalized entity has pairwise distinct keys, all in lower
    case; so reading it under a name that is not in lower case gives [None]. *)
Theorem normalize_keys_lower_case x e :
  CrisEntity.__init__ (Some x) = Ok e →
  ∃ d, CrisEntity._data e = Some d
     ∧ NoDup (dict_keys d)
     ∧ (∀ k, k ∈ dict_keys d → lower k = k)
     ∧ ∀ item, lower item ≠ item → CrisEntity.__getitem__ e item = Ok None.
Proof.
  intros (d & -> & Hloop)%init_data. exists d.
  destruct (read_children_tidy _ _ _ Hloop (core_fields_tidy x)) as [Hnd Hlow].
  repeat split; try done.
  intros item Hitem. unfold CrisEntity.__getitem__. simpl.
  destruct (dict_get d item) as [v|] eqn:Hg; [| done].
  destruct Hitem. apply Hlow, dict_get_in. by rewrite Hg.
Qed.

Lemma normalize_keys_lower_case_witness :
  ∃ d, CrisEntity._data entity_2020 = Some d
     ∧ NoDup (dict_keys d)
     ∧ (∀ k, k ∈ dict_keys d → lower k = k)
     ∧ ∀ item, lower item ≠ item → CrisEntity.__getitem__ entity_2020 item = Ok None.
Proof.
  apply (normalize_keys_lower_case record_2020). reflexivity.
Defined.

Lemma read_value_Ok _c :
  (∃ v, CrisEntity.read_value _c = Ok v)
  ↔ Xml.get _c "disposition" = Some "choicegroup" ∨ Xml.xpath_child "data" _c ≠ [].
Proof.
  unfold CrisEntity.read_value.
  destruct (decide (Xml.get _c "disposition" = Some "choicegroup")) as [Hd|Hd].
  - split; [by left |]. intros _.
    destruct (Xml.xpath_child "additionalInfo" _c); simpl; eauto.
  - destruct (Xml.xpath_child "data" _c) as [|n l]; simpl.
    + split; [by intros [? ?] | by intros [?|?]].
    + split; [by right | eauto].
Qed.

Lemma read_child_readable data _c :
  (∃ data', CrisEntity.read_child data _c = Ok data') ↔ readable _c.
Proof.
  unfold CrisEntity.read_child, readable, is_attribute.
  destruct (decide (lower (Xml.tag _c) ≠ "attribute")) as [Hne|Heq].
  - split; [done | eauto].
  - apply dec_stable in Heq.
    destruct (Xml.get _c "name") as [n|]; simpl.
    + rewrite <- read_value_Ok. split.
      * intros [data' Hr] _. split; [done |].
        destruct (CrisEntity.read_value _c); simpl in *; [eauto | done | done].
      * intros Hr. destruct (Hr Heq) as [_ [v ->]]. simpl. eauto.
    + split; [by intros [? ?] |]. intros Hr. destruct (Hr Heq) as [[? ?] _]. done.
Qed.

Lemma read_children_readable cs data :
  (∃ data', for_each CrisEntity.read_child cs data = Ok data') ↔ Forall readable cs.
Proof.
  revert data. induction cs as [|c cs IH]; intros data; simpl.
  - split; [by constructor | eauto].
  - rewrite Forall_cons, <- (read_child_readable data c). split.
    + intros [data' Hl].
      destruct (CrisEntity.read_child data c) as [d1| |]; simpl in Hl; try done.
      split; [eauto |]. apply (IH d1). eauto.
    + intros [[d1 ->] Hcs]. simpl. by apply IH.
Qed.

(** X1: a record normalizes exactly when every attribute child of it can be read: it
    has a name, and it is a choice group or has a [data] node.  Children with
    another tag never matter. *)
Theorem normalize_succeeds_iff x :
  (∃ e, CrisEntity.__init__ (Some x) = Ok e) ↔ Forall readable (Xml.getchildren x).
Proof.
  rewrite <- (read_children_readable _ (CrisEntity.core_fields x)).
  unfold CrisEntity.__init__. split.
  - intros [e He]. destruct (for_each _ _ _); simpl in He; [eauto | done | done].
  - intros [d ->]. simpl. eauto.
Qed.

Lemma prefix_app s t : String.prefix s (s +:+ t) = true.
Proof.
  induction s as [|c s IH]; simpl; [by destruct t |].
  destruct (ascii_dec c c); [done | done].
Qed.

Lemma core_fields_id x : is_Some (dict_get (CrisEntity.core_fields x) "id").
Proof.
  unfold CrisEntity.core_fields. cbn [foldl].
  change (lower "id") with "id". change (lower "createdOn") with "createdon".
  change (lower "updatedOn") with "updatedon". rewrite !dict_get_set. by repeat case_decide.
Qed.

(** X3: [__repr__] of a normalized entity returns, and the text starts with
    "CRIS publication #": the fallback "Publication object (...)" is never
    used for it. *)
Theorem repr_of_normalized_entity x e address :
  CrisEntity.__init__ (Some x) = Ok e →
  ∃ s, Publication.__repr__ address e = Ok s
     ∧ String.prefix "CRIS publication #" s = true.
Proof.
  intros (d & -> & Hloop)%init_data.
  destruct (read_children_present _ _ _ "id" Hloop (core_fields_id x)) as [id Hid].
  unfold Publication.__repr__. cbn [CrisEntity._data].
  match goal with |- context [try_except ?m _] => destruct m as [t| |] eqn:Ht end.
  - cbn. unfold dict_getitem. rewrite Hid. cbn. eexists. split; [done |].
    apply (prefix_app "CRIS publication #").
  - cbn. unfold dict_getitem. rewrite Hid. cbn. eexists. split; [done |].
    apply (prefix_app "CRIS publication #").
  - exfalso. cbn in Ht. unfold dict_getitem in Ht.
    destruct (dict_get d "publyear"); cbn in Ht; [| done].
    destruct (dict_get d "cftitle") as [[?|]|]; cbn in Ht; done.
Qed.

Lemma repr_of_normalized_entity_witness :
  ∃ s, Publication.__repr__ 0
         (entity [("id", Some "7"); ("createdon", None); ("updatedon", None);
                  ("publyear", Some "2020")]) = Ok s
     ∧ String.prefix "CRIS publication #" s = true.
Proof.
  apply (repr_of_normalized_entity
           (infoObject "7" [attribute "Publyear" [] [node "data" "2020"]])).
  reflexivity.
Defined.

(** ** Selectors *)

Lemma string_app_nil_r s : s +:+ EmptyString = s.
Proof.
  induction s as [|a s IH]; [done |].
  change (String a s +:+ EmptyString) with (String a (s +:+ EmptyString)). by rewrite IH.
Qed.

Lemma string_app_snoc a c s : (a +:+ String c EmptyString) +:+ s = a +:+ String c s.
Proof.
  induction a as [|x a IH]; [done |].
  change (String x (((a +:+ String c EmptyString)) +:+ s) = String x (a +:+ String c s)).
  by rewrite IH.
Qed.

(** A key without the separator is one piece. *)
Lemma split_lower_whole k cur :
  contains k "__" = false → split_from cur (lower k) = [cur +:+ lower k].
Proof.
  revert cur. induction k as [|c k IH]; intros cur Hk.
  - simpl. by rewrite string_app_nil_r.
  - change (lower (String c k)) with (String (lower_ascii c) (lower k)).
    cbn [contains] in Hk. apply orb_false_iff in Hk as [Hp Hk].
    destruct (split_from_step cur (lower_ascii c) (lower k)) as [(s' & Hc & Hs & _)|[_ ->]].
    + exfalso. apply lower_ascii_underscore in Hc as ->.
      destruct k as [|c' k]; [done |]. simpl in Hs. injection Hs as Hc' _.
      apply lower_ascii_underscore in Hc' as ->.
      assert (String.prefix "__" (String "_" (String "_" k)) = true) as Ht; [| congruence].
      apply prefix_correct. by destruct k.
    + rewrite (IH _ Hk). by rewrite string_app_snoc.
Qed.

Lemma add_criterion_bad criteria flist k :
  contains k "__" = false →
  Selector.add_criterion criteria flist k = Raise IndexError.
Proof.
  intros Hk. unfold Selector.add_criterion, split__.
  rewrite (split_lower_whole _ _ Hk).
  change (EmptyString +:+ lower k) with (lower k). simpl.
  unfold dict_getitem, dict_in.
  destruct (dict_get flist (lower k)) as [inner|] eqn:Hget.
  - by rewrite Hget.
  - by rewrite dict_get_set_eq.
Qed.

Lemma init_loop_bad criteria keys flist :
  (∃ k, k ∈ keys ∧ contains k "__" = false) →
  for_each (Selector.add_criterion criteria) keys flist = Raise IndexError.
Proof.
  revert flist. induction keys as [|k keys IH]; intros flist (k0 & Hin & Hbad).
  - by apply not_elem_of_nil in Hin.
  - simpl. destruct (contains k "__") eqn:Hk.
    + destruct (add_criterion_Ok criteria flist k Hk) as [flist1 ->]. simpl.
      apply IH. exists k0. split; [| done].
      apply elem_of_cons in Hin as [->|?]; [congruence | done].
    + by rewrite add_criterion_bad.
Qed.

(** X4: [Selector.__init__] returns exactly when every key of the criteria
    contains the separator "__", and raises [IndexError] exactly when some
    key does not. *)
Theorem selector_init_cases (criteria : list (string * pyval)) :
  ((∃ s, Selector.__init__ criteria = Ok s)
   ↔ ∀ k, k ∈ dict_keys criteria → contains k "__" = true)
  ∧ (Selector.__init__ criteria = Raise IndexError
     ↔ ∃ k, k ∈ dict_keys criteria ∧ contains k "__" = false).
Proof.
  unfold Selector.__init__.
  destruct (decide (Forall (fun k => contains k "__" = true) (dict_keys criteria)))
    as [Hall|Hex].
  - rewrite Forall_forall in Hall.
    destruct (init_loop_Ok criteria (dict_keys criteria) [] Hall) as [flist ->]. simpl.
    split; split; try done; [eauto |].
    intros (k & Hin & Hk). rewrite (Hall k Hin) in Hk. done.
  - apply not_Forall_Exists in Hex; [| apply _]. apply Exists_exists in Hex.
    assert (∃ k, k ∈ dict_keys criteria ∧ contains k "__" = false) as Hbad.
    { destruct Hex as (k & Hin & Hk). exists k. split; [done |].
      simpl in Hk. by destruct (contains k "__"). }
    rewrite (init_loop_bad _ _ _ Hbad). simpl. split; split; try done.
    + by intros [? ?].
    + intros Hall. destruct Hbad as (k & Hin & Hk). rewrite (Hall k Hin) in Hk. done.
Qed.

(** ** Evaluation as a conjunction *)

Lemma check_ops_comparisons value ops :
  (∀ o v, (o, v) ∈ ops → is_Some (comparison o)) →
  ∃ b, Selector.check_ops value ops = Ok b
     ∧ (b = true ↔ ∀ o v f, (o, v) ∈ ops → comparison o = Some f → f value v = true).
Proof.
  induction ops as [|[o v] ops IH]; intros Hops.
  - exists true. split; [done |]. split; [| done]. intros _ ? ? ? Hin.
    by apply not_elem_of_nil in Hin.
  - destruct IH as (b & Hb & Hiff).
    { intros o' v' Hin. apply (Hops o' v'). by apply list_elem_of_further. }
    destruct (Hops o v) as [f Hf]; [apply list_elem_of_here |].
    simpl. unfold comparison in Hf.
    destruct (getattr_str ("__" +:+ o +:+ "__")) as [[f'| |]| |] eqn:Hattr; try done.
    injection Hf as ->. simpl. destruct (f value v) eqn:Hfv; simpl.
    + exists b. split; [done |]. rewrite Hiff. split.
      * intros Hall o' v' f' [[= -> ->]|Hin]%elem_of_cons Hc.
        -- unfold comparison in Hc. rewrite Hattr in Hc. by injection Hc as <-.
        -- by eapply Hall.
      * intros Hall o' v' f' Hin. apply Hall. by apply list_elem_of_further.
    + exists false. split; [done |]. split; [done |]. intros Hall.
      rewrite <- Hfv. apply (Hall o v); [apply list_elem_of_here |].
      unfold comparison. by rewrite Hattr.
Qed.

(** X5: on an entity with a bag, and with comparison operators only,
    [evaluate] returns, and it returns [True] exactly when every predicate
    holds between the lower-cased text of the attribute and the reference. *)
Theorem evaluate_is_conjunction (self : Selector.t) (dataset : CrisEntity.t) data :
  CrisEntity._data dataset = Some data →
  (∀ a ops o v, (a, ops) ∈ Selector.selectors self → (o, v) ∈ ops →
                is_Some (comparison o)) →
  ∃ b, Selector.evaluate self dataset = Ok b
     ∧ (b = true ↔
        ∀ a ops o v f,
          (a, ops) ∈ Selector.selectors self → (o, v) ∈ ops → comparison o = Some f →
          f (lower (str (of_opt (mjoin (dict_get data a))))) v = true).
Proof.
  intros Hdata. unfold Selector.evaluate.
  induction (Selector.selectors self) as [|[a ops] items IH]; intros Hcmp.
  - exists true. split; [done |]. split; [| done]. intros _ ? ? ? ? ? Hin.
    by apply not_elem_of_nil in Hin.
  - destruct IH as (b & Hb & Hiff).
    { intros a' ops' o v Hin. apply (Hcmp a' ops' o v). by apply list_elem_of_further. }
    simpl. unfold CrisEntity.__getitem__. rewrite Hdata. simpl.
    destruct (check_ops_comparisons (lower (str (of_opt (mjoin (dict_get data a))))) ops)
      as (b1 & -> & Hiff1).
    { intros o v. apply (Hcmp a ops o v). apply list_elem_of_here. }
    simpl. destruct b1.
    + exists b. split; [done |]. rewrite Hiff. split.
      * intros Hall a' ops' o v f [[= -> ->]|Hin]%elem_of_cons Ho Hc.
        -- by eapply (proj1 Hiff1).
        -- by eapply Hall.
      * intros Hall a' ops' o v f Hin. apply Hall. by apply list_elem_of_further.
    + exists false. split; [done |]. split; [done |]. intros Hall.
      apply Hiff1. intros o v f Hin Hc. apply (Hall a ops o v f); [apply list_elem_of_here | done..].
Qed.

Lemma evaluate_is_conjunction_witness :
  ∃ b, Selector.evaluate year_is_2015 e2015 = Ok b
     ∧ (b = true ↔
        ∀ a ops o v f,
          (a, ops) ∈ Selector.selectors year_is_2015 → (o, v) ∈ ops →
          comparison o = Some f →
          f (lower (str (of_opt (mjoin
               (dict_get [("id", Some "1"); ("publyear", Some "2015")] a))))) v = true).
Proof.
  apply (evaluate_is_conjunction year_is_2015 e2015).
  - reflexivity.
  - intros a ops o v Ha Ho. apply list_elem_of_In in Ha. vm_compute in Ha.
    destruct Ha as [[= <- <-]|[]]. apply list_elem_of_In in Ho. vm_compute in Ho.
    destruct Ho as [[= <- <-]|[]]. by eexists.
Defined.

(** ** Retrieval *)

(** A property the loop body keeps is kept by the loop. *)
Lemma for_each_invariant {A S : Type} (body : S -> A -> outcome S) (I : S → Prop)
    (l : list A) (s s' : S) :
  (∀ s x s', x ∈ l → I s → body s x = Ok s' → I s') →
  I s → for_each body l s = Ok s' → I s'.
Proof.
  revert s. induction l as [|x l IH]; intros s Hbody Hs; simpl.
  - by intros [= <-].
  - destruct (body s x) as [s1| |] eqn:Hx; simpl; try done.
    apply IH.
    + intros s2 y s3 Hy. apply Hbody. by apply list_elem_of_further.
    + apply (Hbody s x s1); [apply list_elem_of_here | done..].
Qed.

Lemma documents_filter response reqs :
  documents response (filter (fun r => is_Some (response r)) reqs) = documents response reqs.
Proof.
  unfold documents. induction reqs as [|r reqs IH]; [done |].
  destruct (response r) as [x|] eqn:Hr.
  - rewrite filter_cons_True by (by rewrite Hr). cbn [omap list_omap]. rewrite Hr.
    f_equal. apply IH.
  - rewrite filter_cons_False by (rewrite Hr; by intros [? ?]).
    cbn [omap list_omap]. rewrite Hr. apply IH.
Qed.

(** X6: requests that fail have no effect on [retrieve]: the outcome is that
    of the answered requests alone. *)
Theorem retrieve_skips_failed_requests response reqs _class selector :
  FauCris.retrieve response reqs _class selector
  = FauCris.retrieve response (filter (fun r => is_Some (response r)) reqs) _class selector.
Proof.
  unfold FauCris.retrieve.
  destruct (FauCris.as_selector selector) as [sel| |]; simpl; try done.
  by rewrite !fetch_loop, documents_filter.
Qed.

Lemma add_dataset_Ok _class selector result _s result' :
  FauCris.add_dataset _class selector result _s = Ok result' →
  result' = result
  ∨ ∃ i e, FauCris.construct _class _s = Ok e
         ∧ CrisEntity.__getitem__ e "id" = Ok (Some i) ∧ i ≠ EmptyString
         ∧ match selector with
           | Some sel => Selector.evaluate sel e = Ok true
           | None => True
           end
         ∧ result' = dict_set result i e.
Proof.
  unfold FauCris.add_dataset.
  destruct (FauCris.construct _class _s) as [e| |] eqn:He; simpl; try done.
  destruct (CrisEntity.__getitem__ e "id") as [id| |] eqn:Hid; simpl; try done.
  destruct (FauCris.truthy id) eqn:Ht; [| intros [= <-]; by left].
  destruct id as [i|]; [| done].
  assert (i ≠ EmptyString) by (intros ->; by simpl in Ht).
  destruct selector as [sel|]; simpl.
  - destruct (Selector.evaluate sel e) as [[]| |] eqn:Hev; simpl; try done.
    + intros [= <-]. right. exists i, e. by repeat split.
    + intros [= <-]. by left.
  - intros [= <-]. right. exists i, e. by repeat split.
Qed.

(** X7: every entry of the collection [retrieve] returns is stored under a
    non-empty key, that key is the [id] of the entity, the entity is the
    normalization of a fetched record, and it passes the selector. *)
Theorem retrieve_result_invariant response reqs _class selector result :
  FauCris.retrieve response reqs _class selector = Ok result →
  ∀ i e, dict_get result i = Some e →
    i ≠ EmptyString
    ∧ CrisEntity.__getitem__ e "id" = Ok (Some i)
    ∧ (∃ s, s ∈ fetched response _class reqs ∧ FauCris.construct _class s = Ok e)
    ∧ ∀ sel, FauCris.as_selector selector = Ok (Some sel) →
             Selector.evaluate sel e = Ok true.
Proof.
  unfold FauCris.retrieve.
  destruct (FauCris.as_selector selector) as [osel| |] eqn:Hsel; simpl; try done.
  rewrite fetch_loop. simpl. intros Hloop.
  set (I := fun result : list (string * CrisEntity.t) =>
     ∀ i e, dict_get result i = Some e →
       i ≠ EmptyString ∧ CrisEntity.__getitem__ e "id" = Ok (Some i)
       ∧ (∃ s, s ∈ fetched response _class reqs ∧ FauCris.construct _class s = Ok e)
       ∧ match osel with
         | Some sel => Selector.evaluate sel e = Ok true
         | None => True
         end).
  assert (I result) as Hres.
  { apply (for_each_invariant _ I _ _ _) with (3 := Hloop); [| by intros ? ?].
    intros r x r' Hx Hr. unfold FauCris.add_document. simpl.
    apply (for_each_invariant _ I); [| done].
    intros r1 s r2 Hs Hr1 Hadd.
    apply add_dataset_Ok in Hadd as [->|(i & e & He & Hid & Hi & Hkeep & ->)]; [done |].
    intros j e'. rewrite dict_get_set. case_decide as Hj; [| apply Hr1].
    intros [= <-]. subst j. repeat split; try done.
    exists s. split; [| done]. unfold fetched. apply list_elem_of_bind. eauto. }
  intros i e Hg. destruct (Hres i e Hg) as (? & ? & ? & Hk). repeat split; try done.
  intros sel [= ->]. done.
Qed.

Lemma retrieve_result_invariant_witness :
  "7" ≠ EmptyString
  ∧ CrisEntity.__getitem__
      (entity [("id", Some "7"); ("createdon", None); ("updatedon", None);
               ("publyear", Some "2016")]) "id" = Ok (Some "7")
  ∧ (∃ s, s ∈ fetched two_answers FauCris.Publication ["a"; "x"; "b"]
        ∧ FauCris.construct FauCris.Publication s
          = Ok (entity [("id", Some "7"); ("createdon", None); ("updatedon", None);
                        ("publyear", Some "2016")]))
  ∧ ∀ sel, FauCris.as_selector FauCris.NoSelector = Ok (Some sel) →
           Selector.evaluate sel
             (entity [("id", Some "7"); ("createdon", None); ("updatedon", None);
                      ("publyear", Some "2016")]) = Ok true.
Proof.
  apply (retrieve_result_invariant two_answers ["a"; "x"; "b"] FauCris.Publication
           FauCris.NoSelector
           [("7", entity [("id", Some "7"); ("createdon", None); ("updatedon", None);
                          ("publyear", Some "2016")]);
            ("8", entity_bare)]).
  - reflexivity.
  - reflexivity.
Defined.

(** ** Sorting: [sorted] *)

Section SortedFacts.
Context {A : Type}.
Variable sort_key : A → outcome (option string).
Variable reverse : bool.

#[local] Abbreviation before := (Formatter.before reverse).
#[local] Abbreviation insert_sorted := (@Formatter.insert_sorted A reverse).
#[local] Abbreviation R := (@pair_order A reverse).

Lemma leb_refl s : String.leb s s = true.
Proof. apply Is_true_true. apply (reflexivity (R := String.le)). Qed.

Lemma leb_trans a b c : String.leb a b = true → String.leb b c = true → String.leb a c = true.
Proof.
  intros H1%Is_true_true H2%Is_true_true. apply Is_true_true.
  by apply (transitivity (R := String.le) H1).
Qed.

Lemma before_refl s : before s s = true.
Proof. unfold Formatter.before. destruct reverse; apply leb_refl. Qed.

Lemma before_total a b : before a b = true ∨ before b a = true.
Proof. unfold Formatter.before. destruct reverse; apply String.leb_total. Qed.

Lemma before_trans a b c : before a b = true → before b c = true → before a c = true.
Proof.
  unfold Formatter.before. destruct reverse; intros H1 H2; by eapply leb_trans.
Qed.

Lemma insert_sorted_perm x l : insert_sorted x l ≡ₚ x :: l.
Proof.
  induction l as [|y l IH]; simpl; [done |].
  destruct (before x.2 y.2); [done |]. rewrite IH. apply Permutation_swap.
Qed.

Lemma isort_perm (l : list (A * string)) : foldr insert_sorted [] l ≡ₚ l.
Proof.
  induction l as [|x l IH]; simpl; [done |]. by rewrite insert_sorted_perm, IH.
Qed.

Lemma insert_sorted_sorted x l : StronglySorted R l → StronglySorted R (insert_sorted x l).
Proof.
  intros Hl. induction Hl as [|y l Hl IH Hy]; simpl.
  - repeat constructor.
  - destruct (before x.2 y.2) eqn:Hxy.
    + constructor; [by constructor |]. constructor; [done |].
      eapply Forall_impl; [exact Hy |]. intros z Hz. by eapply before_trans.
    + constructor; [done |].
      rewrite insert_sorted_perm. constructor; [| done].
      destruct (before_total x.2 y.2) as [Hc|Hc]; [congruence | done].
Qed.

Lemma isort_sorted (l : list (A * string)) : StronglySorted R (foldr insert_sorted [] l).
Proof.
  induction l as [|x l IH]; simpl; [constructor | by apply insert_sorted_sorted].
Qed.

(** Elements with the same key keep their order. *)
Lemma insert_sorted_stable s x l :
  filter (fun p => p.2 = s) (insert_sorted x l) = filter (fun p => p.2 = s) (x :: l).
Proof.
  induction l as [|y l IH]; simpl; [done |].
  destruct (before x.2 y.2) eqn:Hxy; [done |].
  rewrite filter_cons, IH, !filter_cons.
  destruct (decide (y.2 = s)) as [Hy|Hy], (decide (x.2 = s)) as [Hx|Hx]; try done.
  rewrite Hx, <- Hy, before_refl in Hxy. done.
Qed.

Lemma isort_stable s (l : list (A * string)) :
  filter (fun p => p.2 = s) (foldr insert_sorted [] l) = filter (fun p => p.2 = s) l.
Proof.
  induction l as [|x l IH]; simpl; [done |].
  by rewrite insert_sorted_stable, !filter_cons, IH.
Qed.

Lemma keys_loop l acc keys :
  for_each (fun (acc : list (A * option string)) x => k ← sort_key x; Ok (acc ++ [(x, k)]))
           l acc = Ok keys →
  ∃ new, keys = acc ++ new ∧ new.*1 = l ∧ ∀ p, p ∈ new → sort_key p.1 = Ok p.2.
Proof.
  revert acc. induction l as [|x l IH]; intros acc; simpl.
  - intros [= <-]. exists []. rewrite app_nil_r. repeat split.
    intros p Hp. by apply not_elem_of_nil in Hp.
  - destruct (sort_key x) as [k| |] eqn:Hk; simpl; try done.
    intros (new & -> & Hl & Hnew)%IH. exists ((x, k) :: new).
    rewrite <- app_assoc. repeat split; [by rewrite fmap_cons, Hl |].
    intros p [->|Hp]%elem_of_cons; [done | by apply Hnew].
Qed.

Lemma strs_loop (keys : list (A * option string)) acc strs :
  for_each (fun (acc : list (A * string)) (xk : A * option string) =>
              match xk.2 with
              | Some s => Ok (acc ++ [(xk.1, s)])
              | None => Raise TypeError
              end) keys acc = Ok strs →
  ∃ new, strs = acc ++ new ∧ keys = (fun p => (p.1, Some p.2)) <$> new.
Proof.
  revert acc. induction keys as [|[x [s|]] keys IH]; intros acc; simpl; try done.
  - intros [= <-]. exists []. by rewrite app_nil_r.
  - intros (new & -> & ->)%IH. exists ((x, s) :: new). by rewrite <- app_assoc.
Qed.

(** What a call of [sorted] that returns has done: nothing, on a list of
    at most one element; otherwise an insertion sort on string keys. *)
Lemma sorted_Ok l l' :
  Formatter.sorted sort_key reverse l = Ok l' →
  ((List.length l ≤ 1)%nat ∧ l' = l)
  ∨ ∃ strs, strs.*1 = l ∧ (∀ p, p ∈ strs → sort_key p.1 = Ok (Some p.2))
          ∧ l' = (foldr insert_sorted [] strs).*1.
Proof.
  unfold Formatter.sorted.
  destruct (for_each _ l []) as [keys| |] eqn:Hkeys; simpl; try done.
  apply keys_loop in Hkeys as (new & -> & Hl & Hnew). simpl.
  destruct new as [|p1 [|p2 new]].
  - intros [= <-]. left. subst l. simpl. split; [lia | done].
  - intros [= <-]. left. subst l. simpl. split; [lia | done].
  - destruct (for_each _ (p1 :: p2 :: new) []) as [strs| |] eqn:Hstrs; simpl; try done.
    apply strs_loop in Hstrs as (snew & -> & Hk). simpl. intros [= <-]. right.
    exists snew. split; [| split; [| done]].
    + rewrite <- Hl, Hk, <- list_fmap_compose. by apply list_fmap_ext.
    + intros p Hp. apply (Hnew (p.1, Some p.2)).
      rewrite Hk. apply list_elem_of_fmap. by exists p.
Qed.

Lemma sorted_perm l l' : Formatter.sorted sort_key reverse l = Ok l' → l' ≡ₚ l.
Proof.
  intros [[_ ->]|(strs & <- & _ & ->)]%sorted_Ok; [done |].
  by rewrite isort_perm.
Qed.

Lemma sorted_pairs_ordered (ps : list (A * string)) :
  (∀ p, p ∈ ps → sort_key p.1 = Ok (Some p.2)) →
  StronglySorted R ps → StronglySorted (ordered_by sort_key reverse) ps.*1.
Proof.
  intros Hps Hs. induction Hs as [|p ps Hs IH Hp]; simpl; [constructor |].
  constructor.
  - apply IH. intros q Hq. apply Hps. by apply list_elem_of_further.
  - apply Forall_fmap, Forall_forall. intros q Hq. exists p.2, q.2.
    rewrite Forall_forall in Hp. repeat split.
    + apply Hps, list_elem_of_here.
    + apply Hps. by apply list_elem_of_further.
    + by apply Hp.
Qed.

Lemma sorted_ordered l l' :
  Formatter.sorted sort_key reverse l = Ok l' →
  StronglySorted (ordered_by sort_key reverse) l'.
Proof.
  intros [[Hlen ->]|(strs & <- & Hk & ->)]%sorted_Ok.
  - destruct l as [|x [|y l]]; simpl in Hlen; [constructor | | lia].
    by repeat constructor.
  - apply sorted_pairs_ordered; [| apply isort_sorted].
    intros p Hp. apply Hk. by rewrite <- (isort_perm strs).
Qed.

Lemma filter_pairs_keys s (ps : list (A * string)) :
  (∀ p, p ∈ ps → sort_key p.1 = Ok (Some p.2)) →
  (filter (fun p => p.2 = s) ps).*1 = filter (fun x => sort_key x = Ok (Some s)) ps.*1.
Proof.
  induction ps as [|p ps IH]; intros Hps; [done |].
  assert (sort_key p.1 = Ok (Some p.2)) as Hp by apply Hps, list_elem_of_here.
  assert ((filter (fun p => p.2 = s) ps).*1
          = filter (fun x => sort_key x = Ok (Some s)) ps.*1) as IH'.
  { apply IH. intros q Hq. apply Hps. by apply list_elem_of_further. }
  rewrite fmap_cons. destruct (decide (p.2 = s)) as [Hs|Hs].
  - rewrite !filter_cons_True; [| by rewrite Hp, Hs | done].
    by rewrite fmap_cons, IH'.
  - rewrite !filter_cons_False; [done | | done].
    rewrite Hp. congruence.
Qed.

Lemma sorted_stable s l l' :
  Formatter.sorted sort_key reverse l = Ok l' →
  filter (fun x => sort_key x = Ok (Some s)) l'
  = filter (fun x => sort_key x = Ok (Some s)) l.
Proof.
  intros [[_ ->]|(strs & <- & Hk & ->)]%sorted_Ok; [done |].
  rewrite <- !filter_pairs_keys; [by rewrite isort_stable | done |].
  intros p Hp. apply Hk. by rewrite <- (isort_perm strs).
Qed.

End SortedFacts.

(** ** Grouping and sorting *)

(** ** Dictionaries, continued *)

Section DictFacts2.
Context {K V : Type} `{EqDecision K}.
Implicit Types (d : list (K * V)) (k : K) (v : V).

Lemma dict_set_set d k v v' : dict_set (dict_set d k v) k v' = dict_set d k v'.
Proof.
  induction d as [|[k0 v0] d IH]; simpl.
  - by rewrite decide_True.
  - destruct (decide (k0 = k)) as [->|Hne]; simpl.
    + by rewrite decide_True.
    + rewrite decide_False by done. by rewrite IH.
Qed.

Lemma dict_in_keys k d : dict_in k d = true ↔ k ∈ dict_keys d.
Proof.
  rewrite <- dict_get_in. unfold dict_in.
  destruct (dict_get d k); split; done.
Qed.

Lemma dict_get_getitem d k v : dict_get d k = Some v → dict_getitem d k = Ok v.
Proof. unfold dict_getitem. by intros ->. Qed.

End DictFacts2.

(** With distinct keys, the values in order are the lookups of the keys
    in order. *)
Lemma dict_values_lookup {K V : Type} `{EqDecision K} (d : list (K * list V)) :
  NoDup (dict_keys d) →
  List.concat d.*2 = dict_keys d ≫= (fun k => default [] (dict_get d k)).
Proof.
  unfold dict_keys. induction d as [|[k v] d IH]; [done |].
  rewrite !fmap_cons. cbn [fst snd]. intros [Hk Hnd]%NoDup_cons.
  cbn [List.concat mbind list_bind]. cbn [dict_get]. rewrite decide_True by done.
  cbn [default from_option]. f_equal. rewrite (IH Hnd).
  clear IH. induction (d.*1) as [|x l IHl]; [done |].
  cbn [mbind list_bind]. apply not_elem_of_cons in Hk as [Hx Hk].
  rewrite decide_False by done. f_equal. apply IHl; [done |].
  by apply NoDup_cons in Hnd as [_ ?].
Qed.

Lemma bind_perm_ext {A B : Type} (f g : A → list B) (l : list A) :
  (∀ x, x ∈ l → f x ≡ₚ g x) → l ≫= f ≡ₚ l ≫= g.
Proof.
  induction l as [|x l IH]; intros Hfg; [done |].
  cbn [mbind list_bind]. rewrite (Hfg x) by apply list_elem_of_here.
  apply Permutation_app_head, IH. intros y Hy. apply Hfg. by apply list_elem_of_further.
Qed.

(** ** [sorted]: when it returns *)

Section SortedTotal.
Context {A : Type}.
Variable sort_key : A → outcome (option string).
Variable reverse : bool.

Lemma keys_loop_total (l : list A) (acc : list (A * option string)) :
  (∀ x, x ∈ l → ∃ k, sort_key x = Ok k) →
  ∃ keys, for_each (fun (acc : list (A * option string)) x =>
                      k ← sort_key x; Ok (acc ++ [(x, k)])) l acc = Ok keys.
Proof.
  revert acc. induction l as [|x l IH]; intros acc Hl; simpl; [by eexists |].
  destruct (Hl x) as [k ->]; [apply list_elem_of_here |]. simpl.
  apply IH. intros y Hy. apply Hl. by apply list_elem_of_further.
Qed.

Lemma strs_loop_total (keys : list (A * option string)) (acc : list (A * string)) :
  (∀ p, p ∈ keys → is_Some p.2) →
  ∃ strs, for_each (fun (acc : list (A * string)) (xk : A * option string) =>
                      match xk.2 with
                      | Some s => Ok (acc ++ [(xk.1, s)])
                      | None => Raise TypeError
                      end) keys acc = Ok strs.
Proof.
  revert acc. induction keys as [|p keys IH]; intros acc Hl; simpl; [by eexists |].
  destruct (Hl p) as [s ->]; [apply list_elem_of_here |]. simpl.
  apply IH. intros y Hy. apply Hl. by apply list_elem_of_further.
Qed.

Lemma sorted_total (l : list A) :
  (∀ x, x ∈ l → ∃ s, sort_key x = Ok (Some s)) →
  ∃ l', Formatter.sorted sort_key reverse l = Ok l'.
Proof.
  intros Hl. unfold Formatter.sorted.
  destruct (keys_loop_total l []) as [keys Hkeys].
  { intros x Hx. destruct (Hl x Hx) as [s ->]. by eexists. }
  rewrite Hkeys. simpl.
  destruct (keys_loop _ _ _ _ Hkeys) as (new & -> & Hnew & Hkey).
  simpl. destruct new as [|p [|q new]]; [by eexists | by eexists |].
  destruct (strs_loop_total (p :: q :: new) []) as [strs ->]; [| by eexists].
  intros r Hr. specialize (Hkey r Hr).
  destruct (Hl r.1) as [s Hs].
  { rewrite <- Hnew. apply list_elem_of_fmap. by exists r. }
  rewrite Hs in Hkey. injection Hkey as <-. by eexists.
Qed.

End SortedTotal.

(** ** [Formatter.execute]: the grouping loop *)

Lemma group_key_read self d :
  (x ← CrisEntity.__getitem__ d (str (of_opt (Formatter.group_by self)));
   Formatter.lower_method x)
  = match attr d (str (of_opt (Formatter.group_by self))) with
    | Some v => Ok (lower v)
    | None => Raise AttributeError
    end.
Proof.
  unfold attr, CrisEntity.__getitem__.
  destruct (CrisEntity._data d) as [b|]; simpl; [| done].
  by destruct (mjoin (dict_get b _)).
Qed.

Lemma append_member (U : list (Formatter.key * list CrisEntity.t)) g d (gv : option Formatter.key) :
  (let unsorted := if dict_in g U then U else dict_set U g [] in
   members ← dict_getitem unsorted g;
   Ok (dict_set unsorted g (members ++ [d]), gv))
  = Ok (add_member U g d, gv).
Proof.
  unfold dict_in, dict_getitem, add_member. cbv zeta.
  destruct (dict_get U g) as [m|] eqn:Hg; simpl.
  - by rewrite Hg.
  - rewrite dict_get_set_eq. simpl. by rewrite dict_set_set.
Qed.

(** One pass of the grouping loop: the entity goes to its own group, or,
    when it has none, to the group of the entity before it. *)
Lemma group_step_eq self U gv i d :
  Formatter.group_step self (U, gv) (i, d)
  = match (if group_of self d is Some g then Some g else gv) with
    | Some g => Ok (add_member U g d, Some g)
    | None => Raise UnboundLocalError
    end.
Proof.
  unfold Formatter.group_step. cbn [snd]. rewrite group_key_read. unfold group_of.
  destruct (attr d _) as [v|]; simpl.
  - apply append_member.
  - destruct (Formatter.group_by self); simpl.
    + destruct gv as [g|]; simpl; [apply append_member | done].
    + apply append_member.
Qed.

Lemma add_member_get U g d k :
  default [] (dict_get (add_member U g d) k)
  = default [] (dict_get U k) ++ (if decide (g = k) then [d] else []).
Proof.
  unfold add_member. rewrite dict_get_set.
  destruct (decide (g = k)) as [->|Hne]; [done |]. by rewrite app_nil_r.
Qed.

Lemma add_member_in U g d k :
  k ∈ dict_keys (add_member U g d) ↔ k ∈ dict_keys U ∨ k = g.
Proof.
  unfold add_member. rewrite dict_keys_set. case_bool_decide as Hin.
  - split; [by left |]. by intros [?| ->].
  - rewrite elem_of_app, list_elem_of_singleton. done.
Qed.

Lemma add_member_nonempty U g d :
  (∀ k m, dict_get U k = Some m → m ≠ []) →
  ∀ k m, dict_get (add_member U g d) k = Some m → m ≠ [].
Proof.
  intros HU k m. unfold add_member. rewrite dict_get_set.
  destruct (decide (g = k)); [| apply HU].
  intros [= <-] Heq. by apply app_eq_nil in Heq as [_ ?].
Qed.

Lemma add_member_concat U g d :
  List.concat (add_member U g d).*2 ≡ₚ List.concat U.*2 ++ [d].
Proof.
  unfold add_member. induction U as [|[k v] U IH]; [done |].
  cbn [dict_get dict_set]. destruct (decide (k = g)) as [->|Hne].
  - cbn. rewrite <- !app_assoc. apply Permutation_app_head, Permutation_app_comm.
  - cbn. cbn in IH. rewrite IH. by rewrite app_assoc.
Qed.

Lemma group_loop_invariant self (I : list (Formatter.key * list CrisEntity.t) → Prop)
    data U gv U' gv' :
  (∀ U g d, I U → I (add_member U g d)) →
  I U → for_each (Formatter.group_step self) data (U, gv) = Ok (U', gv') → I U'.
Proof.
  intros Hadd HU Hloop.
  apply (for_each_invariant _ (fun s => I s.1) _ _ _) in Hloop; [done | | done].
  intros [U0 gv0] [i d] [U1 gv1] _ HU0. rewrite group_step_eq.
  destruct (if group_of self d is Some g then Some g else gv0); [| done].
  intros [= <- <-]. by apply Hadd.
Qed.

Lemma group_loop_perm self data U gv U' gv' :
  for_each (Formatter.group_step self) data (U, gv) = Ok (U', gv') →
  List.concat U'.*2 ≡ₚ List.concat U.*2 ++ data.*2.
Proof.
  revert U gv. induction data as [|[i d] data IH]; intros U gv; cbn [for_each].
  - intros [= <- <-]. by rewrite app_nil_r.
  - rewrite group_step_eq.
    destruct (if group_of self d is Some g then Some g else gv) as [g|]; [| done].
    simpl. intros Hloop. rewrite (IH _ _ Hloop), add_member_concat.
    by rewrite <- app_assoc.
Qed.

(** When every entity has a group of its own, the loop returns, and each
    group holds the entities of that group in the order of the
    collection. *)
Lemma group_loop_own self data U gv :
  (∀ d, d ∈ data.*2 → is_Some (group_of self d)) →
  ∃ U' gv', for_each (Formatter.group_step self) data (U, gv) = Ok (U', gv')
    ∧ (∀ k, default [] (dict_get U' k)
            = default [] (dict_get U k)
              ++ filter (fun d => group_of self d = Some k) data.*2)
    ∧ (∀ k, k ∈ dict_keys U'
            ↔ k ∈ dict_keys U ∨ ∃ d, d ∈ data.*2 ∧ group_of self d = Some k).
Proof.
  revert U gv. induction data as [|[i d] data IH]; intros U gv Hown.
  - exists U, gv. split; [done |]. split.
    + intros k. by rewrite app_nil_r.
    + intros k. split; [by left |]. intros [?|(d & Hd & _)]; [done |].
      by apply not_elem_of_nil in Hd.
  - cbn [for_each]. rewrite group_step_eq.
    destruct (Hown d) as [g Hg]; [apply list_elem_of_here |]. rewrite Hg. simpl.
    destruct (IH (add_member U g d) (Some g)) as (U' & gv' & Hloop & Hget & Hkeys).
    { intros d' Hd'. apply Hown. by apply list_elem_of_further. }
    exists U', gv'. split; [done |]. split.
    + intros k. rewrite Hget, add_member_get, <- app_assoc. f_equal.
      change (((i, d) :: data).*2) with (d :: data.*2). rewrite filter_cons, Hg.
      destruct (decide (g = k)) as [->|Hne].
      * by rewrite decide_True.
      * rewrite decide_False; [done |]. by intros [= ?].
    + intros k. rewrite Hkeys, add_member_in. split.
      * intros [[?| ->]|(d' & Hd' & Hk)].
        -- by left.
        -- right. exists d. split; [apply list_elem_of_here | done].
        -- right. exists d'. split; [by apply list_elem_of_further | done].
      * intros [?|(d' & Hd' & Hk)]; [by left; left |].
        apply elem_of_cons in Hd' as [->|Hd'].
        -- left. right. rewrite Hg in Hk. by injection Hk.
        -- right. by exists d'.
Qed.

(** ** [Formatter.execute]: the list of keys *)

Lemma order_keys_Ok list_of_set self U keylist self' :
  Formatter.order_keys list_of_set self U = Ok (keylist, self') →
  Formatter.sort_by self' = Formatter.sort_by self
  ∧ Formatter.sort_order self' = Formatter.sort_order self
  ∧ ((Formatter.is_sentinel (Formatter.group_order self) = true
      ∧ Formatter.sorted (fun k => Ok k) (Formatter.is_desc (Formatter.group_order self))
                         (dict_keys U) = Ok keylist)
     ∨ (∃ l extra, Formatter.group_order self = Formatter.Listed l
                   ∧ keylist = l ++ extra
                   ∧ extra ≡ₚ filter (fun k => k ∉ l) (dict_keys U))).
Proof.
  unfold Formatter.order_keys.
  destruct (Formatter.is_sentinel (Formatter.group_order self)) eqn:Hs.
  - destruct (Formatter.sorted _ _ _) as [ks| |] eqn:Hsorted; simpl; try done.
    intros [= <- <-]. repeat split. by left.
  - destruct (Formatter.group_order self) as [n|l]; [done |].
    intros [= <- <-]. repeat split. right.
    destruct (filter _ (dict_keys U)) as [|k0 missing] eqn:Hm.
    + exists l, []. rewrite app_nil_r. repeat split. by rewrite Hm.
    + exists l, (proj1_sig list_of_set (k0 :: missing)). repeat split.
      rewrite Hm. apply (proj2_sig list_of_set).
Qed.

Lemma order_keys_covers list_of_set self U keylist self' :
  Formatter.order_keys list_of_set self U = Ok (keylist, self') →
  ∀ k, k ∈ dict_keys U → k ∈ keylist.
Proof.
  intros Hok k Hk. apply order_keys_Ok in Hok as (_ & _ & [[_ Hs]|(l & extra & _ & -> & Hex)]).
  - by rewrite (sorted_perm _ _ _ _ Hs).
  - apply elem_of_app. destruct (decide (k ∈ l)) as [?|Hn]; [by left | right].
    rewrite Hex. by apply list_elem_of_filter.
Qed.

Lemma order_keys_NoDup list_of_set self U keylist self' :
  Formatter.order_keys list_of_set self U = Ok (keylist, self') →
  NoDup (dict_keys U) →
  (∀ l, Formatter.group_order self = Formatter.Listed l → NoDup l) →
  NoDup keylist.
Proof.
  intros Hok HU Hl. apply order_keys_Ok in Hok as (_ & _ & [[_ Hs]|(l & extra & Hgo & -> & Hex)]).
  - by rewrite (sorted_perm _ _ _ _ Hs).
  - apply NoDup_app. split; [by apply Hl |]. split.
    + intros k Hk. rewrite Hex. intros [Hn _]%list_elem_of_filter. done.
    + rewrite Hex. by apply NoDup_filter.
Qed.

(** ** [Formatter.execute]: the last loop *)

Lemma arrange_step_Ok self U results k results' :
  Formatter.arrange_step self U results k = Ok results' →
  (dict_get U k = None ∧ results' = results)
  ∨ ∃ m0 m, dict_get U k = Some m0 ∧ arranged self m0 = Ok m
            ∧ results' = dict_set results k m.
Proof.
  unfold Formatter.arrange_step, arranged, dict_in, dict_getitem.
  destruct (Formatter.sort_by self) as [sb|]; destruct (dict_get U k) as [m0|]; simpl; try done.
  - destruct (Formatter.sorted _ _ m0) as [m|e|] eqn:Hs; simpl; try done.
    + intros [= <-]. right. by exists m0, m.
    + by destruct (decide (e = TypeError)).
  - intros [= <-]. by left.
  - intros [= <-]. right. by exists m0, m0.
Qed.

Lemma arrange_loop self U keylist results0 results :
  for_each (Formatter.arrange_step self U) keylist results0 = Ok results →
  (∀ k m0, k ∈ keylist → dict_get U k = Some m0 →
           ∃ m, arranged self m0 = Ok m ∧ dict_get results k = Some m)
  ∧ (∀ k, k ∉ keylist ∨ dict_get U k = None → dict_get results k = dict_get results0 k).
Proof.
  revert results0. induction keylist as [|x keylist IH]; intros results0; cbn [for_each].
  - intros [= <-]. split; [| done]. intros k m0 Hk. by apply not_elem_of_nil in Hk.
  - destruct (Formatter.arrange_step self U results0 x) as [results1| |] eqn:Hx; try done.
    simpl. intros Hloop. destruct (IH _ Hloop) as [IH1 IH2].
    apply arrange_step_Ok in Hx. split.
    + intros k m0 Hk Hm0. destruct (decide (k ∈ keylist)) as [Hin|Hout]; [by apply IH1 |].
      apply elem_of_cons in Hk as [->|?]; [| done].
      destruct Hx as [[Hnone _]|(m1 & m & Hm1 & Hm & ->)]; [congruence |].
      exists m. rewrite Hm1 in Hm0. injection Hm0 as ->. split; [done |].
      rewrite IH2 by by left. apply dict_get_set_eq.
    + intros k Hk. rewrite IH2.
      * destruct Hx as [[_ ->]|(m1 & m & Hm1 & Hm & ->)]; [done |].
        apply dict_get_set_ne. intros ->. destruct Hk as [Hk|Hk]; [| congruence].
        apply Hk, list_elem_of_here.
      * destruct Hk as [Hk|Hk]; [left | by right].
        intros ?. apply Hk. by apply list_elem_of_further.
Qed.

Lemma arrange_loop_keys self U keylist results0 results :
  for_each (Formatter.arrange_step self U) keylist results0 = Ok results →
  NoDup keylist → (∀ k, k ∈ keylist → k ∉ dict_keys results0) →
  dict_keys results = dict_keys results0 ++ filter (fun k => k ∈ dict_keys U) keylist.
Proof.
  revert results0. induction keylist as [|x keylist IH]; intros results0; cbn [for_each].
  - intros [= <-] _ _. by rewrite app_nil_r.
  - destruct (Formatter.arrange_step self U results0 x) as [results1| |] eqn:Hx; try done.
    simpl. intros Hloop [Hx' Hnd]%NoDup_cons Hnew.
    apply arrange_step_Ok in Hx as [[Hnone ->]|(m1 & m & Hm1 & Hm & ->)].
    + rewrite (IH _ Hloop Hnd).
      * rewrite filter_cons_False; [done |].
        rewrite <- dict_get_in, Hnone. by intros [? ?].
      * intros k Hk. apply Hnew. by apply list_elem_of_further.
    + rewrite (IH _ Hloop Hnd).
      * rewrite dict_keys_set, bool_decide_eq_false_2 by apply Hnew, list_elem_of_here.
        rewrite filter_cons_True; [by rewrite <- app_assoc |].
        rewrite <- dict_get_in, Hm1. by eexists.
      * intros k Hk. rewrite dict_keys_set.
        rewrite bool_decide_eq_false_2 by apply Hnew, list_elem_of_here.
        rewrite elem_of_app, list_elem_of_singleton. intros [Hin| ->]; [| done].
        revert Hin. apply Hnew. by apply list_elem_of_further.
Qed.

Lemma arrange_loop_NoDup self U keylist results0 results :
  for_each (Formatter.arrange_step self U) keylist results0 = Ok results →
  NoDup (dict_keys results0) → NoDup (dict_keys results).
Proof.
  intros Hloop H0. revert Hloop.
  apply (for_each_invariant _ (fun r => NoDup (dict_keys r))); [| done].
  intros s x s' _ Hs [[_ ->]|(m1 & m & _ & _ & ->)]%arrange_step_Ok; [done |].
  by apply dict_set_NoDup.
Qed.

Lemma execute_Ok list_of_set self data results :
  (Formatter.execute list_of_set self data).2 = Ok results →
  ∃ U gv keylist self',
    for_each (Formatter.group_step self) data ([], None) = Ok (U, gv)
    ∧ Formatter.order_keys list_of_set self U = Ok (keylist, self')
    ∧ for_each (Formatter.arrange_step self' U) keylist [] = Ok results.
Proof.
  unfold Formatter.execute.
  destruct (for_each (Formatter.group_step self) data ([], None))
    as [[U gv]| |] eqn:Hg; try done.
  destruct (Formatter.order_keys list_of_set self U)
    as [[keylist self']| |] eqn:Ho; try done.
  cbn [snd]. intros Hloop. by exists U, gv, keylist, self'.
Qed.

Lemma arranged_perm self m0 m : arranged self m0 = Ok m → m ≡ₚ m0.
Proof.
  unfold arranged. destruct (Formatter.sort_by self); [apply sorted_perm |].
  by intros [= <-].
Qed.

Lemma arranged_nil self : arranged self [] = Ok [].
Proof. unfold arranged. by destruct (Formatter.sort_by self). Qed.

Lemma arranged_frame self self' m0 :
  Formatter.sort_by self' = Formatter.sort_by self →
  Formatter.sort_order self' = Formatter.sort_order self →
  arranged self' m0 = arranged self m0.
Proof. unfold arranged. by intros -> ->. Qed.

Lemma arrange_lookup self U keylist results k m :
  for_each (Formatter.arrange_step self U) keylist [] = Ok results →
  dict_get results k = Some m →
  ∃ m0, k ∈ keylist ∧ dict_get U k = Some m0 ∧ arranged self m0 = Ok m.
Proof.
  intros [H1 H2]%arrange_loop Hk.
  destruct (decide (k ∈ keylist)) as [Hin|Hout]; [| by rewrite H2 in Hk by by left].
  destruct (dict_get U k) as [m0|] eqn:Hm0; [| by rewrite H2 in Hk by by right].
  destruct (H1 k m0 Hin Hm0) as (m' & Hm' & Hk'). exists m0.
  rewrite Hk in Hk'. injection Hk' as ->. done.
Qed.

(** What a successful [execute] is made of. *)
Lemma execute_values list_of_set self data results :
  (Formatter.execute list_of_set self data).2 = Ok results →
  ∃ U gv, for_each (Formatter.group_step self) data ([], None) = Ok (U, gv)
    ∧ NoDup (dict_keys U) ∧ NoDup (dict_keys results)
    ∧ (∀ k, k ∈ dict_keys results ↔ k ∈ dict_keys U)
    ∧ (∀ k m, dict_get results k = Some m →
              ∃ m0, dict_get U k = Some m0 ∧ arranged self m0 = Ok m).
Proof.
  intros (U & gv & keylist & self' & Hgroup & Horder & Hloop)%execute_Ok.
  exists U, gv. split; [done |].
  assert (NoDup (dict_keys U)) as HU.
  { revert Hgroup.
    apply (group_loop_invariant self (fun U => NoDup (dict_keys U))); [| apply NoDup_nil_2].
    intros U0 g d. apply dict_set_NoDup. }
  split; [done |]. split.
  { apply (arrange_loop_NoDup _ _ _ _ _ Hloop), NoDup_nil_2. }
  pose proof (order_keys_Ok _ _ _ _ _ Horder) as (Hsb & Hso & _).
  assert (∀ k m, dict_get results k = Some m →
                 ∃ m0, dict_get U k = Some m0 ∧ arranged self m0 = Ok m) as Hval.
  { intros k m Hk. destruct (arrange_lookup _ _ _ _ _ _ Hloop Hk) as (m0 & _ & Hm0 & Hm).
    exists m0. by rewrite <- (arranged_frame self self'). }
  split; [| done]. intros k. rewrite <- !dict_get_in. split.
  - intros [m Hk]. destruct (Hval k m Hk) as (m0 & -> & _). by eexists.
  - intros [m0 Hm0]. apply arrange_loop in Hloop as [H1 _].
    destruct (H1 k m0) as (m & _ & ->); [| done | by eexists].
    apply (order_keys_covers _ _ _ _ _ Horder), dict_get_in. by eexists.
Qed.

(** X9: [execute] regroups and neither drops nor duplicates: the groups have
    pairwise distinct keys, none is empty, and together they hold the
    entities of the collection, each as often as the collection does. *)
Theorem execute_keeps_every_entity list_of_set self data results :
  (Formatter.execute list_of_set self data).2 = Ok results →
  NoDup (dict_keys results)
  ∧ List.concat results.*2 ≡ₚ data.*2
  ∧ ∀ k m, dict_get results k = Some m → m ≠ [].
Proof.
  intros (U & gv & Hgroup & HU & Hres & Hkeys & Hval)%execute_values.
  split; [done |]. split.
  - rewrite <- (app_nil_l data.*2).
    change (@nil CrisEntity.t) with (List.concat (@nil (Formatter.key * list CrisEntity.t)).*2).
    rewrite <- (group_loop_perm _ _ _ _ _ _ Hgroup).
    rewrite (dict_values_lookup results Hres), (dict_values_lookup U HU).
    rewrite (NoDup_Permutation (dict_keys results) (dict_keys U) Hres HU Hkeys).
    apply bind_perm_ext. intros k Hk.
    apply Hkeys, dict_get_in in Hk as [m Hm]. rewrite Hm.
    destruct (Hval k m Hm) as (m0 & -> & Ha). by apply arranged_perm in Ha.
  - intros k m Hk. destruct (Hval k m Hk) as (m0 & Hm0 & Ha).
    apply arranged_perm in Ha. intros ->. apply Permutation_nil_l in Ha. subst m0.
    clear Hk. revert Hgroup k Hm0.
    apply (group_loop_invariant self (fun U => ∀ k, dict_get U k ≠ Some [])); [| done].
    intros U0 g d HU0 k Hk'.
    apply (add_member_nonempty U0 g d) in Hk'; [done |].
    intros k' m' Hm' ->. by apply (HU0 k').
Qed.

Lemma execute_keeps_every_entity_witness :
  NoDup (dict_keys three_papers_by_year)
  ∧ List.concat three_papers_by_year.*2 ≡ₚ three_papers.*2
  ∧ ∀ k m, dict_get three_papers_by_year k = Some m → m ≠ [].
Proof.
  apply (execute_keeps_every_entity in_order by_year three_papers). reflexivity.
Defined.

(** X11: with a sort attribute, every group of the result is in the order of
    that attribute (ascending, or descending for [SORT_DESC]), and every
    member of a group of two or more has the attribute set. *)
Theorem execute_groups_sorted list_of_set self data results sb :
  Formatter.sort_by self = Some sb →
  (Formatter.execute list_of_set self data).2 = Ok results →
  ∀ k m, dict_get results k = Some m →
    StronglySorted (ordered_by (fun y => CrisEntity.__getitem__ y sb)
                               (Formatter.is_desc (Formatter.sort_order self))) m.
Proof.
  intros Hsb (U & gv & _ & _ & _ & _ & Hval)%execute_values k m Hk.
  destruct (Hval k m Hk) as (m0 & _ & Ha). unfold arranged in Ha. rewrite Hsb in Ha.
  by apply sorted_ordered in Ha.
Qed.

Lemma execute_groups_sorted_witness :
  StronglySorted (ordered_by (fun y => CrisEntity.__getitem__ y "id")
                             (Formatter.is_desc (Formatter.sort_order by_year)))
                 [e2015'; e2015].
Proof.
  apply (execute_groups_sorted in_order by_year three_papers three_papers_by_year "id"
           eq_refl eq_refl (Some "2015")).
  reflexivity.
Defined.

(** When every entity has a group of its own, each group of the result is
    the arrangement of the entities of that group, taken in the order of
    the collection. *)
Lemma execute_own_groups list_of_set self data results :
  (∀ d, d ∈ data.*2 → is_Some (group_of self d)) →
  (Formatter.execute list_of_set self data).2 = Ok results →
  ∀ k, arranged self (filter (fun d => group_of self d = Some k) data.*2)
       = Ok (default [] (dict_get results k)).
Proof.
  intros Hown (U & gv & Hgroup & _ & _ & Hkeys & Hval)%execute_values k.
  destruct (group_loop_own self data [] None Hown) as (U' & gv' & Hgroup' & Hget & _).
  rewrite Hgroup in Hgroup'. injection Hgroup' as <- <-.
  specialize (Hget k). cbn [dict_get default from_option app] in Hget. rewrite <- Hget.
  destruct (dict_get results k) as [m|] eqn:Hk.
  - by destruct (Hval k m Hk) as (m0 & -> & Ha).
  - assert (dict_get U k = None) as ->; [| apply arranged_nil].
    destruct (dict_get U k) as [m0|] eqn:Hm0; [| done].
    assert (k ∈ dict_keys results) as [m Hm]%dict_get_in; [| congruence].
    apply Hkeys, dict_get_in. by eexists.
Qed.

Lemma group_of_attr self gb d :
  Formatter.group_by self = Some gb →
  group_of self d = (fun v => Some (lower v)) <$> attr d gb.
Proof. unfold group_of. intros ->. simpl. by destruct (attr d gb). Qed.

(** X10: when every entity has the grouping attribute, an entity is in the
    group of key [k] exactly when it is in the collection and its grouping
    attribute, lower-cased, is [k]. *)
Theorem execute_groups_by_attribute list_of_set self data results gb :
  Formatter.group_by self = Some gb →
  (∀ d, d ∈ data.*2 → is_Some (attr d gb)) →
  (Formatter.execute list_of_set self data).2 = Ok results →
  ∀ k d, d ∈ default [] (dict_get results k)
         ↔ d ∈ data.*2 ∧ lower <$> attr d gb = k.
Proof.
  intros Hgb Hset Hex k d.
  assert (∀ d, d ∈ data.*2 → is_Some (group_of self d)) as Hown.
  { intros d' Hd'. rewrite (group_of_attr self gb) by done.
    destruct (Hset d' Hd') as [v ->]. by eexists. }
  pose proof (execute_own_groups _ _ _ _ Hown Hex k) as Ha.
  apply arranged_perm in Ha. rewrite Ha, list_elem_of_filter.
  rewrite (group_of_attr self gb) by done. split.
  - intros [Hk Hd]. split; [done |]. destruct (attr d gb); simpl in *; congruence.
  - intros [Hd Hk]. split; [| done]. destruct (Hset d Hd) as [v Hv].
    rewrite Hv in *. simpl in *. congruence.
Qed.

Lemma execute_groups_by_attribute_witness :
  e2015 ∈ default [] (dict_get three_papers_by_year (Some "2015"))
  ↔ e2015 ∈ three_papers.*2 ∧ lower <$> attr e2015 "publyear" = Some "2015".
Proof.
  apply (execute_groups_by_attribute in_order by_year three_papers).
  - reflexivity.
  - intros d Hd. apply list_elem_of_In in Hd. vm_compute in Hd.
    destruct Hd as [<-|[<-|[<-|[]]]]; by eexists.
  - reflexivity.
Defined.

Lemma filter_ext_in {A : Type} (P Q : A → Prop) `{∀ x, Decision (P x)}
    `{∀ x, Decision (Q x)} (l : list A) :
  (∀ x, x ∈ l → P x ↔ Q x) → filter P l = filter Q l.
Proof.
  induction l as [|x l IH]; intros Hl; [done |].
  rewrite !filter_cons. rewrite IH by (intros y Hy; by apply Hl, list_elem_of_further).
  destruct (decide (P x)) as [HP|HP], (decide (Q x)) as [HQ|HQ]; try done.
  - by apply (Hl x) in HP; [| apply list_elem_of_here].
  - by apply (Hl x) in HQ; [| apply list_elem_of_here].
Qed.

Lemma attr_getitem d a s : CrisEntity.__getitem__ d a = Ok (Some s) ↔ attr d a = Some s.
Proof.
  unfold attr. destruct (CrisEntity.__getitem__ d a) as [[?|]| |]; split; congruence.
Qed.

(** X12: sorting inside a group is stable: the members of a group with one
    and the same sort value are the entities of the collection with that
    group and that value, in the order of the collection. *)
Theorem execute_sort_is_stable list_of_set self data results gb sb :
  Formatter.group_by self = Some gb →
  Formatter.sort_by self = Some sb →
  (∀ d, d ∈ data.*2 → is_Some (attr d gb)) →
  (Formatter.execute list_of_set self data).2 = Ok results →
  ∀ k s, filter (fun d => attr d sb = Some s) (default [] (dict_get results k))
         = filter (fun d => attr d sb = Some s ∧ lower <$> attr d gb = k) data.*2.
Proof.
  intros Hgb Hsb Hset Hex k s.
  assert (∀ d, d ∈ data.*2 → is_Some (group_of self d)) as Hown.
  { intros d' Hd'. rewrite (group_of_attr self gb) by done.
    destruct (Hset d' Hd') as [v ->]. by eexists. }
  pose proof (execute_own_groups _ _ _ _ Hown Hex k) as Ha.
  unfold arranged in Ha. rewrite Hsb in Ha.
  apply (sorted_stable _ _ s) in Ha.
  rewrite (list_filter_iff _ (fun d => CrisEntity.__getitem__ d sb = Ok (Some s)))
    by (intros d; symmetry; apply attr_getitem).
  rewrite Ha, list_filter_filter. apply filter_ext_in. intros d Hd.
  rewrite attr_getitem, (group_of_attr self gb) by done.
  destruct (Hset d Hd) as [v ->]. simpl. split; intros [? ?]; split; congruence.
Qed.

Lemma execute_sort_is_stable_witness :
  filter (fun d => attr d "id" = Some "1")
         (default [] (dict_get three_papers_by_year (Some "2015")))
  = filter (fun d => attr d "id" = Some "1" ∧ lower <$> attr d "publyear" = Some "2015")
           three_papers.*2.
Proof.
  apply (execute_sort_is_stable in_order by_year three_papers).
  - reflexivity.
  - reflexivity.
  - intros d Hd. apply list_elem_of_In in Hd. vm_compute in Hd.
    destruct Hd as [<-|[<-|[<-|[]]]]; by eexists.
  - reflexivity.
Defined.

Lemma filter_all {A : Type} (P : A → Prop) `{∀ x, Decision (P x)} (l : list A) :
  (∀ x, x ∈ l → P x) → filter P l = l.
Proof.
  induction l as [|x l IH]; intros Hl; [done |].
  rewrite filter_cons_True by apply Hl, list_elem_of_here.
  f_equal. apply IH. intros y Hy. by apply Hl, list_elem_of_further.
Qed.

(** X13: with [SORT_ASC] or [SORT_DESC] as group order the groups come out in
    ascending or descending order of their keys. *)
Theorem execute_group_order_sorted list_of_set self data results :
  Formatter.is_sentinel (Formatter.group_order self) = true →
  (Formatter.execute list_of_set self data).2 = Ok results →
  StronglySorted (ordered_by (fun k => Ok k)
                             (Formatter.is_desc (Formatter.group_order self)))
                 (dict_keys results).
Proof.
  intros Hs Hex.
  pose proof Hex as (U & gv & _ & HU & _ & _ & _)%execute_values.
  apply execute_Ok in Hex as (U' & gv' & keylist & self' & Hgroup & Horder & Hloop).
  pose proof Horder as (_ & _ & [[_ Hsorted]|(l & ? & Hl & _)])%order_keys_Ok;
    [| by rewrite Hl in Hs].
  assert (dict_keys results = keylist) as ->; [| by apply sorted_ordered in Hsorted].
  assert (NoDup (dict_keys U')) as HU'.
  { revert Hgroup.
    apply (group_loop_invariant self (fun U => NoDup (dict_keys U))); [| apply NoDup_nil_2].
    intros U0 g d. apply dict_set_NoDup. }
  rewrite (arrange_loop_keys _ _ _ _ _ Hloop).
  - cbn [dict_keys fmap list_fmap app]. apply filter_all. intros k Hk.
    by rewrite <- (sorted_perm _ _ _ _ Hsorted).
  - by rewrite (sorted_perm _ _ _ _ Hsorted).
  - intros k _. apply not_elem_of_nil.
Qed.

Lemma execute_group_order_sorted_witness :
  StronglySorted (ordered_by (fun k => Ok k)
                             (Formatter.is_desc (Formatter.group_order by_year)))
                 (dict_keys three_papers_by_year).
Proof.
  apply (execute_group_order_sorted in_order by_year three_papers); reflexivity.
Defined.

(** X14: with a duplicate-free list as group order, the groups named in the
    list come first, in the order of the list, and the groups the list does
    not name follow them. *)
Theorem execute_group_order_listed list_of_set self data results l :
  Formatter.group_order self = Formatter.Listed l →
  NoDup l →
  (Formatter.execute list_of_set self data).2 = Ok results →
  ∃ extra, dict_keys results = filter (fun k => k ∈ dict_keys results) l ++ extra
           ∧ ∀ k, k ∈ extra → k ∉ l.
Proof.
  intros Hl Hnd Hex.
  pose proof Hex as (U & gv & Hgroup & HU & _ & Hkeys & _)%execute_values.
  apply execute_Ok in Hex as (U' & gv' & keylist & self' & Hgroup' & Horder & Hloop).
  rewrite Hgroup in Hgroup'. injection Hgroup' as <- <-.
  assert (NoDup keylist) as Hkl.
  { apply (order_keys_NoDup _ _ _ _ _ Horder HU). intros l'. rewrite Hl. by intros [= <-]. }
  pose proof Horder as (_ & _ & [[Hs _]|(l' & extra & Hl' & -> & Hextra)])%order_keys_Ok;
    [by rewrite Hl in Hs |].
  rewrite Hl in Hl'. injection Hl' as <-.
  exists (filter (fun k => k ∈ dict_keys U) extra). split.
  - rewrite (list_filter_iff (fun k => k ∈ dict_keys results) (fun k => k ∈ dict_keys U))
      by apply Hkeys.
    rewrite (arrange_loop_keys _ _ _ _ _ Hloop Hkl) by (intros k _; apply not_elem_of_nil).
    cbn [dict_keys fmap list_fmap app]. by rewrite filter_app.
  - intros k [_ Hk]%list_elem_of_filter. rewrite Hextra in Hk.
    by apply list_elem_of_filter in Hk as [? _].
Qed.

Lemma execute_group_order_listed_witness :
  ∃ extra,
    dict_keys [(Some "journal article", [e_article]); (Some "book", [e_book])]
    = filter (fun k => k ∈ dict_keys [(Some "journal article", [e_article]);
                                      (Some "book", [e_book])])
             [Some "journal article"; Some "conference contribution"] ++ extra
    ∧ ∀ k, k ∈ extra → k ∉ [Some "journal article"; Some "conference contribution"].
Proof.
  apply (execute_group_order_listed in_order by_type [("2", e_book); ("1", e_article)]).
  - reflexivity.
  - apply (bool_decide_unpack _). vm_compute. exact I.
  - reflexivity.
Defined.

(** ** [Formatter.__init__] *)

Lemma read_order_Ok o o' :
  Formatter.read_order o = Ok o' →
  Formatter.is_sentinel o' = true ∨ ∃ l, o' = Formatter.Listed l.
Proof.
  unfold Formatter.read_order. destruct (Formatter.is_sentinel o) eqn:Hs.
  - intros [= <-]. by left.
  - destruct o as [n|l]; [done |].
    destruct (for_each _ l []) as [l'| |]; simpl; try done.
    intros [= <-]. right. by eexists.
Qed.

Lemma init_fields gb go sb so self :
  Formatter.__init__ gb go sb so = Ok self →
  Formatter.group_by self = lower <$> gb
  ∧ (∃ s, sb = Some s ∧ Formatter.sort_by self = Some (lower s))
  ∧ (Formatter.is_sentinel (Formatter.group_order self) = true
     ∨ ∃ l, Formatter.group_order self = Formatter.Listed l).
Proof.
  unfold Formatter.__init__.
  destruct (Formatter.read_order go) as [go'| |] eqn:Hgo; simpl; try done.
  destruct sb as [s|]; simpl; [| done].
  destruct (Formatter.read_order so) as [so'| |]; simpl; try done.
  intros [= <-]. simpl. split; [done |]. split; [by exists s |].
  by apply read_order_Ok in Hgo.
Qed.

Lemma arrange_nothing self sb (l : list Formatter.key) :
  Formatter.sort_by self = Some sb →
  for_each (Formatter.arrange_step self []) l [] = Ok [].
Proof.
  intros Hsb. induction l as [|k l IH]; [done |].
  cbn [for_each]. unfold Formatter.arrange_step at 1. rewrite Hsb. simpl. apply IH.
Qed.

(** X8: a formatter built by [__init__] turns the empty collection into the
    empty result, and stays as it is. *)
Theorem execute_empty_collection list_of_set gb go sb so self :
  Formatter.__init__ gb go sb so = Ok self →
  Formatter.execute list_of_set self [] = (self, Ok []).
Proof.
  intros (_ & (s & _ & Hsb) & [Hs|[l Hl]])%init_fields.
  - unfold Formatter.execute, Formatter.order_keys. rewrite Hs. done.
  - unfold Formatter.execute, Formatter.order_keys. rewrite Hl. simpl.
    rewrite (arrange_nothing _ (lower s)) by done.
    destruct self. simpl in *. by subst.
Qed.

Lemma execute_empty_collection_witness :
  Formatter.execute in_order by_year [] = (by_year, Ok []).
Proof.
  apply (execute_empty_collection in_order (Some "PublYear") (Formatter.Sentinel SORT_ASC)
           (Some "ID") (Formatter.Sentinel SORT_ASC)).
  reflexivity.
Defined.

(** ** Loops that return, loops that raise *)

Lemma for_each_total {A S : Type} (body : S -> A -> outcome S) (l : list A) (s : S) :
  (∀ s x, x ∈ l → ∃ s', body s x = Ok s') → ∃ s', for_each body l s = Ok s'.
Proof.
  revert s. induction l as [|x l IH]; intros s Hl; cbn [for_each]; [by eexists |].
  destruct (Hl s x) as [s1 ->]; [apply list_elem_of_here |]. simpl.
  apply IH. intros s' y Hy. apply Hl. by apply list_elem_of_further.
Qed.

Lemma for_each_raises {A S : Type} (body : S -> A -> outcome S) (l : list A) (s : S) e :
  (∀ s x, x ∈ l → (∃ s', body s x = Ok s') ∨ body s x = Raise e) →
  (∃ x, x ∈ l ∧ ∀ s, body s x = Raise e) →
  for_each body l s = Raise e.
Proof.
  revert s. induction l as [|x l IH]; intros s Hl (x0 & Hx0 & Hraise); cbn [for_each].
  - by apply not_elem_of_nil in Hx0.
  - destruct (Hl s x) as [[s1 Hs1]|Hr]; [apply list_elem_of_here | |].
    + rewrite Hs1. simpl. apply IH.
      * intros s' y Hy. apply Hl. by apply list_elem_of_further.
      * exists x0. split; [| done]. apply elem_of_cons in Hx0 as [->|?]; [| done].
        rewrite Hraise in Hs1. done.
    + by rewrite Hr.
Qed.

Section SortedRaises.
Context {A : Type}.
Variable sort_key : A → outcome (option string).
Variable reverse : bool.

Lemma strs_loop_cases (keys : list (A * option string)) (acc : list (A * string)) :
  (∃ strs, for_each (fun (acc : list (A * string)) (xk : A * option string) =>
                       match xk.2 with
                       | Some s => Ok (acc ++ [(xk.1, s)])
                       | None => Raise TypeError
                       end) keys acc = Ok strs
           ∧ ∀ p, p ∈ keys → is_Some p.2)
  ∨ (for_each (fun (acc : list (A * string)) (xk : A * option string) =>
                 match xk.2 with
                 | Some s => Ok (acc ++ [(xk.1, s)])
                 | None => Raise TypeError
                 end) keys acc = Raise TypeError).
Proof.
  revert acc. induction keys as [|[x [s|]] keys IH]; intros acc; cbn [for_each snd fst].
  - left. eexists. split; [done |]. intros p Hp. by apply not_elem_of_nil in Hp.
  - simpl. destruct (IH (acc ++ [(x, s)])) as [(strs & -> & Hall)| ->]; [left | by right].
    eexists. split; [done |]. intros p [->|Hp]%elem_of_cons; [by eexists | by apply Hall].
  - by right.
Qed.

Lemma sorted_cases (l : list A) :
  (∀ x, x ∈ l → ∃ k, sort_key x = Ok k) →
  (∃ l', Formatter.sorted sort_key reverse l = Ok l')
  ∨ Formatter.sorted sort_key reverse l = Raise TypeError.
Proof.
  intros Hl. unfold Formatter.sorted.
  destruct (keys_loop_total sort_key l [] Hl) as [keys ->]. simpl.
  destruct keys as [|p [|q keys]]; [left; by eexists | left; by eexists |].
  destruct (strs_loop_cases (p :: q :: keys) []) as [(strs & -> & _)| ->].
  - left. by eexists.
  - by right.
Qed.

Lemma sorted_unset (l : list A) :
  (∀ x, x ∈ l → ∃ k, sort_key x = Ok k) →
  (2 ≤ List.length l)%nat →
  (∃ x, x ∈ l ∧ sort_key x = Ok None) →
  Formatter.sorted sort_key reverse l = Raise TypeError.
Proof.
  intros Hl Hlen (x & Hx & Hnone). unfold Formatter.sorted.
  destruct (keys_loop_total sort_key l [] Hl) as [keys Hkeys]. rewrite Hkeys. simpl.
  destruct (keys_loop _ _ _ _ Hkeys) as (new & -> & Hnew & Hkey). simpl.
  assert (List.length new = List.length l) as Hlen' by by rewrite <- Hnew, length_fmap.
  destruct new as [|p [|q new]]; [simpl in Hlen'; lia | simpl in Hlen'; lia |].
  destruct (strs_loop_cases (p :: q :: new) []) as [(strs & _ & Hall)| ->]; [| done].
  rewrite <- Hnew in Hx. apply list_elem_of_fmap in Hx as (r & -> & Hr).
  destruct (Hall r Hr) as [s Hs]. rewrite (Hkey r Hr), Hs in Hnone. done.
Qed.

End SortedRaises.

Lemma filter_one {A : Type} (P : A → Prop) `{∀ x, Decision (P x)} (l : list A) x :
  x ∈ l → P x → (1 ≤ List.length (filter P l))%nat.
Proof.
  intros Hx HP. assert (x ∈ filter P l) as Hin by by apply list_elem_of_filter.
  destruct (filter P l); [by apply not_elem_of_nil in Hin | simpl; lia].
Qed.

Lemma filter_two {A : Type} (P : A → Prop) `{∀ x, Decision (P x)} (l : list A) i j a b :
  l !! i = Some a → l !! j = Some b → i ≠ j → P a → P b →
  (2 ≤ List.length (filter P l))%nat.
Proof.
  revert i j. induction l as [|x l IH]; intros i j Hi Hj Hij Ha Hb; [done |].
  destruct i as [|i], j as [|j]; simpl in Hi, Hj; [done | | |].
  - injection Hi as ->. rewrite filter_cons_True by done. simpl.
    apply list_elem_of_lookup_2 in Hj. pose proof (filter_one P l b Hj Hb). lia.
  - injection Hj as ->. rewrite filter_cons_True by done. simpl.
    apply list_elem_of_lookup_2 in Hi. pose proof (filter_one P l a Hi Ha). lia.
  - assert (i ≠ j) as Hij' by congruence.
    pose proof (IH i j Hi Hj Hij' Ha Hb). rewrite filter_cons.
    destruct (decide (P x)); simpl; lia.
Qed.

(** ** [Formatter.execute]: when it returns *)

Lemma order_keys_total list_of_set self U :
  (Formatter.is_sentinel (Formatter.group_order self) = true
   ∨ ∃ l, Formatter.group_order self = Formatter.Listed l) →
  (∀ k, k ∈ dict_keys U → is_Some k) →
  ∃ keylist self', Formatter.order_keys list_of_set self U = Ok (keylist, self').
Proof.
  intros Hgo Hkeys. unfold Formatter.order_keys. destruct Hgo as [Hs|[l Hl]].
  - rewrite Hs.
    destruct (sorted_total (fun k : Formatter.key => Ok k)
                (Formatter.is_desc (Formatter.group_order self)) (dict_keys U)) as [ks ->].
    + intros k Hk. destruct (Hkeys k Hk) as [s ->]. by eexists.
    + simpl. by eexists _, _.
  - rewrite Hl. simpl. by eexists _, _.
Qed.

Lemma group_of_is_string self d k :
  Formatter.sort_by self ≠ None → group_of self d = Some k → is_Some k.
Proof.
  unfold group_of. intros Hsb. destruct (attr d _); [intros [= <-]; by eexists |].
  destruct (Formatter.group_by self); [done |]. intros [= <-].
  by destruct (Formatter.sort_by self).
Qed.

Lemma group_loop_from_empty self data :
  (∀ d, d ∈ data.*2 → is_Some (group_of self d)) →
  ∃ U gv, for_each (Formatter.group_step self) data ([], None) = Ok (U, gv)
    ∧ (∀ k m0, dict_get U k = Some m0 →
               m0 = filter (fun d => group_of self d = Some k) data.*2)
    ∧ (∀ k, k ∈ dict_keys U ↔ ∃ d, d ∈ data.*2 ∧ group_of self d = Some k).
Proof.
  intros Hown. destruct (group_loop_own self data [] None Hown) as (U & gv & Hloop & Hget & Hkeys).
  exists U, gv. split; [done |]. split.
  - intros k m0 Hk. specialize (Hget k). by rewrite Hk in Hget.
  - intros k. rewrite Hkeys. split; [| by right].
    intros [Hk|?]; [| done]. by apply not_elem_of_nil in Hk.
Qed.

Lemma execute_from_parts list_of_set self data U gv keylist self' r :
  for_each (Formatter.group_step self) data ([], None) = Ok (U, gv) →
  Formatter.order_keys list_of_set self U = Ok (keylist, self') →
  for_each (Formatter.arrange_step self' U) keylist [] = r →
  (Formatter.execute list_of_set self data).2 = r.
Proof. unfold Formatter.execute. by intros -> -> <-. Qed.

(** X15: [execute] returns a result when every entity of the collection has the
    sort attribute set and, if there is a grouping attribute, that one too. *)
Theorem execute_returns list_of_set gb go sb so self data :
  Formatter.__init__ gb go (Some sb) so = Ok self →
  (∀ d, d ∈ data.*2 →
        (∀ g, gb = Some g → is_Some (attr d (lower g))) ∧ is_Some (attr d (lower sb))) →
  ∃ results, (Formatter.execute list_of_set self data).2 = Ok results.
Proof.
  intros (Hgb & (s & [= <-] & Hsb) & Hgo)%init_fields Hset.
  assert (∀ d, d ∈ data.*2 → is_Some (group_of self d)) as Hown.
  { intros d Hd. unfold group_of. rewrite Hgb. destruct gb as [g|]; simpl.
    - destruct (Hset d Hd) as [Hg _]. destruct (Hg g eq_refl) as [v ->]. by eexists.
    - destruct (attr d _); by eexists. }
  destruct (group_loop_from_empty self data Hown) as (U & gv & Hgroup & Hget & Hkeys).
  destruct (order_keys_total list_of_set self U Hgo) as (keylist & self' & Horder).
  { intros k (d & _ & Hk)%Hkeys. apply (group_of_is_string self d); [| done].
    by rewrite Hsb. }
  pose proof (order_keys_Ok _ _ _ _ _ Horder) as (Hsb' & Hso' & _).
  destruct (for_each_total (Formatter.arrange_step self' U) keylist []) as [results Hloop].
  - intros results k _. unfold Formatter.arrange_step, dict_in, dict_getitem.
    rewrite Hsb', Hsb. destruct (dict_get U k) as [m0|] eqn:Hk; simpl; [| by eexists].
    destruct (sorted_total (fun y => CrisEntity.__getitem__ y (lower sb))
                (Formatter.is_desc (Formatter.sort_order self')) m0) as [m ->].
    + intros d Hd. rewrite (Hget k m0 Hk) in Hd. apply list_elem_of_filter in Hd as [_ Hd].
      destruct (Hset d Hd) as [_ [v Hv]]. exists v. by apply attr_getitem.
    + simpl. by eexists.
  - exists results. by apply (execute_from_parts _ _ _ U gv keylist self').
Qed.

Lemma execute_returns_witness :
  ∃ results, (Formatter.execute in_order by_year three_papers).2 = Ok results.
Proof.
  apply (execute_returns in_order (Some "PublYear") (Formatter.Sentinel SORT_ASC) "ID"
           (Formatter.Sentinel SORT_ASC)).
  - reflexivity.
  - intros d Hd. apply list_elem_of_In in Hd. vm_compute in Hd.
    destruct Hd as [<-|[<-|[<-|[]]]]; (split; [intros g [= <-] |]); by eexists.
Defined.

(** X16: when two entities of the collection share a group and one of them has
    the sort attribute unset, [execute] raises
    "Cannot sort by unset attribute.". *)
Theorem execute_unset_sort_attribute list_of_set gb go sb so self data i j d1 d2 :
  Formatter.__init__ (Some gb) go (Some sb) so = Ok self →
  (∀ d, d ∈ data.*2 → is_Some (CrisEntity._data d) ∧ is_Some (attr d (lower gb))) →
  data.*2 !! i = Some d1 → data.*2 !! j = Some d2 → i ≠ j →
  lower <$> attr d1 (lower gb) = lower <$> attr d2 (lower gb) →
  attr d1 (lower sb) = None →
  (Formatter.execute list_of_set self data).2
  = Raise (Exception "Cannot sort by unset attribute.").
Proof.
  intros (Hgb & (s & [= <-] & Hsb) & Hgo)%init_fields Hset Hi Hj Hij Hsame Hunset.
  simpl in Hgb.
  assert (∀ d, d ∈ data.*2 → is_Some (group_of self d)) as Hown.
  { intros d Hd. rewrite (group_of_attr self (lower gb)) by done.
    destruct (Hset d Hd) as [_ [v ->]]. by eexists. }
  destruct (group_loop_from_empty self data Hown) as (U & gv & Hgroup & Hget & Hkeys).
  destruct (order_keys_total list_of_set self U Hgo) as (keylist & self' & Horder).
  { intros k (d & _ & Hk)%Hkeys. apply (group_of_is_string self d); [| done].
    by rewrite Hsb. }
  pose proof (order_keys_Ok _ _ _ _ _ Horder) as (Hsb' & Hso' & _).
  apply (execute_from_parts _ _ _ U gv keylist self'); [done | done |].
  assert (∀ k m0 d, dict_get U k = Some m0 → d ∈ m0 →
                    ∃ v, CrisEntity.__getitem__ d (lower sb) = Ok v) as Hread.
  { intros k m0 d Hk Hd. rewrite (Hget k m0 Hk) in Hd.
    apply list_elem_of_filter in Hd as [_ Hd]. destruct (Hset d Hd) as [[b Hb] _].
    unfold CrisEntity.__getitem__. rewrite Hb. by eexists. }
  apply for_each_raises.
  - intros results k _. unfold Formatter.arrange_step, dict_in, dict_getitem.
    rewrite Hsb', Hsb. destruct (dict_get U k) as [m0|] eqn:Hk; simpl; [| left; by eexists].
    destruct (sorted_cases (fun y => CrisEntity.__getitem__ y (lower sb))
                (Formatter.is_desc (Formatter.sort_order self')) m0) as [[m ->]| ->].
    + intros d Hd. by apply (Hread k m0).
    + left. simpl. by eexists.
    + by right.
  - destruct (Hset d1) as [[b1 Hb1] [v1 Hv1]]; [by apply list_elem_of_lookup_2 in Hi |].
    destruct (Hset d2) as [_ [v2 Hv2]]; [by apply list_elem_of_lookup_2 in Hj |].
    assert (group_of self d1 = Some (Some (lower v1))) as Hg1
      by by rewrite (group_of_attr self (lower gb)), Hv1.
    assert (group_of self d2 = Some (Some (lower v1))) as Hg2.
    { rewrite (group_of_attr self (lower gb)), Hv2 by done.
      rewrite Hv1, Hv2 in Hsame. simpl in *. congruence. }
    assert (Some (lower v1) ∈ dict_keys U) as Hin.
    { apply Hkeys. exists d1. split; [by apply list_elem_of_lookup_2 in Hi | done]. }
    exists (Some (lower v1)). split; [by apply (order_keys_covers _ _ _ _ _ Horder) |].
    intros results. unfold Formatter.arrange_step, dict_in, dict_getitem.
    rewrite Hsb', Hsb. apply dict_get_in in Hin as [m0 Hm0]. rewrite Hm0. simpl.
    rewrite (sorted_unset _ _ m0); [done | | |].
    + intros d Hd. by apply (Hread (Some (lower v1)) m0).
    + rewrite (Hget _ m0 Hm0). by apply (filter_two _ _ i j d1 d2).
    + exists d1. split.
      * rewrite (Hget _ m0 Hm0). apply list_elem_of_filter.
        split; [done | by apply list_elem_of_lookup_2 in Hi].
      * unfold attr, CrisEntity.__getitem__ in *. rewrite Hb1 in *. congruence.
Qed.

Lemma execute_unset_sort_attribute_witness :
  (Formatter.execute in_order by_year [("1", e2015); ("9", e2015_no_id)]).2
  = Raise (Exception "Cannot sort by unset attribute.").
Proof.
  apply (execute_unset_sort_attribute in_order "PublYear" (Formatter.Sentinel SORT_ASC) "ID"
           (Formatter.Sentinel SORT_ASC) by_year [("1", e2015); ("9", e2015_no_id)]
           1 0 e2015_no_id e2015).
  - reflexivity.
  - intros d Hd. apply list_elem_of_In in Hd. vm_compute in Hd.
    destruct Hd as [<-|[<-|[]]]; split; by eexists.
  - reflexivity.
  - reflexivity.
  - lia.
  - reflexivity.
  - reflexivity.
Defined.

Lemma init_tidy x e :
  CrisEntity.__init__ (Some x) = Ok e → ∃ d, CrisEntity._data e = Some d ∧ tidy d.
Proof.
  intros (d & -> & Hloop)%init_data. exists d. split; [done |].
  apply (read_children_tidy _ _ _ Hloop (core_fields_tidy x)).
Qed.

Lemma normalized_mixed_case x e item :
  CrisEntity.__init__ (Some x) = Ok e → lower item ≠ item → attr e item = None.
Proof.
  intros (d & Hd & _ & Hlow)%init_tidy Hitem.
  unfold attr, CrisEntity.__getitem__. rewrite Hd.
  destruct (dict_get d item) as [v|] eqn:Hg; [| done].
  destruct Hitem. apply Hlow, dict_get_in. by rewrite Hg.
Qed.

Lemma NoDup_single {A : Type} (l : list A) a :
  NoDup l → (∀ x, x ∈ l → x = a) → a ∈ l → l = [a].
Proof.
  intros Hnd Hall Ha. destruct l as [|x l]; [by apply not_elem_of_nil in Ha |].
  rewrite (Hall x) in * by apply list_elem_of_here. f_equal.
  destruct l as [|y l]; [done |]. apply NoDup_cons in Hnd as [Hx _]. destruct Hx.
  rewrite (Hall y) by apply list_elem_of_further, list_elem_of_here.
  apply list_elem_of_here.
Qed.

(** X17: without a grouping attribute, a non-empty collection of normalized
    entities comes out as one group, named after the sort attribute, that
    holds the whole collection in sorted order. *)
Theorem execute_without_grouping list_of_set go sb so self data results :
  Formatter.__init__ None go (Some sb) so = Ok self →
  (∀ d, d ∈ data.*2 → ∃ x, CrisEntity.__init__ (Some x) = Ok d) →
  data ≠ [] →
  (Formatter.execute list_of_set self data).2 = Ok results →
  ∃ m, results = [(Some (lower sb), m)]
       ∧ m ≡ₚ data.*2
       ∧ StronglySorted (ordered_by (fun y => CrisEntity.__getitem__ y (lower sb))
                                    (Formatter.is_desc (Formatter.sort_order self))) m.
Proof.
  intros (Hgb & (s & [= <-] & Hsb) & _)%init_fields Hnorm Hdata Hex. simpl in Hgb.
  assert (∀ d, d ∈ data.*2 → group_of self d = Some (Some (lower sb))) as Hk0.
  { intros d [x Hx]%Hnorm. unfold group_of. rewrite Hgb, Hsb. simpl.
    by rewrite (normalized_mixed_case x d "None" Hx). }
  assert (∀ d, d ∈ data.*2 → is_Some (group_of self d)) as Hown.
  { intros d ->%Hk0. by eexists. }
  pose proof (execute_own_groups _ _ _ _ Hown Hex (Some (lower sb))) as Ha.
  rewrite filter_all in Ha by done.
  pose proof Hex as (U & gv & Hgroup & _ & Hnd & Hkeys & _)%execute_values.
  destruct (group_loop_from_empty self data Hown) as (U' & gv' & Hgroup' & _ & HkeysU).
  rewrite Hgroup in Hgroup'. injection Hgroup' as <- <-.
  assert (dict_keys results = [Some (lower sb)]) as Hres.
  { apply NoDup_single; [done | |].
    - intros k (d & Hd & Hk)%Hkeys%HkeysU. rewrite (Hk0 d Hd) in Hk. by injection Hk.
    - apply Hkeys, HkeysU. destruct data as [|[i d] data]; [done |].
      exists d. split; [apply list_elem_of_here | apply Hk0, list_elem_of_here]. }
  destruct results as [|[k m] [|? ?]]; try done. injection Hres as ->.
  exists m. split; [done |]. cbn [dict_get] in Ha. rewrite decide_True in Ha by done.
  cbn [default from_option] in Ha. split; [by apply arranged_perm in Ha |].
  unfold arranged in Ha. rewrite Hsb in Ha. by apply sorted_ordered in Ha.
Qed.

Lemma execute_without_grouping_witness :
  ∃ m, [(Some "id", [entity_2020; entity_bare])] = [(Some (lower "ID"), m)]
       ∧ m ≡ₚ [("8", entity_bare); ("7", entity_2020)].*2
       ∧ StronglySorted (ordered_by (fun y => CrisEntity.__getitem__ y (lower "ID"))
                                    (Formatter.is_desc (Formatter.sort_order sort_only))) m.
Proof.
  apply (execute_without_grouping in_order (Formatter.Sentinel SORT_DESC) "ID"
           (Formatter.Sentinel SORT_ASC) sort_only [("8", entity_bare); ("7", entity_2020)]).
  - reflexivity.
  - intros d Hd. apply list_elem_of_In in Hd. vm_compute in Hd.
    destruct Hd as [<-|[<-|[]]]; [by exists record_bare | by exists record_2020].
  - done.
  - reflexivity.
Defined.

(** ** The BibTeX mapping *)

Lemma bind_Ok {A B : Type} (m : outcome A) (f : A -> outcome B) b :
  m ≫= f = Ok b → ∃ a, m = Ok a ∧ f a = Ok b.
Proof. destruct m as [a| |]; simpl; [by exists a | done | done]. Qed.

Lemma getitem_Ok {K V : Type} `{EqDecision K} (d : list (K * V)) k v :
  dict_getitem d k = Ok v → dict_get d k = Some v.
Proof. unfold dict_getitem. destruct (dict_get d k); by intros [= <-]. Qed.

Lemma getitem_key {K V : Type} `{EqDecision K} (d : list (K * V)) k v :
  dict_getitem d k = Ok v → k ∈ dict_keys d.
Proof. intros Hk%getitem_Ok. apply dict_get_in. by rewrite Hk. Qed.

(** What [copy] reads and what it leaves alone. *)
Lemma copy_Ok data pairs b b' :
  Publication.copy data pairs b = Ok b' →
  (∀ p, p ∈ pairs → p.2 ∈ dict_keys data)
  ∧ (∀ k, k ∉ pairs.*1 → dict_get b' k = dict_get b k)
  ∧ (NoDup (dict_keys b) → NoDup (dict_keys b')).
Proof.
  unfold Publication.copy. revert b. induction pairs as [|p pairs IH]; intros b.
  - intros [= <-]. split; [| done]. intros p Hp. by apply not_elem_of_nil in Hp.
  - cbn [for_each]. intros (b1 & Hp & Hrest)%bind_Ok.
    apply bind_Ok in Hp as (v & Hv & [= <-]).
    destruct (IH _ Hrest) as (Hkeys & Hget & Hnd). split; [| split].
    + intros q [->|Hq]%elem_of_cons; [by apply getitem_key in Hv | by apply Hkeys].
    + intros k Hk. rewrite fmap_cons in Hk. apply not_elem_of_cons in Hk as [Hk1 Hk2].
      rewrite (Hget k Hk2). by apply dict_get_set_ne.
    + intros Hb. by apply Hnd, dict_set_NoDup.
Qed.

Lemma dict_get_elem {K V : Type} `{EqDecision K} (d : list (K * V)) k v :
  dict_get d k = Some v → (k, v) ∈ d.
Proof.
  induction d as [|[k' v'] d IH]; [done |]. cbn [dict_get].
  destruct (decide (k' = k)) as [->|_].
  - intros [= ->]. apply list_elem_of_here.
  - intros Hd. by apply list_elem_of_further, IH.
Qed.

Lemma default_misc (d : list (string * string)) (k : option string) :
  default "misc" (k ≫= dict_get d) ∈ "misc" :: d.*2.
Proof.
  destruct k as [k|]; simpl; [| apply list_elem_of_here].
  destruct (dict_get d k) as [v|] eqn:Hk; simpl; [| apply list_elem_of_here].
  apply list_elem_of_further, list_elem_of_fmap. exists (k, v). split; [done |].
  by apply dict_get_elem.
Qed.

Lemma set_fields_get (bibdata : Publication.record) k :
  NoDup (dict_keys bibdata) →
  dict_get (set_fields bibdata) k = mjoin (dict_get bibdata k).
Proof.
  unfold set_fields, dict_keys. induction bibdata as [|[k' [v|]] b IH]; [done | |].
  - rewrite fmap_cons. intros [_ Hnd]%NoDup_cons. cbn [omap list_omap snd fst dict_get].
    destruct (decide (k' = k)); [done | by apply IH].
  - rewrite fmap_cons. cbn [fst]. intros [Hk' Hnd]%NoDup_cons.
    cbn [omap list_omap snd fst dict_get].
    destruct (decide (k' = k)) as [->|_]; [| by apply IH].
    rewrite (IH Hnd). simpl.
    destruct (dict_get b k) as [v|] eqn:Hk; [| done].
    destruct Hk'. apply dict_get_in. by rewrite Hk.
Qed.

Lemma conference_fields_Ok data b b' :
  Publication.conference_fields data b = Ok b' →
  (∀ k, k ∉ ["booktitle"; "venue"; "date"] → dict_get b' k = dict_get b k)
  ∧ (NoDup (dict_keys b) → NoDup (dict_keys b')).
Proof.
  unfold Publication.conference_fields.
  intros (b1 & (_ & Hg1 & Hn1)%copy_Ok & H)%bind_Ok.
  apply bind_Ok in H as (b2 & H2 & H).
  apply bind_Ok in H as (b3 & (_ & Hg3 & Hn3)%copy_Ok & H).
  assert ((∀ k, k ∉ ["booktitle"; "venue"; "date"] → dict_get b2 k = dict_get b1 k)
          ∧ (NoDup (dict_keys b1) → NoDup (dict_keys b2))) as [Hg2 Hn2].
  { destruct (Publication.falsy _).
    - apply copy_Ok in H2 as (_ & Hg2 & Hn2). split; [| done].
      intros k Hk. apply Hg2. not_listed Hk.
    - by injection H2 as <-. }
  assert ((∀ k, k ∉ ["booktitle"; "venue"; "date"] → dict_get b' k = dict_get b3 k)
          ∧ (NoDup (dict_keys b3) → NoDup (dict_keys b'))) as [Hg4 Hn4].
  { destruct (mjoin (dict_get b3 "date")) as [date|]; [| by injection H as <-].
    apply bind_Ok in H as ([e|] & _ & [= <-]); [| done]. split.
    - intros k Hk. apply dict_get_set_ne. intros <-. apply Hk. solve_elem.
    - apply dict_set_NoDup. }
  split; [| by intros ?%Hn1%Hn2%Hn3%Hn4].
  intros k Hk. rewrite (Hg4 k Hk), Hg3, (Hg2 k Hk), Hg1; [done | |]; not_listed Hk.
Qed.

Lemma typed_set bibtype b k v : k ≠ "type" → typed bibtype b → typed bibtype (dict_set b k v).
Proof.
  intros Hk [Hnd Ht]. split; [by apply dict_set_NoDup |].
  by rewrite dict_get_set_ne.
Qed.

Lemma typed_copy bibtype data pairs b b' :
  Publication.copy data pairs b = Ok b' → "type" ∉ pairs.*1 →
  typed bibtype b → typed bibtype b'.
Proof.
  intros (_ & Hget & Hnd)%copy_Ok Hk [Hb Ht]. split; [by apply Hnd |].
  by rewrite Hget.
Qed.

Lemma typed_copy_if bibtype data pairs (c : bool) b b' :
  (if c then Publication.copy data pairs b else Ok b) = Ok b' → "type" ∉ pairs.*1 →
  typed bibtype b → typed bibtype b'.
Proof. destruct c; [apply typed_copy | by intros [= <-]]. Qed.

Lemma bibtype_cases (data : Publication.record) publtype bibtype :
  (if decide (publtype = "thesis") then
     sub ← dict_getitem data "publication thesis subtype";
     Ok (default "misc" (sub ≫= dict_get Publication.thesis_types))
   else Ok (default "misc" (dict_get Publication.types publtype))) = Ok bibtype →
  bibtype ∈ entry_types.
Proof.
  intros H.
  assert (bibtype ∈ "misc" :: Publication.thesis_types.*2
          ∨ bibtype ∈ "misc" :: Publication.types.*2) as Hin.
  { destruct (decide (publtype = "thesis")).
    - apply bind_Ok in H as (sub & _ & [= <-]). left.
      apply (default_misc Publication.thesis_types sub).
    - injection H as <-. right. apply (default_misc Publication.types (Some publtype)). }
  unfold entry_types.
  destruct Hin as [Hin|Hin]; apply list_elem_of_In in Hin; cbn in Hin;
    repeat (destruct Hin as [<-|Hin]; [solve_elem |]); done.
Qed.

Lemma toBibTeX_Ok inst self mc r :
  Publication.toBibTeX inst self mc = Ok r →
  ∃ data pt bibtype b,
    CrisEntity._data self = Some data
    ∧ dict_get data "publication type" = Some (Some pt)
    ∧ bibtype ∈ entry_types
    ∧ (∀ k, k ∈ required_keys → k ≠ "exportauthors" → k ∈ dict_keys data)
    ∧ typed bibtype b
    ∧ match Publication.authors data with
      | Raise e => e = AttributeError ∧ r = Publication.Empty
      | Ok ae =>
          mc = false
          ∧ r = Publication.Entry
                  (set_fields (dict_set b (author_key pt) (Some (ae +:+ et_al data))))
      | Beyond => False
      end.
Proof.
  intros H. unfold Publication.toBibTeX in H.
  apply bind_Ok in H as ([] & _ & H).
  apply bind_Ok in H as (data & Hdata & H).
  apply bind_Ok in H as (pt & Hpt & H).
  apply bind_Ok in H as (publtype & Hpubltype & H).
  apply bind_Ok in H as (bibtype & Hbibtype%bibtype_cases & H).
  apply bind_Ok in H as (id & Hid & H).
  cbv zeta in H.
  apply bind_Ok in H as (b1 & Hb1 & H).
  apply bind_Ok in H as (b3 & Hb3 & H).
  apply bind_Ok in H as (b4 & Hb4 & H).
  apply bind_Ok in H as (b5 & Hb5 & H).
  apply bind_Ok in H as (conf & _ & H).
  apply bind_Ok in H as (b6 & Hb6 & H).
  destruct (CrisEntity._data self) as [d|]; [| done]. injection Hdata as ->.
  destruct pt as [pt|]; [| done]. injection Hpubltype as <-.
  assert (typed bibtype b1) as P1.
  { apply (typed_copy _ _ _ _ _ Hb1); [decide_it |]. split; [decide_it | done]. }
  assert (typed bibtype b3) as P3.
  { apply (typed_copy_if _ _ _ _ _ _ Hb3); [decide_it |].
    destruct (mjoin (dict_get b1 "abstract")) as [a|]; [| done].
    destruct (String.prefix "<p>" a); [by apply typed_set | done]. }
  assert (typed bibtype b4) as P4 by (apply (typed_copy_if _ _ _ _ _ _ Hb4); [decide_it | done]).
  assert (typed bibtype b5) as P5 by (apply (typed_copy_if _ _ _ _ _ _ Hb5); [decide_it | done]).
  assert (typed bibtype b6) as P6.
  { destruct conf; [| by injection Hb6 as <-].
    apply conference_fields_Ok in Hb6 as [Hg Hn]. destruct P5 as [Hn5 Ht5].
    split; [by apply Hn |]. rewrite Hg; [done | decide_it]. }
  clear Hb3 Hb4 Hb5 Hb6 P1 P3 P4 P5.
  match type of H with context [dict_set ?b "note" ?v] =>
    match b with context [dict_set b6 "school" ?w] =>
      set (b7 := if bool_decide (bibtype ∈ ["phdthesis"; "masterthesis"])
                 then dict_set b6 "school" w else b6) in H
    end
  end.
  assert (typed bibtype b7) as P7.
  { unfold b7.
    destruct (bool_decide (bibtype ∈ ["phdthesis"; "masterthesis"]));
      [by apply typed_set | done]. }
  clearbody b7.
  match type of H with context [dict_set b7 "note" ?v] =>
    set (b8 := if bool_decide (bibtype = "unpublished")
                  && Publication.falsy (mjoin (dict_get b7 "note"))
               then dict_set b7 "note" v else b7) in H
  end.
  assert (typed bibtype b8) as P8.
  { unfold b8. destruct (_ && _); [by apply typed_set | done]. }
  clearbody b8.
  exists data, pt, bibtype.
  exists (match mjoin (dict_get data "complete author relations") with
          | None => dict_set (dict_set b8 "support_note"
                      (Some ("Author relations incomplete. " +:+
                             "You may find additional data in field 'author_hint'")))
                      "author_hint" (default (Some EmptyString) (dict_get data "srcauthors"))
          | Some _ => b8
          end).
  split; [done |]. split; [by apply getitem_Ok |]. split; [done |]. split.
  { match type of Hb1 with Publication.copy _ ?pairs _ = _ =>
      assert (∀ k, k ∈ pairs.*2 → k ∈ dict_keys data) as Hread
    end.
    { apply copy_Ok in Hb1 as (Hkeys & _ & _).
      intros k (p & -> & Hp)%list_elem_of_fmap. by apply Hkeys. }
    intros k Hk Hne. apply list_elem_of_In in Hk. cbn in Hk.
    destruct Hk as [<-|[<-|Hk]]; [by apply getitem_key in Hpt | by apply getitem_key in Hid |].
    repeat (destruct Hk as [<-|Hk]; [first [done | apply Hread; cbn; solve_elem] |]).
    done. }
  split.
  { destruct (mjoin (dict_get data "complete author relations")); [done |].
    by repeat apply typed_set. }
  destruct (Publication.authors data) as [ae|e|]; [| by destruct e; try done; injection H as <- | done].
  unfold author_key, et_al.
  destruct (mjoin (dict_get data "complete author relations")) as [c|]; cbn in H.
  - destruct mc; [done |]. split; [done |]. cbn in H. injection H as <-.
    rewrite string_app_nil_r. unfold set_fields. by destruct (decide (lower pt = "editorial")).
  - destruct mc; [done |]. split; [done |]. cbn in H. injection H as <-.
    unfold set_fields. by destruct (decide (lower pt = "editorial")).
Qed.

(** X18: every entry [toBibTeX] returns has a type, and it is one of article,
    book, incollection, inproceedings, phdthesis, masterthesis and misc;
    never "unpublished", which two branches of the method test for. *)
Theorem toBibTeX_entry_type inst self mc fields :
  Publication.toBibTeX inst self mc = Ok (Publication.Entry fields) →
  ∃ t, dict_get fields "type" = Some t ∧ t ∈ entry_types.
Proof.
  intros (data & pt & bibtype & b & _ & _ & Hin & _ & [Hnd Ht] & H)%toBibTeX_Ok.
  exists bibtype. split; [| done].
  destruct (Publication.authors data) as [ae|e|]; [| by destruct H | done].
  destruct H as [_ [= ->]]. rewrite set_fields_get by by apply dict_set_NoDup.
  rewrite dict_get_set_ne; [by rewrite Ht |].
  unfold author_key. by destruct (decide (lower pt = "editorial")).
Qed.

Lemma toBibTeX_entry_type_witness :
  ∃ t, dict_get paper_entry "type" = Some t ∧ t ∈ entry_types.
Proof.
  apply (toBibTeX_entry_type true paper false).
  reflexivity.
Defined.

Lemma authors_loop_cases (l : list string) acc :
  (∃ names, for_each (fun acc _k =>
                        match Publication.split_on ":" EmptyString _k with
                        | [_i; _j] => Ok (acc ++ [_i +:+ ", " +:+ _j])
                        | _ => Raise ValueError
                        end) l acc = Ok names)
  ∨ for_each (fun acc _k =>
                match Publication.split_on ":" EmptyString _k with
                | [_i; _j] => Ok (acc ++ [_i +:+ ", " +:+ _j])
                | _ => Raise ValueError
                end) l acc = Raise ValueError.
Proof.
  revert acc. induction l as [|k l IH]; intros acc; [left; by eexists |].
  cbn [for_each].
  destruct (Publication.split_on ":" EmptyString k) as [|i [|j [|? ?]]]; simpl;
    first [by right | apply IH].
Qed.

Lemma authors_cases (data : Publication.record) :
  match dict_get data "exportauthors" with
  | None => Publication.authors data = Raise KeyError
  | Some None => Publication.authors data = Raise AttributeError
  | Some (Some _) =>
      (∃ ae, Publication.authors data = Ok ae)
      ∨ Publication.authors data = Raise ValueError
  end.
Proof.
  unfold Publication.authors, dict_getitem.
  destruct (dict_get data "exportauthors") as [[ea|]|]; simpl; try done.
  destruct (authors_loop_cases (Publication.split_on "|" EmptyString ea) [])
    as [[names ->]| ->]; [left; by eexists | by right].
Qed.

(** X19: when [toBibTeX] returns, the bag has the key "exportauthors", and the
    result is the empty text exactly when the value under that key is
    [None]. *)
Theorem toBibTeX_empty_iff inst self mc r :
  Publication.toBibTeX inst self mc = Ok r →
  ∃ data ea, CrisEntity._data self = Some data
             ∧ dict_get data "exportauthors" = Some ea
             ∧ (r = Publication.Empty ↔ ea = None).
Proof.
  intros (data & pt & bibtype & b & Hdata & _ & _ & _ & _ & H)%toBibTeX_Ok.
  exists data. pose proof (authors_cases data) as Hc.
  destruct (dict_get data "exportauthors") as [[ea|]|].
  - exists (Some ea). split; [done |]. split; [done |].
    destruct Hc as [[ae Hae]|Hv]; [| by rewrite Hv in H; destruct H].
    rewrite Hae in H. destruct H as [_ ->]. done.
  - exists None. split; [done |]. split; [done |]. rewrite Hc in H. by destruct H.
  - rewrite Hc in H. by destruct H.
Qed.

Lemma toBibTeX_empty_iff_witness :
  ∃ data ea, CrisEntity._data paper = Some data
             ∧ dict_get data "exportauthors" = Some ea
             ∧ (Publication.Entry paper_entry = Publication.Empty ↔ ea = None).
Proof.
  apply (toBibTeX_empty_iff true paper false).
  reflexivity.
Defined.

(** X20: [toBibTeX] returns only for a bag that holds all thirteen keys it
    reads on every path; with one of them missing it raises. *)
Theorem toBibTeX_requires_keys inst self mc r :
  Publication.toBibTeX inst self mc = Ok r →
  ∃ data, CrisEntity._data self = Some data
          ∧ ∀ k, k ∈ required_keys → k ∈ dict_keys data.
Proof.
  intros (data & pt & bibtype & b & Hdata & _ & _ & Hkeys & _ & H)%toBibTeX_Ok.
  exists data. split; [done |]. intros k Hk.
  destruct (decide (k = "exportauthors")) as [->|Hne]; [| by apply Hkeys].
  pose proof (authors_cases data) as Hc. apply dict_get_in.
  destruct (dict_get data "exportauthors"); [by eexists |].
  rewrite Hc in H. by destruct H.
Qed.

Lemma toBibTeX_requires_keys_witness :
  ∃ data, CrisEntity._data paper = Some data
          ∧ ∀ k, k ∈ required_keys → k ∈ dict_keys data.
Proof.
  apply (toBibTeX_requires_keys true paper false (Publication.Entry paper_entry)).
  reflexivity.
Defined.

(** ** Author lists *)

Lemma chars_app s t c :
  c ∈ Publication.chars (s +:+ t) ↔ c ∈ Publication.chars s ∨ c ∈ Publication.chars t.
Proof.
  induction s as [|a s IH].
  - change (EmptyString +:+ t) with t. split; [by right |].
    intros [Hc|?]; [by apply not_elem_of_nil in Hc | done].
  - change (String a s +:+ t) with (String a (s +:+ t)).
    change (Publication.chars (String a ?x)) with (a :: Publication.chars x).
    rewrite !elem_of_cons, IH. tauto.
Qed.

Lemma split_on_plain sep cur t :
  (∀ c, c ∈ Publication.chars t → c ≠ sep) →
  Publication.split_on sep cur t = [cur +:+ t].
Proof.
  revert cur. induction t as [|c t IH]; intros cur Ht.
  - simpl. by rewrite string_app_nil_r.
  - cbn [Publication.split_on]. rewrite decide_False by apply Ht, list_elem_of_here.
    rewrite IH by (intros c' Hc'; by apply Ht, list_elem_of_further).
    by rewrite string_app_snoc.
Qed.

Lemma split_on_sep sep cur t s :
  (∀ c, c ∈ Publication.chars t → c ≠ sep) →
  Publication.split_on sep cur (t +:+ String sep s)
  = (cur +:+ t) :: Publication.split_on sep EmptyString s.
Proof.
  revert cur. induction t as [|c t IH]; intros cur Ht.
  - change (EmptyString +:+ String sep s) with (String sep s).
    cbn [Publication.split_on]. rewrite decide_True by done. by rewrite string_app_nil_r.
  - change (String c t +:+ String sep s) with (String c (t +:+ String sep s)).
    cbn [Publication.split_on]. rewrite decide_False by apply Ht, list_elem_of_here.
    rewrite IH by (intros c' Hc'; by apply Ht, list_elem_of_further).
    by rewrite string_app_snoc.
Qed.

Lemma split_join sep (l : list string) :
  l ≠ [] → (∀ x c, x ∈ l → c ∈ Publication.chars x → c ≠ sep) →
  Publication.split_on sep EmptyString (Publication.join (String sep EmptyString) l) = l.
Proof.
  induction l as [|x [|y l] IH]; intros Hne Hl; [done | |].
  - cbn [Publication.join]. rewrite split_on_plain; [done |].
    intros c. apply Hl, list_elem_of_here.
  - change (Publication.join (String sep EmptyString) (x :: y :: l))
      with (x +:+ String sep EmptyString
              +:+ Publication.join (String sep EmptyString) (y :: l)).
    change (String sep EmptyString +:+ ?s) with (String sep s).
    rewrite split_on_sep by (intros c; apply Hl, list_elem_of_here).
    rewrite IH; [done | done |]. intros x' c Hx'. apply Hl. by apply list_elem_of_further.
Qed.

Lemma authors_loop_Ok (names : list (string * string)) acc :
  (∀ p, p ∈ names → plain p.1 ∧ plain p.2) →
  for_each (fun acc _k =>
              match Publication.split_on ":" EmptyString _k with
              | [_i; _j] => Ok (acc ++ [_i +:+ ", " +:+ _j])
              | _ => Raise ValueError
              end) ((fun p => p.1 +:+ ":" +:+ p.2) <$> names) acc
  = Ok (acc ++ ((fun p => p.1 +:+ ", " +:+ p.2) <$> names)).
Proof.
  revert acc. induction names as [|[l f] names IH]; intros acc Hp.
  - by rewrite app_nil_r.
  - rewrite !fmap_cons. cbn [for_each fst snd].
    destruct (Hp (l, f)) as [Hl Hf]; [apply list_elem_of_here |].
    change (":" +:+ f) with (String ":" f).
    rewrite split_on_sep by (intros c Hc; by apply Hl).
    rewrite split_on_plain by (intros c Hc; by apply Hf).
    simpl. rewrite IH by (intros p Hin; by apply Hp, list_elem_of_further).
    by rewrite <- app_assoc.
Qed.

Lemma authors_format (data : Publication.record) (names : list (string * string)) :
  dict_get data "exportauthors"
  = Some (Some (Publication.join "|" ((fun p => p.1 +:+ ":" +:+ p.2) <$> names))) →
  names ≠ [] → (∀ p, p ∈ names → plain p.1 ∧ plain p.2) →
  Publication.authors data
  = Ok (Publication.join " and " ((fun p => p.1 +:+ ", " +:+ p.2) <$> names)).
Proof.
  intros Hea Hne Hp. unfold Publication.authors, dict_getitem. rewrite Hea. simpl.
  rewrite (split_join "|"%char).
  - by rewrite (authors_loop_Ok names []).
  - by destruct names.
  - intros x c (p & -> & Hin)%list_elem_of_fmap Hc.
    destruct (Hp p Hin) as [H1 H2].
    apply chars_app in Hc as [Hc|Hc]; [by apply H1 |].
    change (":" +:+ p.2) with (String ":" p.2) in Hc.
    apply elem_of_cons in Hc as [->|Hc]; [done | by apply H2].
Qed.

(** X21: the author text.  When "exportauthors" lists the names as
    "last:first" joined by "|", the entry holds them as "last, first" joined
    by " and ", with " and et al." appended when the author relations are not
    marked complete; under "editor" for an editorial, under "author"
    otherwise. *)
Theorem toBibTeX_author_field inst self mc fields data pt names :
  Publication.toBibTeX inst self mc = Ok (Publication.Entry fields) →
  CrisEntity._data self = Some data →
  dict_get data "publication type" = Some (Some pt) →
  dict_get data "exportauthors"
  = Some (Some (Publication.join "|" ((fun p => p.1 +:+ ":" +:+ p.2) <$> names))) →
  names ≠ [] → (∀ p, p ∈ names → plain p.1 ∧ plain p.2) →
  dict_get fields (author_key pt)
  = Some (Publication.join " and " ((fun p => p.1 +:+ ", " +:+ p.2) <$> names)
          +:+ et_al data).
Proof.
  intros (data' & pt' & bibtype & b & Hdata' & Hpt' & _ & _ & [Hnd _] & H)%toBibTeX_Ok
         Hdata Hpt Hea Hne Hp.
  rewrite Hdata in Hdata'. injection Hdata' as <-.
  rewrite Hpt in Hpt'. injection Hpt' as <-.
  rewrite (authors_format data names Hea Hne Hp) in H. destruct H as [_ [= ->]].
  rewrite set_fields_get by by apply dict_set_NoDup.
  by rewrite dict_get_set_eq.
Qed.

Lemma toBibTeX_author_field_witness :
  dict_get paper_entry (author_key "Journal Article")
  = Some (Publication.join " and "
            ((fun p => p.1 +:+ ", " +:+ p.2) <$> [("Smith", "Jane"); ("Doe", "John")])
          +:+ et_al (default [] (CrisEntity._data paper))).
Proof.
  apply (toBibTeX_author_field true paper false paper_entry
           (default [] (CrisEntity._data paper)) "Journal Article"
           [("Smith", "Jane"); ("Doe", "John")]).
  - reflexivity.
  - reflexivity.
  - reflexivity.
  - reflexivity.
  - done.
  - intros p Hin. apply list_elem_of_In in Hin. vm_compute in Hin.
    destruct Hin as [<-|[<-|[]]]; split;
      refine (proj1 (Forall_forall (fun c => c ≠ ":"%char ∧ c ≠ "|"%char) _) _);
      apply (bool_decide_unpack _); by vm_compute.
Defined.

(** ** Requests for ids: the decimal text of an integer *)

Lemma rev_app_rev_app s t u :
  String.rev_app (String.rev_app s t) u = String.rev_app t (s +:+ u).
Proof.
  revert t u. induction s as [|a s IH]; intros t u; [done |].
  cbn [String.rev_app]. by rewrite IH.
Qed.

Lemma rev_rev s : String.rev (String.rev s) = s.
Proof. unfold String.rev. by rewrite rev_app_rev_app, string_app_nil_r. Qed.

Lemma rev_app_no_space s t : no_space s → no_space t → no_space (String.rev_app s t).
Proof.
  revert t. induction s as [|a s IH]; intros t Hs Ht; [done |].
  cbn [String.rev_app]. apply IH.
  - intros c Hc. apply Hs. by apply list_elem_of_further.
  - intros c [->|Hc]%elem_of_cons; [apply Hs, list_elem_of_here | by apply Ht].
Qed.

Lemma lstrip_no_space s : no_space s → Publication.lstrip s = s.
Proof.
  destruct s as [|c s]; [done |]. intros Hs. simpl.
  by rewrite (Hs c) by apply list_elem_of_here.
Qed.

Lemma strip_no_space s : no_space s → Publication.strip s = s.
Proof.
  intros Hs. unfold Publication.strip. rewrite (lstrip_no_space s Hs).
  rewrite lstrip_no_space; [apply rev_rev |].
  apply rev_app_no_space; [done |]. intros c Hc. by apply not_elem_of_nil in Hc.
Qed.

Lemma digits_no_space s : all_digits s → no_space s.
Proof.
  intros Hs c Hc. specialize (Hs c Hc). revert Hs.
  unfold Publication.is_digit, Publication.is_space.
  destruct c as [[] [] [] [] [] [] [] []]; by vm_compute.
Qed.

Lemma string_of_uint_digits u : all_digits (NilEmpty.string_of_uint u).
Proof.
  induction u; simpl; intros c Hc;
    first [ by apply not_elem_of_nil in Hc
          | apply elem_of_cons in Hc as [->|Hc]; [reflexivity | by apply IHu] ].
Qed.

Lemma literal_digits_all s :
  all_digits s → Publications.literal_digits true s = Some s.
Proof.
  induction s as [|c s IH]; intros Hs; [done |]. simpl.
  rewrite (Hs c) by apply list_elem_of_here. rewrite IH; [done |].
  intros c' Hc'. apply Hs. by apply list_elem_of_further.
Qed.

Lemma int_of_digits_uint u :
  u ≠ Decimal.Nil →
  Publications.int_of_digits (NilEmpty.string_of_uint u) = Some (Z.of_uint u).
Proof.
  intros Hu. unfold Publications.int_of_digits.
  pose proof (string_of_uint_digits u) as Hd.
  assert (Publications.literal_digits false (NilEmpty.string_of_uint u)
          = Some (NilEmpty.string_of_uint u)) as ->.
  { destruct (NilEmpty.string_of_uint u) as [|c s] eqn:Hs.
    - destruct u; simpl in Hs; done.
    - simpl. rewrite (Hd c) by apply list_elem_of_here.
      rewrite literal_digits_all; [done |].
      intros c' Hc'. apply Hd. by apply list_elem_of_further. }
  simpl. by rewrite NilEmpty.usu.
Qed.

Lemma py_int_uint u :
  u ≠ Decimal.Nil →
  Publications.py_int (NilEmpty.string_of_uint u) = Some (Z.of_uint u).
Proof.
  intros Hu. unfold Publications.py_int.
  rewrite (strip_no_space _ (digits_no_space _ (string_of_uint_digits u))).
  pose proof (string_of_uint_digits u) as Hd.
  pose proof (int_of_digits_uint u Hu) as Hi.
  destruct (NilEmpty.string_of_uint u) as [|c s] eqn:Hs.
  - destruct u; simpl in Hs; done.
  - assert (Publication.is_digit c = true) as Hc by apply Hd, list_elem_of_here.
    destruct (decide (c = "-"%char)) as [->|_]; [by vm_compute in Hc |].
    destruct (decide (c = "+"%char)) as [->|_]; [by vm_compute in Hc |]. done.
Qed.

(** [int(str(z)) == z] *)
Lemma py_int_str_of_Z z : Publications.py_int (str_of_Z z) = Some z.
Proof.
  unfold str_of_Z. rewrite <- (DecimalZ.of_to z) at 2.
  destruct z as [|p|p]; [reflexivity | |].
  - apply py_int_uint, Unsigned.to_uint_nonnil.
  - cbn [Z.to_int NilEmpty.string_of_int Z.of_int].
    pose proof (Unsigned.to_uint_nonnil p) as Hp.
    unfold Publications.py_int. rewrite strip_no_space.
    + rewrite decide_True by done. by rewrite int_of_digits_uint.
    + intros c [->|Hc]%elem_of_cons; [reflexivity |].
      by apply (digits_no_space _ (string_of_uint_digits (Pos.to_uint p))).
Qed.

Lemma contains_cons_false s sub c :
  contains (String c s) sub = false → contains s sub = false.
Proof. cbn [contains]. by intros [_ ?]%orb_false_iff. Qed.

Lemma no_comma s :
  (∀ c, c ∈ Publication.chars s → c ≠ ","%char) → contains s "," = false.
Proof.
  induction s as [|c s IH]; intros Hs; [done |].
  cbn [contains]. rewrite IH by (intros c' Hc'; by apply Hs, list_elem_of_further).
  rewrite orb_false_r.
  destruct (String.prefix "," (String c s)) eqn:Hp; [| done].
  apply prefix_correct in Hp. cbn in Hp. destruct s; injection Hp as ->;
    by destruct (Hs ","%char); [apply list_elem_of_here |].
Qed.

Lemma str_of_Z_no_comma z : contains (str_of_Z z) "," = false.
Proof.
  apply no_comma. unfold str_of_Z.
  assert (∀ u c, c ∈ Publication.chars (NilEmpty.string_of_uint u) → c ≠ ","%char) as Hu.
  { intros u c Hc ->. by apply string_of_uint_digits in Hc. }
  destruct (Z.to_int z) as [u|u]; simpl; [apply Hu |].
  intros c [->|Hc]%elem_of_cons; [done | by apply (Hu u)].
Qed.

Lemma str_of_Z_zero z : str_of_Z z = "0" → z = 0%Z.
Proof.
  intros Hz. pose proof (py_int_str_of_Z z) as Hp. rewrite Hz in Hp.
  vm_compute in Hp. by injection Hp.
Qed.

(** ** [_fetch] *)

Lemma requests_snoc tpl zs z :
  requests tpl (zs ++ [z]) = requests tpl zs ++ ((fun t => Publications.format t z) <$> tpl).
Proof. unfold requests. rewrite bind_app. simpl. by rewrite app_nil_r. Qed.

Lemma fetch_id_loop name tpl (l : list pyval) zs0 :
  for_each (fun reqs _i =>
              _i ← try_except_on ValueError (Publications.to_int _i)
                     (Raise (Exception ("invalid " +:+ name +:+ " id number")));
              Ok (reqs ++ ((fun t => Publications.format t _i) <$> tpl)))
           l (requests tpl zs0)
  = (zs ← for_each (fun zs _i =>
                      z ← try_except_on ValueError (Publications.to_int _i)
                            (Raise (Exception ("invalid " +:+ name +:+ " id number")));
                      Ok (zs ++ [z])) l zs0;
     Ok (requests tpl zs)).
Proof.
  revert zs0. induction l as [|v l IH]; intros zs0; [done |].
  cbn [for_each].
  destruct (try_except_on ValueError (Publications.to_int v) _) as [z| |]; simpl; try done.
  rewrite <- requests_snoc. apply IH.
Qed.

(** [_fetch] reads all the ids first, and then retrieves the requests of
    the templates for them. *)
Lemma fetch_eq response name class_ tpl ids selector :
  Publications._fetch response name class_ tpl ids selector
  = (zs ← id_numbers name ids;
     FauCris.retrieve response (requests tpl zs) class_ selector).
Proof.
  unfold Publications._fetch, id_numbers.
  destruct (match ids with
            | Publications.IdNone => true
            | Publications.IdStr s => bool_decide (s = "0")
            | _ => false
            end); [done |].
  destruct (Publications._parseId ids) as [| | |l]; try done. simpl.
  pose proof (fetch_id_loop name tpl l []) as Hloop.
  change (requests tpl []) with (@nil string) in Hloop. rewrite Hloop.
  match goal with |- context [for_each ?f l []] => by destruct (for_each f l []) end.
Qed.

Lemma id_loop_Ok name (l : list pyval) zs zs0 :
  Forall2 (fun v z => Publications.to_int v = Ok z) l zs →
  for_each (fun zs _i =>
              z ← try_except_on ValueError (Publications.to_int _i)
                    (Raise (Exception ("invalid " +:+ name +:+ " id number")));
              Ok (zs ++ [z])) l zs0
  = Ok (zs0 ++ zs).
Proof.
  intros Hl. revert zs0. induction Hl as [|v z l zs Hv Hl IH]; intros zs0.
  - by rewrite app_nil_r.
  - cbn [for_each]. rewrite Hv. simpl. rewrite IH. by rewrite <- app_assoc.
Qed.






(** ** [by_orga] *)





(** X26: when every fetched organization has a number and one of the numbers
    ends in "000000", [by_orga] with the check on raises [ValueError]. *)
Theorem by_orga_rejects_root response id_ selector orgas :
  Publications._fetch response "organization" FauCris.Organization
    [{| Publications.before_d := "get/Organisation/";
        Publications.after_d := EmptyString |}] id_ FauCris.NoSelector = Ok orgas →
  (∀ i _o, (i, _o) ∈ orgas → is_Some (attr _o "fau_org_nr")) →
  (∃ i _o nr, (i, _o) ∈ orgas ∧ attr _o "fau_org_nr" = Some nr
              ∧ Publications.endswith nr "000000" = true) →
  Publications.by_orga response id_ selector false = Raise ValueError.
Proof.
  intros Horgas Hall (i & _o & nr & Hin & Hnr & Hend).
  unfold Publications.by_orga. cbn [negb]. rewrite Horgas. cbn.
  rewrite (for_each_raises _ orgas tt ValueError); [done | |].
  - intros [] [j o] Hj. unfold Publications.check_orga. cbn [snd].
    destruct (Hall j o Hj) as [nr' Hnr']. apply attr_getitem in Hnr'. rewrite Hnr'. simpl.
    destruct (Publications.endswith nr' "000000"); [by right | left; by eexists].
  - exists (i, _o). split; [done |]. intros []. unfold Publications.check_orga. cbn [snd].
    apply attr_getitem in Hnr. rewrite Hnr. simpl. by rewrite Hend.
Qed.

Lemma by_orga_rejects_root_witness :
  Publications.by_orga orga_service (Publications.IdInt 1) FauCris.NoSelector false
  = Raise ValueError.
Proof.
  apply (by_orga_rejects_root orga_service (Publications.IdInt 1) FauCris.NoSelector
           [("1", entity [("id", Some "1"); ("createdon", None); ("updatedon", None);
                          ("fau_org_nr", Some "1000000000")])]).
  - reflexivity.
  - intros i _o Hin. apply list_elem_of_In in Hin. vm_compute in Hin.
    destruct Hin as [[= <- <-]|[]]. by eexists.
  - eexists _, _, _. split; [apply list_elem_of_here |]. split; reflexivity.
Defined.

Lemma retrieve_same_documents response reqs reqs' _class selector :
  documents response reqs = documents response reqs' →
  FauCris.retrieve response reqs _class selector
  = FauCris.retrieve response reqs' _class selector.
Proof.
  intros Hd. unfold FauCris.retrieve.
  destruct (FauCris.as_selector selector) as [sel| |]; simpl; try done.
  by rewrite !fetch_loop, Hd.
Qed.

Lemma documents_none response reqs :
  (∀ r, r ∈ reqs → response r = None) → documents response reqs = [].
Proof.
  unfold documents. induction reqs as [|r reqs IH]; intros Hr; [done |].
  cbn [omap list_omap]. rewrite (Hr r) by apply list_elem_of_here.
  apply IH. intros r' Hr'. by apply Hr, list_elem_of_further.
Qed.

(** X27: when the web service answers no request for an organization, the check
    of [by_orga] finds nothing to check: the call behaves as with the check
    off. *)
Theorem by_orga_unanswered response id_ selector :
  (∀ r, String.prefix "get/Organisation/" r = true → response r = None) →
  Publications.by_orga response id_ selector false
  = Publications.by_orga response id_ selector true.
Proof.
  intros Hdown. unfold Publications.by_orga. cbn [negb]. rewrite !fetch_eq.
  destruct (id_numbers "organization" id_) as [zs| |]; try done.
  change (Ok zs ≫= ?f) with (f zs). cbv beta.
  rewrite (retrieve_same_documents response
             (requests [{| Publications.before_d := "get/Organisation/";
                           Publications.after_d := EmptyString |}] zs) []); [done |].
  apply documents_none. intros r Hr.
  unfold requests in Hr. apply list_elem_of_bind in Hr as (z & Hr & _).
  apply list_elem_of_singleton in Hr as ->. unfold Publications.format. cbn.
  apply Hdown, prefix_app.
Qed.

Lemma by_orga_unanswered_witness :
  Publications.by_orga two_answers (Publications.IdInt 5) FauCris.NoSelector false
  = Publications.by_orga two_answers (Publications.IdInt 5) FauCris.NoSelector true.
Proof.
  apply (by_orga_unanswered two_answers (Publications.IdInt 5) FauCris.NoSelector).
  intros r Hr. unfold two_answers.
  destruct (decide (r = "a")) as [->|_]; [by vm_compute in Hr |].
  destruct (decide (r = "b")) as [->|_]; [by vm_compute in Hr |]. reflexivity.
Defined.

(** ** Ids given as text *)

Lemma str_of_Z_chars z c :
  c ∈ Publication.chars (str_of_Z z) →
  Publication.is_digit c = true ∨ c = "-"%char.
Proof.
  unfold str_of_Z. destruct (Z.to_int z) as [u|u]; simpl.
  - intros Hc. left. by apply (string_of_uint_digits u).
  - intros [->|Hc]%elem_of_cons; [by right | left; by apply (string_of_uint_digits u)].
Qed.

Lemma str_of_Z_no_space z : no_space (str_of_Z z).
Proof.
  intros c [Hc| ->]%str_of_Z_chars; [| reflexivity].
  by apply (digits_no_space (String c EmptyString));
    [intros c' ->%list_elem_of_singleton | apply list_elem_of_here].
Qed.

Lemma contains_here s sub : String.prefix sub s = true → contains s sub = true.
Proof. intros H. destruct s; cbn [contains]; by rewrite H. Qed.

Lemma contains_app_r t s sub : contains s sub = true → contains (t +:+ s) sub = true.
Proof.
  intros Hs. induction t as [|c t IH]; [done |].
  change (String c t +:+ s) with (String c (t +:+ s)). cbn [contains].
  rewrite IH. apply orb_true_r.
Qed.

Lemma id_text_loop name (zs : list Z) zs0 :
  for_each (fun zs _i =>
              z ← try_except_on ValueError (Publications.to_int _i)
                    (Raise (Exception ("invalid " +:+ name +:+ " id number")));
              Ok (zs ++ [z]))
           ((fun _i => VStr (Publication.strip _i)) <$> (str_of_Z <$> zs)) zs0
  = Ok (zs0 ++ zs).
Proof.
  apply id_loop_Ok. induction zs as [|z zs IH]; [constructor |].
  rewrite !fmap_cons. constructor; [| done].
  cbn [Publications.to_int]. rewrite (strip_no_space _ (str_of_Z_no_space z)).
  by rewrite py_int_str_of_Z.
Qed.

(** X24: ids given as decimal numbers joined by commas fetch what the list of
    these numbers fetches, unless the text is "0". *)
Theorem fetch_text_ids response name class_ tpl zs selector :
  zs ≠ [] → zs ≠ [0%Z] →
  Publications._fetch response name class_ tpl
    (Publications.IdStr (Publication.join "," (str_of_Z <$> zs))) selector
  = Publications._fetch response name class_ tpl
      (Publications.IdList (VInt <$> zs)) selector.
Proof.
  intros Hne Hz. rewrite !fetch_eq. f_equal.
  assert (id_numbers name (Publications.IdList (VInt <$> zs)) = Ok zs) as ->.
  { unfold id_numbers. simpl. rewrite (id_loop_Ok name (VInt <$> zs) zs []); [done |].
    clear. induction zs; constructor; done. }
  destruct zs as [|z1 [|z2 zs]]; [done | |].
  - assert (z1 ≠ 0%Z) by congruence. unfold id_numbers. cbn [fmap list_fmap Publication.join].
    rewrite bool_decide_eq_false_2 by (intros Hs; by apply str_of_Z_zero in Hs).
    unfold Publications._parseId. rewrite str_of_Z_no_comma. simpl.
    by rewrite py_int_str_of_Z.
  - set (l := z1 :: z2 :: zs).
    assert (contains (Publication.join "," (str_of_Z <$> l)) "," = true) as Hcomma.
    { change (Publication.join "," (str_of_Z <$> l))
        with (str_of_Z z1 +:+ "," +:+ Publication.join "," (str_of_Z <$> z2 :: zs)).
      apply contains_app_r, contains_here. apply prefix_correct.
      change ("," +:+ ?s) with (String "," s). cbn. f_equal.
      match goal with |- substring 0 0 ?s = _ => by destruct s end. }
    unfold id_numbers.
    rewrite bool_decide_eq_false_2 by (intros Hs; by rewrite Hs in Hcomma).
    unfold Publications._parseId. rewrite Hcomma.
    rewrite (split_join ","%char).
    + change (Ok ?x ≫= ?f) with (f x). cbv beta.
      by rewrite (id_text_loop name l []).
    + done.
    + intros x c (z & -> & _)%list_elem_of_fmap [Hc| ->]%str_of_Z_chars;
        [by intros -> | done].
Qed.

Lemma fetch_text_ids_witness :
  Publications._fetch orga_service "publication" FauCris.Publication [get_publication]
    (Publications.IdStr (Publication.join "," (str_of_Z <$> [5%Z; 7%Z])))
    FauCris.NoSelector
  = Publications._fetch orga_service "publication" FauCris.Publication [get_publication]
      (Publications.IdList (VInt <$> [5%Z; 7%Z])) FauCris.NoSelector.
Proof.
  apply (fetch_text_ids orga_service "publication" FauCris.Publication [get_publication]
           [5%Z; 7%Z]); done.
Defined.
